(** * AVE dominaplus: the protocol client core, embedded in Rocq

    A shallow embedding of [custom_components/ave_dominaplus]:
    - [web_server.py]: the frame codec ([build_crc], [send_ws_command],
      [on_message]), the dispatcher ([manage_commands] and its helpers), the
      callback slots and the reconnect loop ([start]);
    - [binary_sensor.py] and [switch.py]: the two device tables, the
      entities stored in them and the adoption of the entities of the
      registry ([adopt_existing_sensors]).

    Python values are modelled as follows.
    - [int] is [Z]; [^], [>>], [&] are [Z.lxor], [Z.shiftr], [Z.land]
      (Python integers are unbounded and [>>]/[&] act on the infinite
      two's complement representation, exactly as the [Z] operations do).
    - [str] is the list of its code points, each an [N]; [ord] is [Z.of_N].
    - [bytes] is [list Byte.byte].
    - [dict] is a [gmap]; an object stored in a dict is the record of its
      attributes, and a method that mutates the object writes the record
      back under the same key.
    - an exception is the [Raise] outcome of the [M] monad; the state
      reached before the exception is kept, as in Python. *)

From Stdlib Require Import ZArith NArith List String Ascii Lia Bool.
From Stdlib Require Import HexadecimalString DecimalString DecimalPos.
From stdpp Require Import gmap list.

Open Scope Z_scope.

(** ** Python strings *)

(** A [str] is its sequence of code points. *)
Abbreviation str := (list N).

(** A string literal of the source. *)
Definition lit (s : string) : str :=
  map N_of_ascii (list_ascii_of_string s).

(** [chr(n)] for the code points the source uses. *)
Definition chr (n : N) : str := [n].

Definition ord (c : N) : Z := Z.of_N c.

Definition STX : N := 0x02%N.
Definition ETX : N := 0x03%N.
Definition EOT : N := 0x04%N.
Definition GS : N := 0x1D%N.
Definition RS : N := 0x1E%N.

(** [s.split(sep)] for a one-character separator: never empty, one more
    part than there are separators. *)
Fixpoint split (sep : N) (s : str) : list str :=
  match s with
  | [] => [[]]
  | c :: s' =>
      if N.eqb c sep then [] :: split sep s'
      else match split sep s' with
           | [] => [[c]]
           | part :: parts => (c :: part) :: parts
           end
  end.

(** [sep.join(parts)]. *)
Fixpoint join (sep : str) (parts : list str) : str :=
  match parts with
  | [] => []
  | [p] => p
  | p :: ps => p ++ sep ++ join sep ps
  end.

(** [s.upper()] on the ASCII range, where the source applies it (the output
    of [hex]). *)
Definition upper (s : str) : str :=
  map (fun c => if ((97 <=? c) && (c <=? 122))%N then (c - 32)%N else c) s.

(** [hex(value)]: sign, [0x], lower-case digits of the absolute value. *)
Definition hex (value : Z) : str :=
  (if value <? 0 then lit "-" else []) ++ lit "0x" ++
  lit (HexadecimalString.NilZero.string_of_uint (N.to_hex_uint (Z.to_N (Z.abs value)))).

(** [str(n)] for an [int]. *)
Definition str_of_int (n : Z) : str :=
  lit (DecimalString.NilZero.string_of_int (Z.to_int n)).

(** ** Frame codec ([web_server.py]) *)

Module Codec.

(** [AveWebServer.value_to_hex]: [hex(value)[2:].upper()]. *)
Definition value_to_hex (value : Z) : str := upper (drop 2 (hex value)).

(** The running XOR of [build_crc]'s loop. *)
Definition xor_ords (rawstring : str) : Z :=
  fold_left (fun crc char => Z.lxor crc (ord char)) rawstring 0.

(** [AveWebServer.build_crc]. The method is [async] and takes [self], but
    reads and writes no attribute: it is a function of [rawstring]. *)
Definition build_crc (rawstring : str) : str :=
  let crc := xor_ords rawstring in
  let crc := 0xFF - crc in
  let msb := value_to_hex (Z.shiftr crc 4) in
  let lsb := value_to_hex (Z.land crc 0xF) in
  msb ++ lsb.

(** The [parameters] argument of [send_ws_command]: the callers pass nothing,
    a list of strings, or a bare string. *)
Inductive parameters_arg :=
| PNone
| PStr (s : str)
| PList (l : list str).

(** Truthiness of [parameters]. *)
Definition truthy (p : parameters_arg) : bool :=
  match p with
  | PNone => false
  | PStr s => negb (bool_decide (s = []))
  | PList l => negb (bool_decide (l = []))
  end.

(** What [chr(0x1D).join(parameters)] iterates over: the elements of a list,
    the characters of a string. *)
Definition iterate (p : parameters_arg) : list str :=
  match p with
  | PNone => []
  | PStr s => map (fun c => [c]) s
  | PList l => l
  end.

(** The [message] that [send_ws_command] builds before the checksum. *)
Definition frame_body (command : str) (parameters : parameters_arg) : str :=
  let message := chr STX ++ command in
  let message :=
    if truthy parameters
    then message ++ chr GS ++ join (chr GS) (iterate parameters)
    else message in
  message ++ chr ETX.

(** [full_message] of [send_ws_command]. *)
Definition full_message (command : str) (parameters : parameters_arg) : str :=
  let message := frame_body command parameters in
  let crc := build_crc message in
  message ++ crc ++ chr EOT.

(** A decoded frame: the three arguments of [manage_commands]. *)
Record Frame := mkFrame {
  command : str;
  parameters : list str;
  records : list (list str)
}.

(** [msg[1:-3]]. *)
Definition strip (msg : str) : str := drop 1 (take (length msg - 3) msg).

(** The body of [on_message]'s loop up to the dispatch: the star-unpackings
    of the two splits. *)
Definition parse_unit (msg : str) : Frame :=
  let str_msg := strip msg in
  match split RS str_msg with
  | [] => mkFrame [] [] []
  | cmd_params :: records_data =>
      match split GS cmd_params with
      | [] => mkFrame [] [] []
      | command :: parameters =>
          mkFrame command parameters (map (split GS) records_data)
      end
  end.

(** The frames that [on_message] hands to [manage_commands] when no dispatch
    fails: the units of at least 3 characters, in order. *)
Definition decode (message : str) : list Frame :=
  map parse_unit
      (List.filter (λ msg, negb (length msg <? 3)%nat) (split EOT message)).

(** *** Vocabulary of the codec's properties *)

(** The upper-case hexadecimal digit of a nibble. *)
Definition hex_digit (d : Z) : N :=
  nth (Z.to_nat d) (lit "0123456789ABCDEF") 0%N.

(** The five control bytes of the wire format. *)
Definition is_control (c : N) : bool :=
  ((c =? STX) || (c =? ETX) || (c =? EOT) || (c =? GS) || (c =? RS))%N.

Definition no_control (s : str) : Prop :=
  Forall (λ c, is_control c = false) s.

(** [sep] does not occur in [s]. *)
Definition free_of (sep : N) (s : str) : Prop := Forall (λ c, c ≠ sep) s.

(** What lies between STX and ETX in a frame built from a list of
    parameters. *)
Definition header (command : str) (parameters : list str) : str :=
  if bool_decide (parameters = []) then command
  else command ++ GS :: join (chr GS) parameters.

End Codec.

(** ** More of Python's built-ins *)

(** [a == b] on strings. *)
Fixpoint str_eqb (a b : str) : bool :=
  match a, b with
  | [], [] => true
  | x :: a', y :: b' => N.eqb x y && str_eqb a' b'
  | _, _ => false
  end.

(** The white space that [int] skips at both ends of a numeral
    ([Py_ISSPACE]): tab, line feed, vertical tab, form feed, carriage
    return and space. U+001C to U+001F, on which [str.isspace] holds, are
    not skipped. *)
Definition isspace (c : N) : bool :=
  (((9 <=? c) && (c <=? 13)) || (c =? 32))%N.

(** The white space above U+007F. *)
Definition unicode_space (c : N) : bool :=
  ((c =? 0x85) || (c =? 0xA0) || (c =? 0x1680) ||
   ((0x2000 <=? c) && (c <=? 0x200A)) || (c =? 0x2028) || (c =? 0x2029) ||
   (c =? 0x202F) || (c =? 0x205F) || (c =? 0x3000))%N.

(** The zero of each block of ten decimal digits (Unicode 14.0, the table
    of Python 3.11; later versions add blocks). *)
Definition decimal_zeros : list N :=
  [0x30; 0x660; 0x6F0; 0x7C0; 0x966; 0x9E6; 0xA66; 0xAE6; 0xB66; 0xBE6;
   0xC66; 0xCE6; 0xD66; 0xDE6; 0xE50; 0xED0; 0xF20; 0x1040; 0x1090; 0x17E0;
   0x1810; 0x1946; 0x19D0; 0x1A80; 0x1A90; 0x1B50; 0x1BB0; 0x1C40; 0x1C50;
   0xA620; 0xA8D0; 0xA900; 0xA9D0; 0xA9F0; 0xAA50; 0xABF0; 0xFF10; 0x104A0;
   0x10D30; 0x11066; 0x110F0; 0x11136; 0x111D0; 0x112F0; 0x11450; 0x114D0;
   0x11650; 0x116C0; 0x11730; 0x118E0; 0x11950; 0x11C50; 0x11D50; 0x11DA0;
   0x16A60; 0x16AC0; 0x16B50; 0x1D7CE; 0x1D7D8; 0x1D7E2; 0x1D7EC; 0x1D7F6;
   0x1E140; 0x1E2F0; 0x1E950; 0x1FBF0]%N.

(** The value of a decimal digit of any script. *)
Definition unicode_decimal (c : N) : option N :=
  (λ zero, c - zero)%N <$>
  List.find (λ zero, (zero <=? c) && (c <? zero + 10))%N decimal_zeros.

(** What [int] does to a [str] before it reads the numeral: an ASCII string
    is taken as it is; in another one, white space above U+007F becomes a
    space, a decimal digit of another script the ASCII digit of its value,
    and the text stops, with a question mark, at the first character from
    U+007F on that is neither. *)
Fixpoint to_ascii_numeral (s : str) : str :=
  match s with
  | [] => []
  | c :: s' =>
      if (c <? 127)%N then c :: to_ascii_numeral s'
      else if unicode_space c then 32%N :: to_ascii_numeral s'
      else match unicode_decimal c with
           | Some d => (48 + d)%N :: to_ascii_numeral s'
           | None => [63%N]
           end
  end.

Definition ascii_numeral (s : str) : str :=
  if forallb (λ c, c <? 128)%N s then s else to_ascii_numeral s.

Definition isdigit (c : N) : bool := ((48 <=? c) && (c <=? 57))%N.

(** The digits of an [int] literal: decimal digits, single underscores
    between them. [prev] tells whether the previous character was a digit. *)
Fixpoint digits_value (acc : Z) (prev : bool) (s : str) : option Z :=
  match s with
  | [] => if prev then Some acc else None
  | c :: s' =>
      if isdigit c then digits_value (10 * acc + (Z.of_N c - 48)) true s'
      else if (c =? 95)%N && prev then digits_value acc false s'
      else None
  end.

Fixpoint lstrip (s : str) : str :=
  match s with
  | c :: s' => if isspace c then lstrip s' else s
  | [] => []
  end.

Definition strip_spaces (s : str) : str := rev (lstrip (rev (lstrip s))).

(** [int(s)] for a string: [None] stands for [ValueError]. The text is
    brought to ASCII, white space is skipped at both ends, one sign is
    allowed, then come the digits. The interpreter's limit on the length of
    a numeral (4300 digits unless configured otherwise) is not modelled. *)
Definition int_of_str (s : str) : option Z :=
  match strip_spaces (ascii_numeral s) with
  | 45%N :: ds => Z.opp <$> digits_value 0 false ds
  | 43%N :: ds => digits_value 0 false ds
  | ds => digits_value 0 false ds
  end.

(** [b.decode("utf-8")] on the byte values: [None] stands for
    [UnicodeDecodeError]. Well-formed sequences only: no overlong form, no
    surrogate, nothing above U+10FFFF. *)
Definition is_cont (b : N) : bool := ((0x80 <=? b) && (b <=? 0xBF))%N.

Fixpoint utf8_decode (bs : list N) : option str :=
  match bs with
  | [] => Some []
  | b0 :: r0 =>
      if (b0 <? 0x80)%N then cons b0 <$> utf8_decode r0
      else if ((0xC2 <=? b0) && (b0 <=? 0xDF))%N then
        match r0 with
        | b1 :: r1 =>
            if is_cont b1
            then cons ((b0 - 0xC0) * 64 + (b1 - 0x80))%N <$> utf8_decode r1
            else None
        | _ => None
        end
      else if ((0xE0 <=? b0) && (b0 <=? 0xEF))%N then
        match r0 with
        | b1 :: b2 :: r2 =>
            let lo := if (b0 =? 0xE0)%N then 0xA0%N else 0x80%N in
            let hi := if (b0 =? 0xED)%N then 0x9F%N else 0xBF%N in
            if ((lo <=? b1) && (b1 <=? hi))%N && is_cont b2
            then cons ((b0 - 0xE0) * 4096 + (b1 - 0x80) * 64 + (b2 - 0x80))%N
                   <$> utf8_decode r2
            else None
        | _ => None
        end
      else if ((0xF0 <=? b0) && (b0 <=? 0xF4))%N then
        match r0 with
        | b1 :: b2 :: b3 :: r3 =>
            let lo := if (b0 =? 0xF0)%N then 0x90%N else 0x80%N in
            let hi := if (b0 =? 0xF4)%N then 0x8F%N else 0xBF%N in
            if ((lo <=? b1) && (b1 <=? hi))%N && is_cont b2 && is_cont b3
            then cons ((b0 - 0xF0) * 262144 + (b1 - 0x80) * 4096 +
                       (b2 - 0x80) * 64 + (b3 - 0x80))%N
                   <$> utf8_decode r3
            else None
        | _ => None
        end
      else None
  end.

(** [bool(n)] and the truth value of an [int]. *)
Definition bool_of_int (n : Z) : bool := negb (n =? 0).

(** A [bool] used as an [int]: [True == 1], [False == 0]. *)
Definition int_of_bool (b : bool) : Z := if b then 1 else 0.

(** ** Effects *)

Inductive exn :=
  IndexError | KeyError | ValueError | TypeError | UnicodeDecodeError
| RuntimeError.

Inductive outcome (A : Type) :=
| Ok (a : A)
| Raise (e : exn).
Arguments Ok {A} a.
Arguments Raise {A} e.

Inductive level := DEBUG | INFO | WARNING | ERROR.

(** The platform's [async_add_entities] callbacks are values of the host;
    the model tells them apart by an identifier. *)
Inductive callback := Callback (id : nat).

(** What the code does to the outside, in the order it does it. A log entry
    keeps the level and the format string. An instant stands for its
    [isoformat()]. *)
Inductive event :=
| Log (l : level) (fmt : string)
| SendStr (full_message : str)
| Sleep (seconds : Z)
| WriteHaState (unique_id : str)
| AddEntities (cb : callback) (unique_ids : list str).

(** ** Entities *)

(** [binary_sensor.MotionBinarySensor]: the attributes [__init__] sets. *)
Record MotionBinarySensor := mkMotionBinarySensor {
  bs_unique_id : str;
  bs_is_motion_detected : option Z;
  bs_ave_device_id : Z;
  bs_family : Z;
  bs_last_revealed : option Z;
  bs_last_cleared : option Z;
  bs_ave_name : option str;
  bs_name : str
}.

(** [switch.LightSwitch]. [sw_attr_is_on] is the [_attr_is_on] of
    [SwitchEntity], [None] until the code assigns it. The [_webserver] and
    [hass] attributes point back to the server and are not stored. *)
Record LightSwitch := mkLightSwitch {
  sw_unique_id : str;
  sw_is_on : option Z;
  sw_ave_device_id : Z;
  sw_family : Z;
  sw_ave_name : option str;
  sw_attr_is_on : option bool;
  sw_name : str
}.

(** ** The server object and its surroundings *)

(** [AveWebServerSettings]. *)
Record AveWebServerSettings := mkSettings {
  host : str;
  get_entity_names : bool;
  fetch_sensor_areas : bool;
  fetch_sensors : bool;
  fetch_lights : bool;
  fetch_scenarios : bool
}.

(** An entry of the host's entity registry, as far as
    [check_name_changed] reads it. *)
Record RegistryEntry := mkRegistryEntry {
  has_entity_name : bool;
  original_name : option str;
  entry_name : option str
}.

(** [hass]: the registry entries of platform [ave_dominaplus], per domain
    and unique id. *)
Record HomeAssistant := mkHass {
  binary_sensor_entries : gmap str RegistryEntry;
  switch_entries : gmap str RegistryEntry
}.

(** [self.ws_conn]: [None], an open socket, or a closed one. *)
Inductive socket := NoSocket | OpenSocket | ClosedSocket.

(** The functions the platforms store in the [update_...] slots. *)
Inductive updater := UpdateBinarySensorFn | UpdateSwitchFn.

(** [AveWebServer]: the attributes of [__init__]. *)
Record AveWebServer := mkServer {
  settings : AveWebServerSettings;
  hass : HomeAssistant;
  ws_conn : socket;
  _connected : bool;
  started : bool;
  closed : bool;
  binary_sensors : gmap str MotionBinarySensor;
  update_binary_sensor : option updater;
  async_add_bs_entities : option callback;
  switches : gmap str LightSwitch;
  async_add_sw_entities : option callback;
  update_switch : option updater
}.

(** The server, the clock that [utcnow()] reads, and the effects so far. *)
Record world := mkWorld {
  server : AveWebServer;
  clock : Z;
  trace : list event
}.

(** Computations: a result or an exception, and the world they leave. *)
Definition M (A : Type) : Type := world → outcome A * world.

Definition ret {A} (a : A) : M A := λ w, (Ok a, w).

Definition bind {A B} (m : M A) (k : A → M B) : M B :=
  λ w, match m w with
       | (Ok a, w') => k a w'
       | (Raise e, w') => (Raise e, w')
       end.

Definition raise {A} (e : exn) : M A := λ w, (Raise e, w).

Notation "'do' x <- m ; k" := (bind m (λ x, k))
  (at level 10, x name, m at level 100, k at level 200).
Notation "'do_' m ; k" := (bind m (λ _, k))
  (at level 10, m at level 100, k at level 200).

(** [try: m except Exception: handler]. *)
Definition try_except {A} (m : M A) (handler : exn → M A) : M A :=
  λ w, match m w with
       | (Ok a, w') => (Ok a, w')
       | (Raise e, w') => handler e w'
       end.

(** [for x in l: body]. *)
Fixpoint for_each {A} (l : list A) (body : A → M unit) : M unit :=
  match l with
  | [] => ret tt
  | x :: l' => do_ body x; for_each l' body
  end.

Definition emit (evs : list event) : M unit :=
  λ w, (Ok tt, mkWorld (server w) (clock w) (trace w ++ evs)).

Definition log (l : level) (fmt : string) : M unit := emit [Log l fmt].

Definition utcnow : M Z := λ w, (Ok (clock w), w).

Definition get_server : M AveWebServer := λ w, (Ok (server w), w).

Definition put_server (s : AveWebServer) : M unit :=
  λ w, (Ok tt, mkWorld s (clock w) (trace w)).

(** [l[i]]. *)
Definition index {A} (l : list A) (i : nat) : M A :=
  match l !! i with
  | Some x => ret x
  | None => raise IndexError
  end.

(** [int(s)]. *)
Definition int (s : str) : M Z :=
  match int_of_str s with
  | Some n => ret n
  | None => raise ValueError
  end.

(** Attribute assignments on the server. *)
Definition set_ws_conn (c : socket) (s : AveWebServer) : AveWebServer :=
  mkServer (settings s) (hass s) c (_connected s) (started s) (closed s)
    (binary_sensors s) (update_binary_sensor s) (async_add_bs_entities s)
    (switches s) (async_add_sw_entities s) (update_switch s).

Definition set_connected (b : bool) (s : AveWebServer) : AveWebServer :=
  mkServer (settings s) (hass s) (ws_conn s) b (started s) (closed s)
    (binary_sensors s) (update_binary_sensor s) (async_add_bs_entities s)
    (switches s) (async_add_sw_entities s) (update_switch s).

Definition set_started (b : bool) (s : AveWebServer) : AveWebServer :=
  mkServer (settings s) (hass s) (ws_conn s) (_connected s) b (closed s)
    (binary_sensors s) (update_binary_sensor s) (async_add_bs_entities s)
    (switches s) (async_add_sw_entities s) (update_switch s).

Definition set_closed (b : bool) (s : AveWebServer) : AveWebServer :=
  mkServer (settings s) (hass s) (ws_conn s) (_connected s) (started s) b
    (binary_sensors s) (update_binary_sensor s) (async_add_bs_entities s)
    (switches s) (async_add_sw_entities s) (update_switch s).

Definition set_binary_sensors (t : gmap str MotionBinarySensor)
    (s : AveWebServer) : AveWebServer :=
  mkServer (settings s) (hass s) (ws_conn s) (_connected s) (started s)
    (closed s) t (update_binary_sensor s) (async_add_bs_entities s)
    (switches s) (async_add_sw_entities s) (update_switch s).

Definition set_switches (t : gmap str LightSwitch)
    (s : AveWebServer) : AveWebServer :=
  mkServer (settings s) (hass s) (ws_conn s) (_connected s) (started s)
    (closed s) (binary_sensors s) (update_binary_sensor s)
    (async_add_bs_entities s) t (async_add_sw_entities s) (update_switch s).

Definition set_update_binary_sensor_slot (f : option updater)
    (s : AveWebServer) : AveWebServer :=
  mkServer (settings s) (hass s) (ws_conn s) (_connected s) (started s)
    (closed s) (binary_sensors s) f (async_add_bs_entities s)
    (switches s) (async_add_sw_entities s) (update_switch s).

Definition set_update_switch_slot (f : option updater)
    (s : AveWebServer) : AveWebServer :=
  mkServer (settings s) (hass s) (ws_conn s) (_connected s) (started s)
    (closed s) (binary_sensors s) (update_binary_sensor s)
    (async_add_bs_entities s) (switches s) (async_add_sw_entities s) f.

Definition set_async_add_bs_slot (f : option callback)
    (s : AveWebServer) : AveWebServer :=
  mkServer (settings s) (hass s) (ws_conn s) (_connected s) (started s)
    (closed s) (binary_sensors s) (update_binary_sensor s) f
    (switches s) (async_add_sw_entities s) (update_switch s).

Definition set_async_add_sw_slot (f : option callback)
    (s : AveWebServer) : AveWebServer :=
  mkServer (settings s) (hass s) (ws_conn s) (_connected s) (started s)
    (closed s) (binary_sensors s) (update_binary_sensor s)
    (async_add_bs_entities s) (switches s) f (update_switch s).

(** The attributes [AveWebServer.__init__] assigns once it has read the
    settings. *)
Definition new_server (st : AveWebServerSettings) (h : HomeAssistant)
    : AveWebServer :=
  mkServer st h NoSocket false false false ∅ None None ∅ None None.

(** ** Configurations used in the concrete runs *)

Definition example_brand : str := lit "AVE".

Definition example_settings : AveWebServerSettings :=
  mkSettings (lit "192.168.1.10") true true true true false.

Definition example_hass : HomeAssistant := mkHass ∅ ∅.

(** A server whose platforms have registered their callbacks and whose
    socket is open; the clock reads 10. *)
Definition example_world : world :=
  mkWorld
    (mkServer example_settings example_hass OpenSocket true true false
       ∅ (Some UpdateBinarySensorFn) (Some (Callback 0))
       ∅ (Some (Callback 1)) (Some UpdateSwitchFn))
    10 [].

(** A server just constructed: no socket, nothing started. *)
Definition fresh_world : world :=
  mkWorld (new_server example_settings example_hass) 0 [].

(** The same server with the sensor areas switched off. *)
Definition example_world_areas_off : world :=
  mkWorld
    (mkServer (mkSettings (lit "192.168.1.10") true false true true false)
       example_hass OpenSocket true true false
       ∅ (Some UpdateBinarySensorFn) (Some (Callback 0))
       ∅ (Some (Callback 1)) (Some UpdateSwitchFn))
    10 [].

(** The same server with the hub's names switched off. *)
Definition example_world_names_off : world :=
  mkWorld
    (mkServer (mkSettings (lit "192.168.1.10") false true true true false)
       example_hass OpenSocket true true false
       ∅ (Some UpdateBinarySensorFn) (Some (Callback 0))
       ∅ (Some (Callback 1)) (Some UpdateSwitchFn))
    10 [].

Definition set_clock (t : Z) (w : world) : world :=
  mkWorld (server w) t (trace w).

(** ** The integration *)

Section Integration.

(** [const.BRAND_PREFIX]: [const.py] is not among the sources, so the
    constant is a parameter. *)
Variable BRAND_PREFIX : str.

(** *** [binary_sensor.MotionBinarySensor] *)

(** A method returns the object it leaves and the notifications it sends. *)

Definition MotionBinarySensor_build_name (self : MotionBinarySensor) : str :=
  let suffix := lit "sensor type " ++ str_of_int (bs_family self) in
  let suffix :=
    if bs_family self =? 12 then lit "antitheft area"
    else if bs_family self =? 1007 then lit "antitheft sensor"
    else suffix in
  BRAND_PREFIX ++ lit " " ++ suffix ++ lit " " ++
  str_of_int (bs_ave_device_id self).

Definition MotionBinarySensor_init (unique_id : str) (family ave_device_id : Z)
    (is_motion_detected : option Z) (name : option str) : MotionBinarySensor :=
  let self :=
    mkMotionBinarySensor unique_id is_motion_detected ave_device_id family
      None None None [] in
  mkMotionBinarySensor unique_id is_motion_detected ave_device_id family
    None None None
    (match name with
     | None => MotionBinarySensor_build_name self
     | Some name => name
     end).

(** The [is_on] property: [None] is the host's unknown state. *)
Definition MotionBinarySensor_is_on (self : MotionBinarySensor) : option bool :=
  match bs_is_motion_detected self with
  | None => None
  | Some n => Some (n >? 0)
  end.

(** The [extra_state_attributes] property: [last_revealed], [last_cleared],
    [AVE_family], [AVE_device_id], and [AVE_name] unless the family is 1007
    (the outer [option] tells whether the key is there). *)
Definition MotionBinarySensor_extra_state_attributes
    (self : MotionBinarySensor)
    : option Z * option Z * Z * Z * option (option str) :=
  (bs_last_revealed self, bs_last_cleared self, bs_family self,
   bs_ave_device_id self,
   if bs_family self =? 1007 then None else Some (bs_ave_name self)).

Definition MotionBinarySensor_update_state (now : Z)
    (is_motion_detected : option Z) (self : MotionBinarySensor)
    : MotionBinarySensor * list event :=
  match is_motion_detected with
  | None => (self, [])
  | Some v =>
      let last_revealed :=
        if v >? 0 then Some now else bs_last_revealed self in
      let last_cleared :=
        if v >? 0 then bs_last_cleared self
        else match bs_is_motion_detected self with
             | Some old => if bool_of_int old then Some now
                           else bs_last_cleared self
             | None => bs_last_cleared self
             end in
      (mkMotionBinarySensor (bs_unique_id self) (Some v)
         (bs_ave_device_id self) (bs_family self) last_revealed last_cleared
         (bs_ave_name self) (bs_name self),
       [WriteHaState (bs_unique_id self)])
  end.

Definition MotionBinarySensor_set_name (name : option str)
    (self : MotionBinarySensor) : MotionBinarySensor * list event :=
  match name with
  | None => (self, [])
  | Some name =>
      (mkMotionBinarySensor (bs_unique_id self) (bs_is_motion_detected self)
         (bs_ave_device_id self) (bs_family self) (bs_last_revealed self)
         (bs_last_cleared self) (bs_ave_name self) name, [])
  end.

Definition MotionBinarySensor_set_ave_name (name : option str)
    (self : MotionBinarySensor) : MotionBinarySensor * list event :=
  match name with
  | None => (self, [])
  | Some name =>
      (mkMotionBinarySensor (bs_unique_id self) (bs_is_motion_detected self)
         (bs_ave_device_id self) (bs_family self) (bs_last_revealed self)
         (bs_last_cleared self) (Some name) (bs_name self),
       [WriteHaState (bs_unique_id self)])
  end.

(** *** [switch.LightSwitch] *)

Definition LightSwitch_build_name (self : LightSwitch) : str :=
  let suffix := lit "sensor type " ++ str_of_int (sw_family self) in
  let suffix :=
    if sw_family self =? 1 then lit "light"
    else if sw_family self =? 6 then lit "sccenario"
    else suffix in
  BRAND_PREFIX ++ lit " " ++ suffix ++ lit " " ++
  str_of_int (sw_ave_device_id self).

(** [LightSwitch.__init__], called with [webserver=server] as
    [update_switch] does. *)
Definition LightSwitch_init (unique_id : str) (family ave_device_id : Z)
    (is_on : option Z) (name ave_name : option str) : LightSwitch :=
  let attr_is_on :=
    match is_on with
    | Some n => if 0 <=? n then Some (bool_of_int n) else None
    | None => None
    end in
  let self :=
    mkLightSwitch unique_id is_on ave_device_id family ave_name attr_is_on
      [] in
  mkLightSwitch unique_id is_on ave_device_id family ave_name attr_is_on
    (match name with
     | None => LightSwitch_build_name self
     | Some name => name
     end).

(** The [is_on] property of [SwitchEntity]: it returns [_attr_is_on]. *)
Definition LightSwitch_is_on (self : LightSwitch) : option bool :=
  sw_attr_is_on self.


Definition LightSwitch_update_state (is_on : option Z) (self : LightSwitch)
    : LightSwitch * list event :=
  match is_on with
  | None => (self, [])
  | Some n =>
      if n <? 0 then (self, [])
      else
        (mkLightSwitch (sw_unique_id self) (sw_is_on self)
           (sw_ave_device_id self) (sw_family self) (sw_ave_name self)
           (Some (bool_of_int n)) (sw_name self),
         [WriteHaState (sw_unique_id self)])
  end.

Definition LightSwitch_set_name (name : option str) (self : LightSwitch)
    : LightSwitch * list event :=
  match name with
  | None => (self, [])
  | Some name =>
      (mkLightSwitch (sw_unique_id self) (sw_is_on self)
         (sw_ave_device_id self) (sw_family self) (sw_ave_name self)
         (sw_attr_is_on self) name,
       [WriteHaState (sw_unique_id self)])
  end.

Definition LightSwitch_set_ave_name (name : option str) (self : LightSwitch)
    : LightSwitch * list event :=
  match name with
  | None => (self, [])
  | Some name =>
      (mkLightSwitch (sw_unique_id self) (sw_is_on self)
         (sw_ave_device_id self) (sw_family self) (Some name)
         (sw_attr_is_on self) (sw_name self),
       [WriteHaState (sw_unique_id self)])
  end.

(** *** Objects held by the tables *)

(** A method call on the sensor stored under [unique_id]: the table holds
    the object, so the call changes the table entry. An entity of a table
    is taken to have been handed to the host, which sets its [hass]. *)
Definition on_binary_sensor (unique_id : str)
    (method : MotionBinarySensor → MotionBinarySensor * list event)
    : M unit :=
  do s <- get_server;
  match binary_sensors s !! unique_id with
  | Some sensor =>
      let '(sensor, evs) := method sensor in
      do_ put_server
            (set_binary_sensors (<[unique_id := sensor]> (binary_sensors s)) s);
      emit evs
  | None => raise KeyError
  end.

Definition on_switch (unique_id : str)
    (method : LightSwitch → LightSwitch * list event) : M unit :=
  do s <- get_server;
  match switches s !! unique_id with
  | Some switch =>
      let '(switch, evs) := method switch in
      do_ put_server (set_switches (<[unique_id := switch]> (switches s)) s);
      emit evs
  | None => raise KeyError
  end.

(** A method call on an entity that was just built: the host has not been
    given it, so its [hass] is [None], and [async_write_ha_state] raises
    [RuntimeError] on such an entity. The entity is lost with the
    exception. *)
Definition on_local {A} (method : A → A * list event) (obj : A) : M A :=
  let '(obj, evs) := method obj in
  if existsb (λ e, match e with WriteHaState _ => true | _ => false end) evs
  then raise RuntimeError
  else
    do_ emit evs;
    ret obj.

(** A call of an [async_add_..._entities] slot: calling [None] raises
    [TypeError]. *)
Definition call_add_entities (slot : option callback)
    (unique_ids : list str) : M unit :=
  match slot with
  | Some cb => emit [AddEntities cb unique_ids]
  | None => raise TypeError
  end.

(** *** [binary_sensor.py] *)

Definition binary_sensor_set_sensor_uid (family device_id : Z) : str :=
  lit "ave_motion_" ++ str_of_int family ++ lit "_" ++ str_of_int device_id.

Definition binary_sensor_check_name_changed (hass : HomeAssistant)
    (unique_id : str) : bool :=
  match binary_sensor_entries hass !! unique_id with
  | Some entity_entry =>
      has_entity_name entity_entry &&
      negb (bool_decide (original_name entity_entry = entry_name entity_entry))
  | None => false
  end.

Definition binary_sensor_update_binary_sensor
    (family ave_device_id device_status : Z) (name : option str) : M unit :=
  do server <- get_server;
  let gate :=
    if family =? 12 then
      if negb (fetch_sensor_areas (settings server)) then ret false
      else ret true
    else if family =? 1007 then
      if negb (fetch_sensors (settings server)) then ret false
      else ret true
    else
      do_ log DEBUG " Not updating binary sensor for family %s, device_id %s";
      ret false in
  do go <- gate;
  if negb go then ret tt else
  do_ log DEBUG " Updating binary sensor for family %s, device_id %s";
  let unique_id := binary_sensor_set_sensor_uid family ave_device_id in
  let already_exists :=
    bool_decide (is_Some (binary_sensors server !! unique_id)) in
  if already_exists then
    do_ (if 0 <=? device_status then
           do now <- utcnow;
           on_binary_sensor unique_id
             (MotionBinarySensor_update_state now (Some device_status))
         else ret tt);
    match name with
    | Some _ =>
        if get_entity_names (settings server) then
          do_ on_binary_sensor unique_id (MotionBinarySensor_set_ave_name name);
          if negb (binary_sensor_check_name_changed (hass server) unique_id)
          then on_binary_sensor unique_id (MotionBinarySensor_set_name name)
          else ret tt
        else ret tt
    | None => ret tt
    end
  else
    let sensor :=
      MotionBinarySensor_init unique_id family ave_device_id
        (Some (int_of_bool (device_status >? 0))) None in
    do sensor <-
      (if family =? 1007 then
         let name := MotionBinarySensor_build_name sensor in
         if negb (binary_sensor_check_name_changed (hass server) unique_id)
         then on_local (MotionBinarySensor_set_name (Some name)) sensor
         else ret sensor
       else
         match name with
         | Some _ =>
             if get_entity_names (settings server) then
               if negb (binary_sensor_check_name_changed (hass server)
                          unique_id)
               then
                 do sensor <-
                   on_local (MotionBinarySensor_set_ave_name name) sensor;
                 on_local (MotionBinarySensor_set_name name) sensor
               else ret sensor
             else ret sensor
         | None => ret sensor
         end);
    do_ log INFO "Creating new binary sensor entity %s";
    do_ put_server
          (set_binary_sensors (<[unique_id := sensor]> (binary_sensors server))
             server);
    call_add_entities (async_add_bs_entities server) [unique_id].

(** *** [switch.py] *)

Definition switch_set_sensor_uid (family ave_device_id : Z) : str :=
  lit "ave_switch_" ++ str_of_int family ++ lit "_" ++
  str_of_int ave_device_id.

Definition switch_check_name_changed (hass : HomeAssistant)
    (unique_id : str) : bool :=
  match switch_entries hass !! unique_id with
  | Some entity_entry =>
      bool_decide (is_Some (entry_name entity_entry)) &&
      negb (bool_decide (original_name entity_entry = entry_name entity_entry))
  | None => false
  end.

Definition switch_update_switch
    (family ave_device_id device_status : Z) (name : option str) : M unit :=
  do server <- get_server;
  let gate :=
    if family =? 1 then
      if negb (fetch_lights (settings server)) then ret false else ret true
    else
      do_ log DEBUG " Not updating switch for family %s, device_id %s";
      ret false in
  do go <- gate;
  if negb go then ret tt else
  do_ log DEBUG " Updating switch for family %s, device_id %s";
  let unique_id := switch_set_sensor_uid family ave_device_id in
  let already_exists := bool_decide (is_Some (switches server !! unique_id)) in
  if already_exists then
    do_ (if 0 <=? device_status then
           on_switch unique_id (LightSwitch_update_state (Some device_status))
         else ret tt);
    match name with
    | Some _ =>
        if get_entity_names (settings server) then
          do_ on_switch unique_id (LightSwitch_set_ave_name name);
          if negb (switch_check_name_changed (hass server) unique_id)
          then on_switch unique_id (LightSwitch_set_name name)
          else ret tt
        else ret tt
    | None => ret tt
    end
  else
    let entity_name :=
      match name with
      | Some _ => if get_entity_names (settings server) then name else None
      | None => None
      end in
    let entity_ave_name := entity_name in
    let switch :=
      LightSwitch_init unique_id family ave_device_id (Some device_status)
        entity_name entity_ave_name in
    do_ log INFO "Creating new switch entity %s";
    do_ put_server
          (set_switches (<[unique_id := switch]> (switches server)) server);
    call_add_entities (async_add_sw_entities server) [unique_id].

(** *** [web_server.AveWebServer]: slots and sending *)

Definition set_update_binary_sensor (func : updater) : M unit :=
  do s <- get_server;
  put_server (set_update_binary_sensor_slot (Some func) s).

Definition set_update_switch (func : updater) : M unit :=
  do s <- get_server;
  put_server (set_update_switch_slot (Some func) s).

Definition set_async_add_bs_entities (func : callback) : M unit :=
  do s <- get_server;
  match async_add_bs_entities s with
  | None => put_server (set_async_add_bs_slot (Some func) s)
  | Some _ => ret tt
  end.

Definition set_async_add_sw_entities (func : callback) : M unit :=
  do s <- get_server;
  match async_add_sw_entities s with
  | None => put_server (set_async_add_sw_slot (Some func) s)
  | Some _ => ret tt
  end.


(** [self.ws_conn and not self.ws_conn.closed]. *)
Definition socket_usable (c : socket) : bool :=
  match c with
  | OpenSocket => true
  | _ => false
  end.

(** [send_ws_command]. A write on an open socket is taken to succeed. *)
Definition send_ws_command (command : str)
    (parameters : Codec.parameters_arg) : M unit :=
  let full_message := Codec.full_message command parameters in
  do s <- get_server;
  if socket_usable (ws_conn s) then emit [SendStr full_message]
  else log ERROR "WebSocket is not connected".

Definition on_connect_actions : M unit :=
  do s <- get_server;
  if negb (socket_usable (ws_conn s)) then ret tt else
  do_ send_ws_command (lit "LDI") Codec.PNone;
  do_ (if fetch_lights (settings s)
       then send_ws_command (lit "GSF") (Codec.PStr (lit "1"))
       else ret tt);
  do_ (if fetch_sensor_areas (settings s) then
         do_ send_ws_command (lit "GSF") (Codec.PList [lit "12"]);
         send_ws_command (lit "WSF") (Codec.PStr (lit "12"))
       else ret tt);
  send_ws_command (lit "SU3") Codec.PNone.

Definition switch_command (device_id : Z) (op : string) : M unit :=
  do s <- get_server;
  if socket_usable (ws_conn s)
  then send_ws_command (lit "EBI") (Codec.PList [str_of_int device_id; lit op])
  else log ERROR "WebSocket is not connected".

Definition switch_turn_on (device_id : Z) : M unit :=
  switch_command device_id "11".

Definition switch_turn_off (device_id : Z) : M unit :=
  switch_command device_id "12".

Definition switch_toggle (device_id : Z) : M unit :=
  switch_command device_id "10".

Definition disconnect : M unit :=
  do s <- get_server;
  do_ put_server (set_closed true s);
  match ws_conn s with
  | NoSocket => ret tt
  | _ =>
      do s <- get_server;
      do_ put_server (set_connected false (set_ws_conn NoSocket s));
      log INFO "WebSocket disconnected!"
  end.

(** *** The dispatcher *)

(** A call through one of the [update_...] slots, with the arguments the
    dispatcher passes. *)
Definition call_updater (slot : option updater)
    (family ave_device_id device_status : Z) (name : option str) : M unit :=
  match slot with
  | Some UpdateBinarySensorFn =>
      binary_sensor_update_binary_sensor family ave_device_id device_status
        name
  | Some UpdateSwitchFn =>
      switch_update_switch family ave_device_id device_status name
  | None => raise TypeError
  end.

Definition self_update_binary_sensor
    (family ave_device_id device_status : Z) (name : option str) : M unit :=
  do s <- get_server;
  call_updater (update_binary_sensor s) family ave_device_id device_status
    name.

Definition self_update_switch
    (family ave_device_id device_status : Z) (name : option str) : M unit :=
  do s <- get_server;
  call_updater (update_switch s) family ave_device_id device_status name.

(** [l[i] == s]. *)
Definition item_is (l : list str) (i : nat) (s : string) : M bool :=
  do x <- index l i;
  ret (str_eqb x (lit s)).

(** [a and b], [a or b]: the right operand is evaluated only if needed. *)
Definition and_ (a b : M bool) : M bool :=
  do x <- a;
  if x then b else ret false.

Definition or_ (a b : M bool) : M bool :=
  do x <- a;
  if x then ret true else b.

(** One branch of an [if]/[elif] chain. *)
Definition if_ {A} (c : M bool) (t e : M A) : M A :=
  do x <- c;
  if x then t else e.

Definition manage_upd (parameters : list str) (records : list (list str))
    : M unit :=
  if_ (item_is parameters 0 "WS")
    (do p1 <- index parameters 1;
     do device_type <- int p1;
     do p2 <- index parameters 2;
     do device_id <- int p2;
     do p3 <- index parameters 3;
     do device_status <- int p3;
     do s <- get_server;
     if device_id >? 200000 then ret tt
     else if (device_type =? 1) && fetch_lights (settings s)
     then self_update_switch device_type device_id device_status None
     else ret tt)
  (if_ (and_ (item_is parameters 0 "X") (item_is parameters 1 "A"))
    (do s <- get_server;
     if negb (fetch_sensor_areas (settings s)) then ret tt else
     do p2 <- index parameters 2;
     do area_progressive <- int p2;
     do p6 <- index parameters 6;
     do area_clear <- int p6;
     let status := if area_clear >? 0 then 0 else 1 in
     self_update_binary_sensor 12 area_progressive status None)
  (if_ (and_ (item_is parameters 0 "X") (item_is parameters 1 "S"))
    (do s <- get_server;
     if negb (fetch_sensors (settings s)) then ret tt else
     do p2 <- index parameters 2;
     do sensor_id <- int p2;
     do p4 <- index parameters 4;
     do sensor_status <- int p4;
     self_update_binary_sensor 1007 sensor_id sensor_status None)
  (if_ (and_ (item_is parameters 0 "X") (item_is parameters 1 "U"))
    (do _ <- index parameters 2;
     log DEBUG "XU Antitheft Unit - engaged")
  (if_ (item_is parameters 0 "WT")
    (if_ (item_is parameters 1 "O") (ret tt)
    (if_ (item_is parameters 1 "S") (ret tt)
    (if_ (item_is parameters 1 "T") (ret tt)
    (if_ (item_is parameters 1 "L") (ret tt)
    (if_ (item_is parameters 1 "Z") (ret tt)
    (ret tt))))))
  (if_ (or_ (item_is parameters 0 "TT")
       (or_ (item_is parameters 0 "TP") (item_is parameters 0 "TR")))
    (ret tt)
  (if_ (or_ (item_is parameters 0 "TLO") (item_is parameters 0 "D"))
    (ret tt)
  (if_ (item_is parameters 0 "GUI")
    (ret tt)
    (do _ <- index parameters 0;
     log WARNING "Not yet handled UPD %s")))))))).

Definition manage_gsf (parameters : list str) (records : list (list str))
    : M unit :=
  do _ <- index parameters 0;
  do_ log INFO "Received GSF (Get status by family) command for family %s";
  do_ if_ (or_ (item_is parameters 0 "7") (item_is parameters 0 "12"))
        (for_each records (λ record,
           do r0 <- index record 0;
           do device_id <- int r0;
           do r1 <- index record 1;
           do device_status <- int r1;
           do p0 <- index parameters 0;
           do family <- int p0;
           self_update_binary_sensor family device_id device_status None))
        (ret tt);
  if_ (item_is parameters 0 "1")
    (for_each records (λ record,
       do r0 <- index record 0;
       do device_id <- int r0;
       do r1 <- index record 1;
       do device_status <- int r1;
       self_update_switch 1 device_id device_status None))
    (ret tt).

Definition manage_ldi (parameters : list str) (records : list (list str))
    : M unit :=
  do_ log INFO "Parsing LDI (List Devices) command";
  for_each records (λ record,
    do r0 <- index record 0;
    do device_id <- int r0;
    do device_name <- index record 1;
    do r2 <- index record 2;
    do device_type <- int r2;
    if device_type =? 12
    then self_update_binary_sensor 12 device_id (-1) (Some device_name)
    else if device_type =? 11 then ret tt
    else if device_type =? 1
    then self_update_switch 1 device_id (-1) (Some device_name)
    else if device_type =? 4 then ret tt
    else if device_type =? 6 then ret tt
    else if device_type =? 8 then ret tt
    else log DEBUG "Unknown device type %s for %s, skipping").

Definition manage_commands (command : str) (parameters : list str)
    (records : list (list str)) : M unit :=
  if str_eqb command (lit "pong") then ret tt
  else if str_eqb command (lit "ack") then
    do _ <- index parameters 0;
    log DEBUG "Received ACK for command: %s"
  else if str_eqb command (lit "ping")
  then send_ws_command (lit "PONG") Codec.PNone
  else if str_eqb command (lit "gsf") then manage_gsf parameters records
  else if str_eqb command (lit "upd") then manage_upd parameters records
  else if str_eqb command (lit "ldi") then manage_ldi parameters records
  else if str_eqb command (lit "cld") then ret tt
  else if str_eqb command (lit "net") then ret tt
  else if str_eqb command (lit "nack")
  then log WARNING "Received NACK for command: %s"
  else log WARNING "Received unknown command %s".

(** *** Receiving *)

(** [on_message]'s argument: [bytes] from the socket, or a [str]. *)
Inductive message :=
| Bytes (data : list Byte.byte)
| Text (data : str).

Definition on_message (message : message) : M unit :=
  try_except
    (do message <-
       match message with
       | Bytes data =>
           match utf8_decode (map Byte.to_N data) with
           | Some s => ret s
           | None => raise UnicodeDecodeError
           end
       | Text s => ret s
       end;
     let messages := split EOT message in
     for_each messages (λ msg,
       if (length msg <? 3)%nat then ret tt else
       let frame := Codec.parse_unit msg in
       manage_commands (Codec.command frame) (Codec.parameters frame)
         (Codec.records frame)))
    (λ e, log ERROR "Error processing message").

(** *** The connection loop *)

(** [aiohttp.WSMsgType], as far as [start] tells the types apart. *)
Inductive ws_msg :=
| WS_BINARY (data : list Byte.byte)
| WS_ERROR
| WS_OTHER.

(** What the network and the other tasks do while [start] runs, in order. *)
Inductive net_event :=
| ConnectFails
| ConnectSucceeds
| Receive (msg : ws_msg)
| EndOfStream
| ReceiveRaises
| DisconnectCalled.

(** Where [start] is waiting. *)
Inductive pc := Connecting | Receiving | Stopped.

Definition run_ {A} (m : M A) (w : world) : world := snd (m w).

(** The [except Exception] branch of the loop. *)
Definition on_loop_exception : M unit :=
  do_ log ERROR "WebSocket connection error: %s";
  do s <- get_server;
  do_ put_server (set_connected false s);
  emit [Sleep 5].

Definition needs_connect (s : AveWebServer) : bool :=
  negb (_connected s) || negb (socket_usable (ws_conn s)).

(** The head of the loop after a failed attempt or an exception: the test of
    [closed], then a new attempt. *)
Definition retry (w : world) : pc * world :=
  if closed (server w)
  then (Stopped, run_ (log DEBUG "WebSocket connection stopped") w)
  else (Connecting,
        run_ (log DEBUG "Attempting to connect to WebSocket server") w).

(** From a usable socket to the receive loop: [on_connect_actions], then the
    iteration starts. *)
Definition enter_receive (w : world) : pc * world :=
  match (do s <- get_server;
         if started s then on_connect_actions else ret tt) w with
  | (Ok _, w') => (Receiving, w')
  | (Raise _, w') => retry (run_ on_loop_exception w')
  end.

(** One evaluation of the loop head, up to the next wait. *)
Definition loop_head (w : world) : pc * world :=
  if closed (server w)
  then (Stopped, run_ (log DEBUG "WebSocket connection stopped") w)
  else if needs_connect (server w)
  then (Connecting,
        run_ (log DEBUG "Attempting to connect to WebSocket server") w)
  else enter_receive w.

(** [authenticate] when [ws_connect] succeeds, and when it raises. *)
Definition authenticate_ok : M bool :=
  do s <- get_server;
  do_ put_server (set_connected true (set_ws_conn OpenSocket s));
  do_ log DEBUG "Connected to WebSocket server at %s";
  ret true.

Definition authenticate_fails : M bool :=
  do_ log ERROR "Failed to connect to WebSocket server: %s";
  ret false.

(** The socket closes: the object in [ws_conn] reports [closed]. *)
Definition socket_closes : M unit :=
  do s <- get_server;
  match ws_conn s with
  | OpenSocket => put_server (set_ws_conn ClosedSocket s)
  | _ => ret tt
  end.

Definition step (p : pc) (e : net_event) (w : world) : pc * world :=
  match p, e with
  | Connecting, ConnectFails =>
      loop_head
        (run_ (do _ <- authenticate_fails;
               do_ log ERROR "Failed to authenticate with WebSocket server";
               emit [Sleep 5]) w)
  | Connecting, ConnectSucceeds => enter_receive (run_ authenticate_ok w)
  | Connecting, DisconnectCalled => (Connecting, run_ disconnect w)
  | Receiving, Receive (WS_BINARY data) =>
      (Receiving, run_ (on_message (Bytes data)) w)
  | Receiving, Receive WS_ERROR =>
      loop_head (run_ (do_ log ERROR "WebSocket error"; socket_closes) w)
  | Receiving, Receive WS_OTHER => (Receiving, w)
  | Receiving, EndOfStream => loop_head (run_ socket_closes w)
  | Receiving, ReceiveRaises => retry (run_ on_loop_exception w)
  | Receiving, DisconnectCalled => loop_head (run_ disconnect w)
  | _, _ => (p, w)
  end.

Definition run (events : list net_event) (st : pc * world) : pc * world :=
  fold_left (λ st e, step (fst st) e (snd st)) events st.

(** [start], run against the given events. *)
Definition start (events : list net_event) (w : world) : pc * world :=
  if started (server w)
  then (Stopped, run_ (log DEBUG "WebSocket connection already started") w)
  else
    let w :=
      run_ (do s <- get_server;
            do_ put_server (set_started true s);
            log DEBUG "Starting WebSocket connection") w in
    run events (loop_head w).

(** *** Vocabulary of the properties *)


(** The world with one more log entry and nothing else changed. *)
Definition logged (l : level) (fmt : string) (w : world) : world :=
  run_ (log l fmt) w.



(** Whether the settings let a binary sensor of this family through. *)
Definition binary_sensor_enabled (st : AveWebServerSettings) (family : Z)
    : bool :=
  (family =? 12) && fetch_sensor_areas st ||
  (family =? 1007) && fetch_sensors st.

(** The world once the entity under [unique_id] has been replaced and the
    given effects have happened. *)
Definition switch_stored (unique_id : str) (switch : LightSwitch)
    (evs : list event) (w : world) : world :=
  mkWorld
    (set_switches (<[unique_id := switch]> (switches (server w))) (server w))
    (clock w) (trace w ++ evs).

Definition binary_sensor_stored (unique_id : str) (sensor : MotionBinarySensor)
    (evs : list event) (w : world) : world :=
  mkWorld
    (set_binary_sensors (<[unique_id := sensor]> (binary_sensors (server w)))
       (server w))
    (clock w) (trace w ++ evs).

(** Whether [update_binary_sensor], creating a sensor of a family other
    than 1007, calls [set_ave_name] on it: a name is given, hub names are
    enabled and the registry holds no name given in the host. *)
Definition names_new_sensor (st : AveWebServerSettings) (changed : bool)
    (name : option str) : bool :=
  bool_decide (is_Some name) && get_entity_names st && negb changed.

(** The sensor [MotionBinarySensor(...)] that [update_binary_sensor]
    builds. *)
Definition new_sensor (unique_id : str) (family id status : Z)
    : MotionBinarySensor :=
  MotionBinarySensor_init unique_id family id
    (Some (int_of_bool (status >? 0))) None.


Definition is_log (e : event) : bool :=
  match e with
  | Log _ _ => true
  | _ => false
  end.

(** The effects other than log entries, in order. *)
Definition actions (tr : list event) : list event :=
  List.filter (λ e, negb (is_log e)) tr.

(** The on-connect sequence as decoded frames; [wsf] is the parameter list
    of the WSF frame. *)
Definition on_connect_frames (st : AveWebServerSettings) (wsf : list str)
    : list Codec.Frame :=
  [Codec.mkFrame (lit "LDI") [] []] ++
  (if fetch_lights st then [Codec.mkFrame (lit "GSF") [lit "1"] []] else []) ++
  (if fetch_sensor_areas st
   then [Codec.mkFrame (lit "GSF") [lit "12"] [];
         Codec.mkFrame (lit "WSF") wsf []]
   else []) ++
  [Codec.mkFrame (lit "SU3") [] []].

Import Codec.

(** *** Vocabulary of the further properties *)

(** What [str] writes for an [int]: a minus sign or a digit. *)
Definition numeral_char (c : N) : bool := (c =? 45)%N || isdigit c.

(** The layout [on_message] takes apart, between the first character and
    the last three: the header, then one row per record. *)
Definition payload (command : str) (parameters : list str)
    (records : list (list str)) : str :=
  join (chr RS)
    (join (chr GS) (command :: parameters) :: map (join (chr GS)) records).

(** *** Adoption of registered entities *)

(** An entry of the entity registry, as [adopt_existing_sensors] reads it. *)
Record RegistryEntity := mkEntity {
  ent_platform : str;
  ent_domain : str;
  ent_original_device_class : option str;
  ent_unique_id : str;
  ent_has_entity_name : bool;
  ent_name : option str;
  ent_original_name : option str
}.

(** [o == s] for an attribute that may be [None]. *)
Definition opt_is (o : option str) (s : string) : bool :=
  match o with
  | Some x => str_eqb x (lit s)
  | None => false
  end.

(** One turn of the loop of [binary_sensor.adopt_existing_sensors]. *)
Definition binary_sensor_adopt_entity (entity : RegistryEntity) : M unit :=
  if negb (str_eqb (ent_platform entity) (lit "ave_dominaplus") &&
           str_eqb (ent_domain entity) (lit "binary_sensor") &&
           opt_is (ent_original_device_class entity) "motion")
  then ret tt else
  do server <- get_server;
  let unique_id := ent_unique_id entity in
  if bool_decide (is_Some (binary_sensors server !! unique_id))
  then ret tt else
  do f <- index (split 95 unique_id) 2;
  do family <- int f;
  if (family =? 12) && negb (fetch_sensor_areas (settings server))
  then ret tt else
  if (family =? 1007) && negb (fetch_sensors (settings server))
  then ret tt else
  do i <- index (split 95 unique_id) 3;
  do ave_device_id <- int i;
  let sensor :=
    MotionBinarySensor_init unique_id family ave_device_id None None in
  do sensor <-
    (if ent_has_entity_name entity
     then on_local (MotionBinarySensor_set_name (ent_name entity)) sensor
     else match ent_original_name entity with
          | Some _ =>
              on_local
                (MotionBinarySensor_set_name (ent_original_name entity))
                sensor
          | None => ret sensor
          end);
  do_ put_server
        (set_binary_sensors
           (<[unique_id := sensor]> (binary_sensors server)) server);
  call_add_entities (async_add_bs_entities server) [unique_id].

(** The sensor an adopted entity becomes: no state, and the registry's name
    if it has one ([set_name(None)] changes nothing). *)
Definition adopted_sensor (entity : RegistryEntity) (family ave_device_id : Z)
    : MotionBinarySensor :=
  fst (MotionBinarySensor_set_name
         (if ent_has_entity_name entity then ent_name entity
          else ent_original_name entity)
         (MotionBinarySensor_init (ent_unique_id entity) family ave_device_id
            None None)).

(** [binary_sensor.adopt_existing_sensors]; [entities] is what the registry
    returns for the config entry, [None] when there is no registry. *)
Definition binary_sensor_adopt_existing_sensors
    (entities : option (list RegistryEntity)) : M unit :=
  try_except
    (match entities with
     | None => ret tt
     | Some entities => for_each entities binary_sensor_adopt_entity
     end)
    (λ e, log ERROR "Error adopting existing sensors: %s").

(** The entities that the loop of [binary_sensor.adopt_existing_sensors]
    passes over: not a motion sensor of this integration, or already in the
    table, or of a family that the settings disable. *)
Definition binary_sensor_adoption_skips (w : world) (entity : RegistryEntity)
    : Prop :=
  let unique_id := ent_unique_id entity in
  (str_eqb (ent_platform entity) (lit "ave_dominaplus") &&
   str_eqb (ent_domain entity) (lit "binary_sensor") &&
   opt_is (ent_original_device_class entity) "motion" = false) ∨
  is_Some (binary_sensors (server w) !! unique_id) ∨
  (∃ id, unique_id = binary_sensor_set_sensor_uid 12 id ∧
         fetch_sensor_areas (settings (server w)) = false) ∨
  (∃ id, unique_id = binary_sensor_set_sensor_uid 1007 id ∧
         fetch_sensors (settings (server w)) = false).

(** [LightSwitch(...)] as a call: [__init__] reads [self._webserver.hass],
    so without a [webserver] it raises [AttributeError] ([None] here). *)
Definition LightSwitch_new (webserver : option AveWebServer)
    (unique_id : str) (family ave_device_id : Z) (is_on : option Z)
    (name ave_name : option str) : option LightSwitch :=
  match webserver with
  | Some _ =>
      Some (LightSwitch_init unique_id family ave_device_id is_on name
              ave_name)
  | None => None
  end.

(** One turn of the loop of [switch.adopt_existing_sensors]; the boolean
    tells whether an exception left the loop. The constructor is called
    without [webserver]. *)
Definition switch_adopt_entity (entity : RegistryEntity) (w : world)
    : bool * world :=
  if negb (str_eqb (ent_platform entity) (lit "ave_dominaplus") &&
           str_eqb (ent_domain entity) (lit "switch"))
  then (false, w) else
  let unique_id := ent_unique_id entity in
  if bool_decide (is_Some (switches (server w) !! unique_id))
  then (false, w) else
  match (do f <- index (split 95 unique_id) 2;
         do family <- int f;
         do i <- index (split 95 unique_id) 3;
         do ave_device_id <- int i;
         ret (family, ave_device_id)) w with
  | (Raise _, w') => (true, w')
  | (Ok (family, ave_device_id), w') =>
      let name :=
        match ent_name entity with
        | Some n => Some n
        | None => ent_original_name entity
        end in
      match LightSwitch_new None unique_id family ave_device_id None name
              None with
      | None => (true, w')
      | Some sensor =>
          match (do server <- get_server;
                 do_ put_server
                       (set_switches
                          (<[unique_id := sensor]> (switches server)) server);
                 call_add_entities (async_add_sw_entities server)
                   [unique_id]) w' with
          | (Ok _, w'') => (false, w'')
          | (Raise _, w'') => (true, w'')
          end
      end
  end.

Fixpoint switch_adopt_loop (entities : list RegistryEntity) (w : world)
    : bool * world :=
  match entities with
  | [] => (false, w)
  | entity :: entities =>
      match switch_adopt_entity entity w with
      | (true, w') => (true, w')
      | (false, w') => switch_adopt_loop entities w'
      end
  end.

(** Whether the loop of [switch.adopt_existing_sensors] goes past its two
    tests for this entity. *)
Definition switch_adoptable (w : world) (entity : RegistryEntity) : bool :=
  str_eqb (ent_platform entity) (lit "ave_dominaplus") &&
  str_eqb (ent_domain entity) (lit "switch") &&
  negb (bool_decide (is_Some (switches (server w) !! ent_unique_id entity))).

(** [switch.adopt_existing_sensors]. *)
Definition switch_adopt_existing_sensors
    (entities : option (list RegistryEntity)) : M unit :=
  λ w, match entities with
       | None => (Ok tt, w)
       | Some entities =>
           match switch_adopt_loop entities w with
           | (true, w') => log ERROR "Error adopting existing sensors: %s" w'
           | (false, w') => (Ok tt, w')
           end
       end.

(** *** Construction *)




(** *** What a run of the dispatcher may change *)

Definition is_notification (e : event) : bool :=
  match e with
  | WriteHaState _ | AddEntities _ _ => true
  | _ => false
  end.

(** The identity of an entity: what its key is made of. *)
Definition same_sensor (d d' : MotionBinarySensor) : Prop :=
  bs_unique_id d' = bs_unique_id d ∧ bs_family d' = bs_family d ∧
  bs_ave_device_id d' = bs_ave_device_id d.

Definition same_switch (d d' : LightSwitch) : Prop :=
  sw_unique_id d' = sw_unique_id d ∧ sw_family d' = sw_family d ∧
  sw_ave_device_id d' = sw_ave_device_id d.

(** An entry that [update_binary_sensor] may add under key [k]. *)
Definition fresh_sensor (st : AveWebServerSettings) (k : str)
    (d : MotionBinarySensor) : Prop :=
  binary_sensor_enabled st (bs_family d) = true ∧
  k = binary_sensor_set_sensor_uid (bs_family d) (bs_ave_device_id d) ∧
  bs_unique_id d = k.

Definition fresh_switch (st : AveWebServerSettings) (k : str)
    (d : LightSwitch) : Prop :=
  fetch_lights st = true ∧ sw_family d = 1 ∧
  k = switch_set_sensor_uid 1 (sw_ave_device_id d) ∧ sw_unique_id d = k.

(** Everything is off: no update passes its gate. *)
Definition all_off (st : AveWebServerSettings) : Prop :=
  fetch_lights st = false ∧ fetch_sensor_areas st = false ∧
  fetch_sensors st = false.

(** From [w] to [w']: settings, registry, slots and clock are the same, the
    trace has grown, and each table holds its former entries, with their
    identity, beside entries that passed the gate. *)
Record grows (w w' : world) : Prop := mkGrows {
  grows_settings : settings (server w') = settings (server w);
  grows_hass : hass (server w') = hass (server w);
  grows_slots :
    (update_binary_sensor (server w'), async_add_bs_entities (server w'),
     async_add_sw_entities (server w'), update_switch (server w')) =
    (update_binary_sensor (server w), async_add_bs_entities (server w),
     async_add_sw_entities (server w), update_switch (server w));
  grows_clock : clock w' = clock w;
  grows_trace :
    ∃ evs, trace w' = trace w ++ evs ∧
           (all_off (settings (server w)) →
            Forall (λ e, is_notification e = false) evs);
  grows_sensors :
    ∀ k, match binary_sensors (server w) !! k,
               binary_sensors (server w') !! k with
         | Some d, Some d' => same_sensor d d'
         | Some _, None => False
         | None, Some d' => fresh_sensor (settings (server w)) k d'
         | None, None => True
         end;
  grows_switches :
    ∀ k, match switches (server w) !! k, switches (server w') !! k with
         | Some d, Some d' => same_switch d d'
         | Some _, None => False
         | None, Some d' => fresh_switch (settings (server w)) k d'
         | None, None => True
         end;
  grows_sensors_off :
    fetch_sensor_areas (settings (server w)) = false →
    fetch_sensors (settings (server w)) = false →
    binary_sensors (server w') = binary_sensors (server w);
  grows_switches_off :
    fetch_lights (settings (server w)) = false →
    switches (server w') = switches (server w)
}.

(** The connection is as it was. *)
Definition same_link (w w' : world) : Prop :=
  ws_conn (server w') = ws_conn (server w) ∧
  _connected (server w') = _connected (server w) ∧
  started (server w') = started (server w) ∧
  closed (server w') = closed (server w).

(** What holds from the world before a dispatch to the world after it. *)
Definition undisturbed (w w' : world) : Prop := grows w w' ∧ same_link w w'.

(** A computation that leaves undisturbed every world whose settings satisfy
    [P], whatever it returns or raises. *)
Definition calm_if (P : AveWebServerSettings → Prop) {A} (m : M A) : Prop :=
  ∀ w, P (settings (server w)) → undisturbed w (snd (m w)).

(** From [w] to [w']: only the connection and the trace have changed, and
    the trace has no new notification. *)
Definition tables_kept (w w' : world) : Prop :=
  settings (server w') = settings (server w) ∧
  hass (server w') = hass (server w) ∧
  (update_binary_sensor (server w'), async_add_bs_entities (server w'),
   async_add_sw_entities (server w'), update_switch (server w')) =
  (update_binary_sensor (server w), async_add_bs_entities (server w),
   async_add_sw_entities (server w), update_switch (server w)) ∧
  clock w' = clock w ∧
  binary_sensors (server w') = binary_sensors (server w) ∧
  switches (server w') = switches (server w) ∧
  ∃ evs, trace w' = trace w ++ evs ∧
         Forall (λ e, is_notification e = false) evs.

(** Each entry is stored under its own unique id. *)
Definition keyed (w : world) : Prop :=
  (∀ k d, binary_sensors (server w) !! k = Some d → bs_unique_id d = k) ∧
  (∀ k d, switches (server w) !! k = Some d → sw_unique_id d = k).

(** ** Properties *)

(** *** The checksum *)

Lemma value_to_hex_nibble (v : Z) :
  0 <= v < 16 → value_to_hex v = [hex_digit v].
Proof.
  intros Hv.
  assert (Hn : ∃ n : nat, (n < 16)%nat ∧ v = Z.of_nat n).
  { exists (Z.to_nat v). lia. }
  destruct Hn as (n & Hn & ->).
  do 16 (destruct n as [|n]; [reflexivity|]). lia.
Qed.

Lemma hex_digit_range (v : Z) :
  0 <= v < 16 → (48 <= hex_digit v <= 70)%N.
Proof.
  intros Hv.
  assert (Hn : ∃ n : nat, (n < 16)%nat ∧ v = Z.of_nat n).
  { exists (Z.to_nat v). lia. }
  destruct Hn as (n & Hn & ->).
  do 16 (destruct n as [|n]; [vm_compute; split; discriminate|]). lia.
Qed.

Lemma xor_fold_acc (l : str) (acc : Z) :
  fold_left (λ crc char, Z.lxor crc (ord char)) l acc =
  Z.lxor acc (xor_ords l).
Proof.
  unfold xor_ords. revert acc.
  induction l as [|c l IH]; intros acc; cbn [fold_left].
  - now rewrite Z.lxor_0_r.
  - rewrite IH, (IH (Z.lxor 0 (ord c))), Z.lxor_0_l. now rewrite Z.lxor_assoc.
Qed.

Lemma xor_ords_cons c s : xor_ords (c :: s) = Z.lxor (ord c) (xor_ords s).
Proof.
  unfold xor_ords at 1. cbn [fold_left]. now rewrite xor_fold_acc, Z.lxor_0_l.
Qed.

Lemma xor_ords_app a b :
  xor_ords (a ++ b) = Z.lxor (xor_ords a) (xor_ords b).
Proof.
  unfold xor_ords at 1. rewrite fold_left_app. fold (xor_ords a).
  apply xor_fold_acc.
Qed.

Lemma lxor_below (a b n : Z) :
  0 <= n → 0 <= a < 2 ^ n → 0 <= b < 2 ^ n → 0 <= Z.lxor a b < 2 ^ n.
Proof.
  intros Hn Ha Hb.
  assert (H0 : 0 <= Z.lxor a b) by (apply Z.lxor_nonneg; lia).
  split; [exact H0|].
  destruct (Z.eq_dec a 0) as [->|Ha0]; [rewrite Z.lxor_0_l; lia|].
  destruct (Z.eq_dec b 0) as [->|Hb0]; [rewrite Z.lxor_0_r; lia|].
  destruct (Z.eq_dec (Z.lxor a b) 0) as [->|Hne]; [lia|].
  apply Z.log2_lt_pow2; [lia|].
  eapply Z.le_lt_trans; [apply Z.log2_lxor; lia|].
  apply Z.max_lub_lt; apply Z.log2_lt_pow2; lia.
Qed.

Lemma xor_ords_nonneg s : 0 <= xor_ords s.
Proof.
  induction s as [|c s IH]; [reflexivity|].
  rewrite xor_ords_cons. apply Z.lxor_nonneg. unfold ord. lia.
Qed.

(** A string of characters below U+0100 has a checksum byte: its XOR fits
    in eight bits. *)
Lemma xor_ords_latin1 s :
  Forall (λ c, (c < 256)%N) s → xor_ords s <= 0xFF.
Proof.
  intros H.
  enough (0 <= xor_ords s < 2 ^ 8) by lia.
  induction H as [|c s Hc _ IH];
    [vm_compute; split; [discriminate|reflexivity]|].
  rewrite xor_ords_cons. apply lxor_below; [lia| unfold ord; lia | exact IH].
Qed.

Lemma nibbles_in_range (x : Z) :
  0 <= x <= 0xFF →
  0 <= Z.shiftr (0xFF - x) 4 < 16 ∧ 0 <= Z.land (0xFF - x) 0xF < 16.
Proof.
  intros Hx. split.
  - rewrite Z.shiftr_div_pow2 by lia. change (2 ^ 4) with 16.
    split; [apply Z.div_pos; lia | apply Z.div_lt_upper_bound; lia].
  - change 0xF with (Z.ones 4). rewrite Z.land_ones by lia.
    apply Z.mod_pos_bound. reflexivity.
Qed.

(** With a checksum byte, the two characters are the digits of its
    complement's nibbles. *)
Lemma build_crc_nibbles (s : str) :
  xor_ords s <= 0xFF →
  build_crc s =
    [hex_digit (Z.shiftr (0xFF - xor_ords s) 4);
     hex_digit (Z.land (0xFF - xor_ords s) 0xF)].
Proof.
  intros Hx. pose proof (xor_ords_nonneg s) as H0.
  destruct (nibbles_in_range (xor_ords s)) as [Hhi Hlo]; [lia|].
  unfold build_crc. now rewrite !value_to_hex_nibble.
Qed.

(** C1 (amended): for every string [s] whose code points XOR to at most
    0xFF (every string of characters below U+0100 does, by
    [xor_ords_latin1]), [build_crc s] is exactly two characters: the
    upper-case hexadecimal digit of [(0xFF - X) >> 4], then that of
    [(0xFF - X) & 0xF], where [X] is the XOR of the code points of [s].
    [build_crc] is a function of [s] alone, so equal inputs give equal
    outputs. *)
Theorem build_crc_two_hex_digits (s : str) :
  xor_ords s <= 0xFF →
  build_crc s =
    [hex_digit (Z.shiftr (0xFF - xor_ords s) 4);
     hex_digit (Z.land (0xFF - xor_ords s) 0xF)] ∧
  length (build_crc s) = 2%nat.
Proof. intros Hx. now rewrite build_crc_nibbles. Qed.

(** *** Splitting and joining *)

Lemma split_nonempty sep s : split sep s ≠ [].
Proof.
  destruct s as [|c s]; cbn [split]; [discriminate|].
  destruct (c =? sep)%N; [discriminate|].
  destruct (split sep s); discriminate.
Qed.

Lemma split_app sep x y :
  split sep (x ++ sep :: y) = split sep x ++ split sep y.
Proof.
  induction x as [|c x IH]; cbn [split app].
  - now rewrite N.eqb_refl.
  - rewrite IH. destruct (c =? sep)%N; [reflexivity|].
    pose proof (split_nonempty sep x) as Hne.
    destruct (split sep x); [congruence | reflexivity].
Qed.

Lemma split_free sep s : free_of sep s → split sep s = [s].
Proof.
  induction 1 as [|c s Hc _ IH]; [reflexivity|].
  cbn [split]. apply N.eqb_neq in Hc. now rewrite Hc, IH.
Qed.

Lemma split_app_sep sep a b :
  free_of sep a → split sep (a ++ sep :: b) = a :: split sep b.
Proof. intros Ha. now rewrite split_app, split_free. Qed.

Lemma split_join sep parts :
  parts ≠ [] → Forall (free_of sep) parts →
  split sep (join (chr sep) parts) = parts.
Proof.
  intros Hne H. induction H as [|p ps Hp Hps IH]; [congruence|].
  destruct ps as [|q ps].
  - cbn [join]. now apply split_free.
  - change (join (chr sep) (p :: q :: ps))
      with (p ++ sep :: join (chr sep) (q :: ps)).
    rewrite split_app_sep by exact Hp. f_equal. now apply IH.
Qed.

Lemma split_lengths sep s :
  Forall (λ p, (length p <= length s)%nat) (split sep s).
Proof.
  induction s as [|c s IH]; cbn [split].
  - constructor; [reflexivity | constructor].
  - assert (IH' : Forall (λ p : str, (length p <= length (c :: s))%nat)
                    (split sep s)).
    { eapply Forall_impl; [exact IH|]. cbn [length]. intros; lia. }
    destruct (c =? sep)%N.
    + constructor; [cbn [length]; lia | exact IH'].
    + destruct (split sep s) as [|p ps];
        [constructor; [cbn [length]; lia | constructor]|].
      inversion IH; subst. inversion IH'; subst.
      constructor; [cbn [length]; lia | assumption].
Qed.

Lemma free_of_app sep a b :
  free_of sep a → free_of sep b → free_of sep (a ++ b).
Proof. intros. now apply Forall_app. Qed.

Lemma free_of_join sep c parts :
  c ≠ sep → Forall (free_of sep) parts → free_of sep (join (chr c) parts).
Proof.
  intros Hc H. induction H as [|p ps Hp Hps IH]; [constructor|].
  destruct ps as [|q ps]; [exact Hp|].
  change (join (chr c) (p :: q :: ps)) with (p ++ c :: join (chr c) (q :: ps)).
  apply free_of_app; [exact Hp|]. constructor; [exact Hc | exact IH].
Qed.

Lemma no_control_free sep s :
  is_control sep = true → no_control s → free_of sep s.
Proof.
  intros Hs H. eapply Forall_impl; [exact H|].
  intros c Hc ->. congruence.
Qed.

(** *** Encoding and decoding *)

Lemma strip_framed (c0 : N) (inner tail : str) :
  length tail = 3%nat → strip (c0 :: inner ++ tail) = inner.
Proof.
  intros Ht. unfold strip.
  replace (length (c0 :: inner ++ tail) - 3)%nat with (length (c0 :: inner)).
  2:{ cbn [length]. rewrite length_app. lia. }
  change (c0 :: inner ++ tail) with ((c0 :: inner) ++ tail).
  rewrite take_app_length. reflexivity.
Qed.

Lemma frame_body_list command parameters :
  frame_body command (PList parameters) =
  STX :: header command parameters ++ [ETX].
Proof.
  unfold frame_body, header, truthy.
  destruct (bool_decide (parameters = [])); cbn [negb chr app].
  - reflexivity.
  - rewrite <- !app_assoc. reflexivity.
Qed.

Lemma split_header command parameters :
  free_of GS command → Forall (free_of GS) parameters →
  split GS (header command parameters) = command :: parameters.
Proof.
  intros Hc Hp. unfold header. case_bool_decide as Hnil.
  - subst. now apply split_free.
  - rewrite split_app_sep by exact Hc. f_equal. now apply split_join.
Qed.

Lemma free_of_header sep command parameters :
  sep ≠ GS → free_of sep command → Forall (free_of sep) parameters →
  free_of sep (header command parameters).
Proof.
  intros Hs Hc Hp. unfold header. case_bool_decide; [exact Hc|].
  apply free_of_app; [exact Hc|]. constructor; [congruence|].
  apply free_of_join; [congruence | exact Hp].
Qed.

Lemma decode_app x y : decode (x ++ EOT :: y) = decode x ++ decode y.
Proof.
  unfold decode. now rewrite split_app, List.filter_app, map_app.
Qed.

Lemma decode_unit u :
  free_of EOT u → (3 <= length u)%nat → decode u = [parse_unit u].
Proof.
  intros Hu Hl. unfold decode. rewrite split_free by exact Hu.
  cbn [List.filter]. apply Nat.ltb_ge in Hl. now rewrite Hl.
Qed.

Lemma decode_short g : (length g < 3)%nat → decode g = [].
Proof.
  intros Hg. unfold decode.
  pose proof (split_lengths EOT g) as H.
  induction H as [|p ps Hp _ IH]; [reflexivity|].
  cbn [List.filter].
  assert (Hlt : (length p <? 3)%nat = true) by (apply Nat.ltb_lt; lia).
  rewrite Hlt. exact IH.
Qed.

(** C2 (amended): for every command and every list of parameters with no
    embedded control byte, and such that the code points of the framed
    message XOR to at most 0xFF (so that the checksum is two characters, as
    for every message of characters below U+0100), decoding
    [full_message command parameters] yields exactly one frame,
    [(command, parameters, [])]. *)
Theorem decode_full_message (command : str) (parameters : list str) :
  no_control command →
  Forall no_control parameters →
  xor_ords (frame_body command (PList parameters)) <= 0xFF →
  decode (full_message command (PList parameters)) =
    [mkFrame command parameters []].
Proof.
  intros Hc Hp Hx.
  assert (Hfree : ∀ sep, is_control sep = true →
            free_of sep command ∧ Forall (free_of sep) parameters).
  { intros sep Hs. split; [now apply no_control_free|].
    eapply Forall_impl; [exact Hp|]. intros p. now apply no_control_free. }
  destruct (Hfree GS eq_refl) as [HcG HpG].
  destruct (Hfree RS eq_refl) as [HcR HpR].
  destruct (Hfree EOT eq_refl) as [HcE HpE].
  unfold full_message. cbv zeta.
  rewrite build_crc_nibbles by exact Hx.
  pose proof (xor_ords_nonneg (frame_body command (PList parameters))) as H0.
  set (x := xor_ords (frame_body command (PList parameters))) in *.
  destruct (nibbles_in_range x) as [Hhi Hlo]; [lia|].
  apply hex_digit_range in Hhi, Hlo.
  set (h1 := hex_digit (Z.shiftr (0xFF - x) 4)) in *.
  set (h2 := hex_digit (Z.land (0xFF - x) 0xF)) in *.
  clearbody h1 h2. rewrite frame_body_list.
  set (hd := header command parameters).
  replace ((STX :: hd ++ [ETX]) ++ [h1; h2] ++ chr EOT)
    with ((STX :: hd ++ [ETX; h1; h2]) ++ EOT :: []).
  2:{ cbn [app chr]. rewrite <- !app_assoc. reflexivity. }
  rewrite decode_app, (decode_short []) by (cbn [length]; lia).
  rewrite decode_unit.
  2:{ constructor; [discriminate|]. apply free_of_app.
      - apply free_of_header; [discriminate | exact HcE | exact HpE].
      - unfold EOT. repeat constructor; try discriminate; lia. }
  2:{ cbn [length]. rewrite length_app. cbn [length]. lia. }
  cbn [app]. f_equal.
  unfold parse_unit. rewrite strip_framed by reflexivity.
  rewrite split_free
    by (apply free_of_header; [discriminate | exact HcR | exact HpR]).
  unfold hd. now rewrite split_header.
Qed.

(** *** Stepping through the monad *)

Lemma bind_eq {A B} (m : M A) (k : A → M B) (w : world) :
  bind m k w =
  match m w with
  | (Ok a, w') => k a w'
  | (Raise e, w') => (Raise e, w')
  end.
Proof. reflexivity. Qed.

Lemma run_eq {A} (m : M A) (w : world) (o : outcome A) (w' : world) :
  m w = (o, w') → run_ m w = w'.
Proof. unfold run_. now intros ->. Qed.

Lemma for_each_app {A} (a b : list A) (k : A → M unit) (w : world) :
  for_each (a ++ b) k w = bind (for_each a k) (λ _, for_each b k) w.
Proof.
  revert w. induction a as [|x a IH]; intros w; [reflexivity|].
  cbn [for_each app]. rewrite !bind_eq.
  destruct (k x w) as [[[]|e] w1]; [|reflexivity].
  now rewrite IH, bind_eq.
Qed.

Lemma str_eqb_eq a b : str_eqb a b = true ↔ a = b.
Proof.
  revert b. induction a as [|x a IH]; intros [|y b]; cbn [str_eqb];
    try (split; [discriminate | congruence]); [tauto|].
  rewrite andb_true_iff, N.eqb_eq, IH. split; [intros []; congruence|].
  intros [= -> ->]. tauto.
Qed.


(** Comparisons of two literals are evaluated. *)
Ltac eval_literals :=
  repeat match goal with
  | |- context [str_eqb (lit ?a) (lit ?b)] =>
      let v := eval vm_compute in (str_eqb (lit a) (lit b)) in
      change (str_eqb (lit a) (lit b)) with v
  end.


(** The monad's operations are unfolded and the redexes reduced. *)
Ltac monad :=
  repeat progress
    (unfold if_, and_, or_, item_is, index, bind, ret, raise, get_server,
       put_server, log, emit, utcnow, run_, on_local;
     cbn [lookup list_lookup fst snd server clock trace];
     cbv beta iota zeta; eval_literals).

(** Projections of the records the setters build are reduced. *)
Ltac fields :=
  repeat progress
    (unfold set_switches, set_binary_sensors, set_clock;
     cbn [server clock trace fst snd
          switches settings hass ws_conn _connected started closed
          binary_sensors update_binary_sensor async_add_bs_entities
          async_add_sw_entities update_switch sw_unique_id bs_unique_id]).

Ltac drive tac :=
  repeat progress (monad; fields; tac; cbn [negb andb orb]).

(** *** The dispatcher *)

(** C8: with [fetch_sensor_areas] off, an inbound [upd] frame whose
    sub-command is [X A] returns with the world as it was: no notification
    is added to the trace and both device tables are unchanged; the gate of
    [update_binary_sensor] for family 12 does the same. *)
Theorem antitheft_area_gated (parameters : list str)
    (records : list (list str)) (w : world) :
  fetch_sensor_areas (settings (server w)) = false →
  manage_commands (lit "upd") (lit "X" :: lit "A" :: parameters) records w
    = (Ok tt, w) ∧
  ∀ ave_device_id device_status name,
    binary_sensor_update_binary_sensor 12 ave_device_id device_status name w
      = (Ok tt, w).
Proof.
  intros Hoff. split.
  - unfold manage_commands. monad.
    unfold manage_upd. monad.
    now rewrite Hoff.
  - intros. unfold binary_sensor_update_binary_sensor. monad.
    change (12 =? 12) with true. cbv iota. now rewrite Hoff.
Qed.

Lemma on_message_returns (message : message) (w : world) :
  ∃ w', on_message message w = (Ok tt, w').
Proof.
  unfold on_message, try_except.
  match goal with |- context [match ?m w with _ => _ end] =>
    destruct (m w) as [[[]|e] w1] end.
  - eauto.
  - unfold log, emit. eauto.
Qed.



(** C10: each creation-callback slot is set at most once. After a
    registration the slot holds the callback that was there before, or the
    registered one if the slot was empty, and every other attribute of the
    server, the clock and the trace are as they were; a later registration
    on the same slot returns with the world as it was, so the slot still
    holds the first callback. *)
Theorem creation_callbacks_set_once (f g : callback) (w : world) :
  let s := server w in
  let first_bs := default f (async_add_bs_entities s) in
  let first_sw := default f (async_add_sw_entities s) in
  let w_bs := run_ (set_async_add_bs_entities f) w in
  let w_sw := run_ (set_async_add_sw_entities f) w in
  w_bs =
    mkWorld
      (mkServer (settings s) (hass s) (ws_conn s) (_connected s) (started s)
         (closed s) (binary_sensors s) (update_binary_sensor s)
         (Some first_bs) (switches s) (async_add_sw_entities s)
         (update_switch s))
      (clock w) (trace w) ∧
  set_async_add_bs_entities g w_bs = (Ok tt, w_bs) ∧
  async_add_bs_entities (server (run_ (set_async_add_bs_entities g) w_bs))
    = Some first_bs ∧
  w_sw =
    mkWorld
      (mkServer (settings s) (hass s) (ws_conn s) (_connected s) (started s)
         (closed s) (binary_sensors s) (update_binary_sensor s)
         (async_add_bs_entities s) (switches s) (Some first_sw)
         (update_switch s))
      (clock w) (trace w) ∧
  set_async_add_sw_entities g w_sw = (Ok tt, w_sw) ∧
  async_add_sw_entities (server (run_ (set_async_add_sw_entities g) w_sw))
    = Some first_sw.
Proof.
  destruct w as [[st h conn con sta clo bs ubs [cb_bs|] sw [cb_sw|] usw] c t];
    unfold set_async_add_bs_entities, set_async_add_sw_entities; monad;
    cbn; auto 10.
Qed.

(** *** Units of a buffer *)




(** *** The device tables *)

(** One call on a stored switch with a status and no name. *)
Lemma update_switch_status (w : world) (id status : Z) (switch : LightSwitch) :
  let unique_id := switch_set_sensor_uid 1 id in
  fetch_lights (settings (server w)) = true →
  switches (server w) !! unique_id = Some switch →
  0 <= status →
  switch_update_switch 1 id status None w =
    (Ok tt,
     switch_stored unique_id
       (fst (LightSwitch_update_state (Some status) switch))
       [Log DEBUG " Updating switch for family %s, device_id %s";
        WriteHaState (sw_unique_id switch)] w).
Proof.
  intros unique_id Hon Hin Hs.
  assert (Hn : (status <? 0) = false) by (apply Z.ltb_ge; lia).
  apply Z.leb_le in Hs.
  unfold switch_update_switch, on_switch. fold unique_id.
  clearbody unique_id. change (1 =? 1) with true.
  unfold LightSwitch_update_state.
  repeat progress
    (monad; rewrite ?Hon, ?Hin, ?Hn, ?Hs, ?bool_decide_eq_true_2 by eauto;
     cbn [negb]).
  unfold switch_stored.
  rewrite <- app_assoc. reflexivity.
Qed.


(** One call for a switch the table does not hold: the entry is stored
    before the creation callback is called. *)
Lemma update_switch_new (w : world) (id status : Z) (name : option str) :
  let unique_id := switch_set_sensor_uid 1 id in
  let entity_name :=
    if get_entity_names (settings (server w)) then name else None in
  let slot := async_add_sw_entities (server w) in
  fetch_lights (settings (server w)) = true →
  switches (server w) !! unique_id = None →
  switch_update_switch 1 id status name w =
    (match slot with Some _ => Ok tt | None => Raise TypeError end,
     switch_stored unique_id
       (LightSwitch_init unique_id 1 id (Some status) entity_name entity_name)
       ([Log DEBUG " Updating switch for family %s, device_id %s";
         Log INFO "Creating new switch entity %s"] ++
        match slot with
        | Some cb => [AddEntities cb [unique_id]]
        | None => []
        end) w).
Proof.
  intros unique_id entity_name slot Hon Hin.
  unfold switch_update_switch, call_add_entities.
  fold unique_id. clearbody unique_id. change (1 =? 1) with true.
  assert (Hno : bool_decide (is_Some (switches (server w) !! unique_id))
                = false).
  { apply bool_decide_eq_false_2. rewrite Hin. intros [? [=]]. }
  assert (Hname :
    match name with
    | Some _ => if get_entity_names (settings (server w)) then name else None
    | None => None
    end = entity_name).
  { unfold entity_name. destruct name, (get_entity_names _); reflexivity. }
  drive ltac:(rewrite ?Hon, ?Hno, ?Hname).
  unfold switch_stored, slot.
  destruct (async_add_sw_entities (server w)) eqn:Hslot; monad; fields;
    rewrite ?Hslot, <- ?app_assoc, ?app_nil_r; reflexivity.
Qed.

(** The same three calls on the table of binary sensors. *)
Lemma update_binary_sensor_status (w : world) (family id status : Z)
    (sensor : MotionBinarySensor) :
  let unique_id := binary_sensor_set_sensor_uid family id in
  binary_sensor_enabled (settings (server w)) family = true →
  binary_sensors (server w) !! unique_id = Some sensor →
  0 <= status →
  binary_sensor_update_binary_sensor family id status None w =
    (Ok tt,
     binary_sensor_stored unique_id
       (fst (MotionBinarySensor_update_state (clock w) (Some status) sensor))
       [Log DEBUG " Updating binary sensor for family %s, device_id %s";
        WriteHaState (bs_unique_id sensor)] w).
Proof.
  intros unique_id Hon Hin Hs. apply Z.leb_le in Hs.
  unfold binary_sensor_update_binary_sensor, on_binary_sensor.
  fold unique_id. clearbody unique_id.
  unfold binary_sensor_enabled in Hon.
  unfold MotionBinarySensor_update_state.
  assert (Hfam : (family =? 12) && (family =? 1007) = false).
  { destruct (Z.eqb_spec family 12) as [->|]; reflexivity. }
  destruct (family =? 12), (family =? 1007); try discriminate Hfam;
    destruct
    (fetch_sensor_areas (settings (server w))) eqn:Ha,
    (fetch_sensors (settings (server w))) eqn:Hb; try discriminate Hon;
    drive ltac:(rewrite ?Ha, ?Hb, ?Hin, ?Hs, ?bool_decide_eq_true_2 by eauto);
    unfold binary_sensor_stored; fields; rewrite <- ?app_assoc; reflexivity.
Qed.


(** One call for an area sensor the table does not hold. When the hub's
    name is to be set, [set_ave_name] raises on the sensor just built and
    nothing is stored; otherwise the sensor is stored before the creation
    callback is called. *)
Lemma update_binary_sensor_new (w : world) (id status : Z)
    (name : option str) :
  let unique_id := binary_sensor_set_sensor_uid 12 id in
  let slot := async_add_bs_entities (server w) in
  fetch_sensor_areas (settings (server w)) = true →
  binary_sensors (server w) !! unique_id = None →
  binary_sensor_update_binary_sensor 12 id status name w =
    if names_new_sensor (settings (server w))
         (binary_sensor_check_name_changed (hass (server w)) unique_id) name
    then
      (Raise RuntimeError,
       logged DEBUG " Updating binary sensor for family %s, device_id %s" w)
    else
      (match slot with Some _ => Ok tt | None => Raise TypeError end,
       binary_sensor_stored unique_id (new_sensor unique_id 12 id status)
         ([Log DEBUG " Updating binary sensor for family %s, device_id %s";
           Log INFO "Creating new binary sensor entity %s"] ++
          match slot with
          | Some cb => [AddEntities cb [unique_id]]
          | None => []
          end) w).
Proof.
  intros unique_id slot Hon Hin.
  unfold binary_sensor_update_binary_sensor, call_add_entities.
  fold unique_id. unfold names_new_sensor, new_sensor, slot, logged.
  clearbody unique_id.
  change (12 =? 12) with true. change (12 =? 1007) with false.
  assert (Hno : bool_decide (is_Some (binary_sensors (server w) !! unique_id))
                = false).
  { apply bool_decide_eq_false_2. rewrite Hin. intros [? [=]]. }
  unfold MotionBinarySensor_set_name, MotionBinarySensor_set_ave_name.
  destruct name as [name|], (get_entity_names (settings (server w))) eqn:Hn,
    (binary_sensor_check_name_changed (hass (server w)) unique_id) eqn:Hc,
    (async_add_bs_entities (server w)) eqn:Hslot;
    drive ltac:(rewrite ?Hon, ?Hno, ?Hn, ?Hc, ?Hslot; cbn [existsb]);
    unfold binary_sensor_stored; fields; cbn [fst snd app];
    rewrite ?Hslot, <- ?app_assoc, ?app_nil_r; reflexivity.
Qed.

(** C5 (amended): for an existing device whose family is enabled, applying
    the same non-negative status twice in a row leaves the observable status
    after the second application as it was after the first. For a switch
    the second application leaves the whole server as it was. For a binary
    sensor it rewrites only the entry of that sensor, keeps [last_cleared],
    and keeps the entry unchanged when the status is 0. The second
    application creates nothing and, like every application of a status
    >= 0, writes the entity's state to the host once. *)
Theorem repeated_status_keeps_state :
  (∀ w id status t switch,
     let unique_id := switch_set_sensor_uid 1 id in
     fetch_lights (settings (server w)) = true →
     switches (server w) !! unique_id = Some switch →
     0 <= status →
     let w1 := run_ (switch_update_switch 1 id status None) w in
     let w2 :=
       run_ (switch_update_switch 1 id status None) (set_clock t w1) in
     server w2 = server w1 ∧
     LightSwitch_is_on <$> switches (server w1) !! unique_id =
       Some (Some (bool_of_int status)) ∧
     trace w2 =
       trace w1 ++
       [Log DEBUG " Updating switch for family %s, device_id %s";
        WriteHaState (sw_unique_id switch)]) ∧
  (∀ w family id status t sensor,
     let unique_id := binary_sensor_set_sensor_uid family id in
     binary_sensor_enabled (settings (server w)) family = true →
     binary_sensors (server w) !! unique_id = Some sensor →
     0 <= status →
     let w1 :=
       run_ (binary_sensor_update_binary_sensor family id status None) w in
     let w2 :=
       run_ (binary_sensor_update_binary_sensor family id status None)
         (set_clock t w1) in
     ∃ s1 s2,
       binary_sensors (server w1) !! unique_id = Some s1 ∧
       server w2 =
         set_binary_sensors (<[unique_id := s2]> (binary_sensors (server w1)))
           (server w1) ∧
       MotionBinarySensor_is_on s1 = Some (status >? 0) ∧
       MotionBinarySensor_is_on s2 = Some (status >? 0) ∧
       bs_last_cleared s2 = bs_last_cleared s1 ∧
       (status = 0 → s2 = s1) ∧
       trace w2 =
         trace w1 ++
         [Log DEBUG " Updating binary sensor for family %s, device_id %s";
          WriteHaState (bs_unique_id sensor)]).
Proof.
  split.
  - intros w id status t switch unique_id Hon Hin Hs w1 w2.
    set (s1 := fst (LightSwitch_update_state (Some status) switch)).
    assert (E1 : w1 = switch_stored unique_id s1
              [Log DEBUG " Updating switch for family %s, device_id %s";
               WriteHaState (sw_unique_id switch)] w).
    { eapply run_eq. now apply update_switch_status. }
    clearbody w1. subst w1.
    assert (E2 : w2 = switch_stored unique_id
              (fst (LightSwitch_update_state (Some status) s1))
              [Log DEBUG " Updating switch for family %s, device_id %s";
               WriteHaState (sw_unique_id s1)]
              (set_clock t (switch_stored unique_id s1
                 [Log DEBUG " Updating switch for family %s, device_id %s";
                  WriteHaState (sw_unique_id switch)] w))).
    { eapply run_eq. apply update_switch_status; [exact Hon| |exact Hs].
      unfold switch_stored, set_clock. fields. cbn [server].
      apply lookup_insert_eq. }
    clearbody w2. subst w2.
    assert (Hn : (status <? 0) = false) by (apply Z.ltb_ge; lia).
    unfold s1, LightSwitch_update_state, LightSwitch_is_on. rewrite Hn.
    cbn [fst sw_unique_id sw_is_on sw_ave_device_id sw_family sw_ave_name
         sw_name sw_attr_is_on].
    unfold switch_stored, set_clock. fields. cbn [server clock trace].
    rewrite insert_insert_eq, lookup_insert_eq. auto.
  - intros w family id status t sensor unique_id Hon Hin Hs w1 w2.
    set (s1 := fst (MotionBinarySensor_update_state (clock w) (Some status)
                      sensor)).
    assert (E1 : w1 = binary_sensor_stored unique_id s1
              [Log DEBUG " Updating binary sensor for family %s, device_id %s";
               WriteHaState (bs_unique_id sensor)] w).
    { eapply run_eq. now apply update_binary_sensor_status. }
    clearbody w1. subst w1.
    assert (E2 : w2 = binary_sensor_stored unique_id
              (fst (MotionBinarySensor_update_state t (Some status) s1))
              [Log DEBUG " Updating binary sensor for family %s, device_id %s";
               WriteHaState (bs_unique_id s1)]
              (set_clock t (binary_sensor_stored unique_id s1
                 [Log DEBUG
                    " Updating binary sensor for family %s, device_id %s";
                  WriteHaState (bs_unique_id sensor)] w))).
    { eapply run_eq.
      apply (update_binary_sensor_status (set_clock t _));
        [exact Hon| |exact Hs].
      unfold binary_sensor_stored, set_clock. fields. cbn [server].
      apply lookup_insert_eq. }
    clearbody w2. subst w2.
    exists s1, (fst (MotionBinarySensor_update_state t (Some status) s1)).
    unfold binary_sensor_stored, set_clock. fields. cbn [server clock trace].
    rewrite lookup_insert_eq.
    unfold s1, MotionBinarySensor_update_state, MotionBinarySensor_is_on.
    cbn [fst bs_is_motion_detected bs_last_cleared bs_last_revealed
         bs_unique_id].
    repeat split.
    + destruct (status >? 0) eqn:Hp; [reflexivity|].
      assert (status = 0) as -> by lia. reflexivity.
    + intros ->. reflexivity.
Qed.


(** C9, what the code does: a switch created with status -1 has the unknown
    state ([None]). An area sensor seeded with status -1 and a name never
    has it: with hub names off, or with a name given in the host, the sensor
    is stored with the state off ([Some false]), because
    [update_binary_sensor] stores [device_status > 0]; with hub names on
    and no name given in the host, [set_ave_name] raises [RuntimeError] on
    the sensor just built and no sensor is stored. *)
Theorem seeded_devices_state :
  (∀ w id name,
     let unique_id := binary_sensor_set_sensor_uid 12 id in
     let seed := binary_sensor_update_binary_sensor 12 id (-1) (Some name) in
     fetch_sensor_areas (settings (server w)) = true →
     binary_sensors (server w) !! unique_id = None →
     (get_entity_names (settings (server w)) = false ∨
      binary_sensor_check_name_changed (hass (server w)) unique_id = true →
      MotionBinarySensor_is_on <$>
        binary_sensors (server (run_ seed w)) !! unique_id
      = Some (Some false)) ∧
     (get_entity_names (settings (server w)) = true →
      binary_sensor_check_name_changed (hass (server w)) unique_id = false →
      fst (seed w) = Raise RuntimeError ∧
      binary_sensors (server (run_ seed w)) = binary_sensors (server w))) ∧
  (∀ w id name,
     let unique_id := switch_set_sensor_uid 1 id in
     fetch_lights (settings (server w)) = true →
     switches (server w) !! unique_id = None →
     LightSwitch_is_on <$>
       switches
         (server (run_ (switch_update_switch 1 id (-1) (Some name)) w))
       !! unique_id
     = Some None).
Proof.
  split.
  - intros w id name unique_id seed Hon Hnew.
    pose proof (update_binary_sensor_new w id (-1) (Some name) Hon Hnew) as E.
    fold unique_id seed in E. unfold names_new_sensor in E.
    rewrite bool_decide_eq_true_2 in E by eauto. cbn [andb] in E.
    split.
    + intros Hoff.
      assert (Hn : get_entity_names (settings (server w)) &&
                   negb (binary_sensor_check_name_changed (hass (server w))
                           unique_id) = false).
      { destruct Hoff as [-> | ->]; [reflexivity | apply andb_false_r]. }
      rewrite Hn in E. rewrite (run_eq _ _ _ _ E).
      unfold binary_sensor_stored. fields. now rewrite lookup_insert_eq.
    + intros Hnames Hsame. rewrite Hnames, Hsame in E. cbn [andb negb] in E.
      rewrite (run_eq _ _ _ _ E), E. split; reflexivity.
  - intros w id name unique_id Hon Hnew.
    pose proof (update_switch_new w id (-1) (Some name) Hon Hnew) as E.
    apply run_eq in E. rewrite E. fold unique_id.
    unfold switch_stored. fields. now rewrite lookup_insert_eq.
Qed.

(** *** The connection loop *)

(** C7, what the code does: from a server that is not started, not closed
    and not connected, a failed connect followed by a successful one leaves
    [start] in its receive loop, having slept 5 seconds exactly once, before
    any frame was sent, and having sent the on-connect frames once and in
    order. Decoded, they are LDI, GSF ["1"] if lights are enabled, GSF
    ["12"] and WSF if sensor areas are enabled, and SU3; the WSF frame
    carries the two parameters ["1"] and ["2"], not the parameter ["12"]:
    [on_connect_actions] passes the bare string to [send_ws_command], which
    joins its characters. *)
Theorem start_after_failed_connect (w : world) :
  started (server w) = false →
  closed (server w) = false →
  needs_connect (server w) = true →
  let r := start [ConnectFails; ConnectSucceeds] w in
  fst r = Receiving ∧
  ∃ frames,
    actions (trace (snd r)) =
      actions (trace w) ++ Sleep 5 :: map SendStr frames ∧
    flat_map decode frames =
      on_connect_frames (settings (server w)) [lit "1"; lit "2"].
Proof.
  destruct w as [[st h c conn sta clo bs ubs abs sw asw usw] t tr].
  destruct st as [ho names areas sensors lights scen].
  cbn [server started closed settings]. intros -> -> Hneed.
  unfold needs_connect in Hneed. cbn [_connected ws_conn] in Hneed.
  unfold start, run, step, loop_head, enter_receive, retry,
    run_, authenticate_fails, authenticate_ok, on_connect_actions,
    send_ws_command, needs_connect, bind, ret, get_server, put_server, log,
    emit, set_started, set_connected, set_ws_conn.
  do 3 (cbn [fold_left fst snd server clock trace started closed _connected
             ws_conn settings fetch_lights fetch_sensor_areas socket_usable
             negb orb];
        rewrite ?Hneed).
  split; [destruct lights, areas; reflexivity|].
  exists ([full_message (lit "LDI") PNone] ++
          (if lights then [full_message (lit "GSF") (PStr (lit "1"))]
           else []) ++
          (if areas
           then [full_message (lit "GSF") (PList [lit "12"]);
                 full_message (lit "WSF") (PStr (lit "12"))]
           else []) ++
          [full_message (lit "SU3") PNone]).
  unfold actions, on_connect_frames. cbn [fetch_lights fetch_sensor_areas].
  destruct lights, areas;
    cbn [fst snd server clock trace started closed _connected ws_conn
       settings fetch_lights fetch_sensor_areas socket_usable negb orb];
    rewrite <- ?app_assoc, ?List.filter_app;
    cbn [List.filter app is_log negb map];
    (split; [reflexivity | vm_compute; reflexivity]).
Qed.

(** ** Further properties *)

(** *** Integers as text *)

Lemma lit_cons (c : ascii) (s : string) :
  lit (String c s) = N_of_ascii c :: lit s.
Proof. reflexivity. Qed.

(** The characters of a decimal numeral are digits. *)
Lemma uint_chars_digits (d : Decimal.uint) :
  Forall (λ c, isdigit c = true) (lit (DecimalString.NilEmpty.string_of_uint d)).
Proof.
  induction d; cbn [DecimalString.NilEmpty.string_of_uint];
    rewrite ?lit_cons; constructor; try reflexivity; assumption.
Qed.

Lemma digits_value_acc (d : Decimal.uint) (p : positive) :
  digits_value (Zpos p) true (lit (DecimalString.NilEmpty.string_of_uint d)) =
  Some (Zpos (Pos.of_uint_acc d p)).
Proof.
  revert p. induction d; intros p;
    cbn [DecimalString.NilEmpty.string_of_uint Pos.of_uint_acc];
    rewrite ?lit_cons; [reflexivity|..];
    cbn [digits_value N_of_ascii N_of_digits isdigit];
    match goal with
    | |- context [isdigit ?c] => change (isdigit c) with true
    end; cbv iota;
    match goal with
    | |- digits_value ?a true _ = Some (Zpos (Pos.of_uint_acc d ?q)) =>
        replace a with (Zpos q) by (cbn; lia); apply IHd
    end.
Qed.

Lemma digits_value_uint (d : Decimal.uint) (b : bool) :
  d ≠ Decimal.Nil ∨ b = true →
  digits_value 0 b (lit (DecimalString.NilEmpty.string_of_uint d)) =
  Some (Z.of_N (Pos.of_uint d)).
Proof.
  revert b. induction d; intros b Hb;
    cbn [DecimalString.NilEmpty.string_of_uint Pos.of_uint];
    rewrite ?lit_cons.
  - destruct Hb as [?| ->]; [congruence | reflexivity].
  - cbn [digits_value]. change (isdigit (N_of_ascii "0")) with true.
    cbv iota. change (10 * 0 + (Z.of_N (N_of_ascii "0") - 48)) with 0.
    apply IHd. now right.
  - cbn [digits_value]. change (isdigit (N_of_ascii "1")) with true.
    cbv iota. exact (digits_value_acc d 1).
  - cbn [digits_value]. change (isdigit (N_of_ascii "2")) with true.
    cbv iota. exact (digits_value_acc d 2).
  - cbn [digits_value]. change (isdigit (N_of_ascii "3")) with true.
    cbv iota. exact (digits_value_acc d 3).
  - cbn [digits_value]. change (isdigit (N_of_ascii "4")) with true.
    cbv iota. exact (digits_value_acc d 4).
  - cbn [digits_value]. change (isdigit (N_of_ascii "5")) with true.
    cbv iota. exact (digits_value_acc d 5).
  - cbn [digits_value]. change (isdigit (N_of_ascii "6")) with true.
    cbv iota. exact (digits_value_acc d 6).
  - cbn [digits_value]. change (isdigit (N_of_ascii "7")) with true.
    cbv iota. exact (digits_value_acc d 7).
  - cbn [digits_value]. change (isdigit (N_of_ascii "8")) with true.
    cbv iota. exact (digits_value_acc d 8).
  - cbn [digits_value]. change (isdigit (N_of_ascii "9")) with true.
    cbv iota. exact (digits_value_acc d 9).
Qed.

Lemma str_of_int_chars (n : Z) :
  Forall (λ c, numeral_char c = true) (str_of_int n).
Proof.
  assert (Hd : ∀ d, Forall (λ c, numeral_char c = true)
                      (lit (DecimalString.NilZero.string_of_uint d))).
  { intros d. unfold DecimalString.NilZero.string_of_uint.
    destruct d; try (repeat constructor; fail);
      (eapply Forall_impl; [apply uint_chars_digits|]);
      intros c Hc; unfold numeral_char; rewrite Hc; apply orb_true_r. }
  unfold str_of_int. destruct (Z.to_int n) as [d|d];
    cbn [DecimalString.NilZero.string_of_int]; rewrite ?lit_cons;
    [|constructor; [reflexivity|]]; apply Hd.
Qed.

Lemma lstrip_head (c : N) (s : str) :
  isspace c = false → lstrip (c :: s) = c :: s.
Proof. intros H. cbn [lstrip]. now rewrite H. Qed.

Lemma strip_spaces_id (s : str) :
  Forall (λ c, isspace c = false) s → strip_spaces s = s.
Proof.
  intros H. unfold strip_spaces.
  assert (L : ∀ t, Forall (λ c, isspace c = false) t → lstrip t = t).
  { intros t Ht. destruct Ht; [reflexivity | now apply lstrip_head]. }
  rewrite (L s H), L, rev_involutive; [reflexivity|].
  now apply Forall_rev.
Qed.

Lemma numeral_char_not_space c : numeral_char c = true → isspace c = false.
Proof.
  unfold numeral_char, isdigit, isspace. intros H.
  apply orb_true_iff in H.
  rewrite andb_true_iff, N.eqb_eq, !N.leb_le in H.
  repeat (apply orb_false_iff; split);
    rewrite ?andb_false_iff, ?N.eqb_neq, ?N.leb_gt; lia.
Qed.

(** [int] takes the text of [str(n)] as it is. *)
Lemma str_of_int_ascii (n : Z) : ascii_numeral (str_of_int n) = str_of_int n.
Proof.
  unfold ascii_numeral.
  assert (H : forallb (λ c, c <? 128)%N (str_of_int n) = true).
  { apply forallb_forall. intros c Hc.
    pose proof (proj1 (List.Forall_forall _ _) (str_of_int_chars n) c Hc) as H.
    unfold numeral_char, isdigit in H. apply orb_true_iff in H.
    rewrite andb_true_iff, N.eqb_eq, !N.leb_le in H.
    apply N.ltb_lt. lia. }
  now rewrite H.
Qed.

(** [int(str(n)) == n]. *)
Lemma int_of_str_of_int (n : Z) : int_of_str (str_of_int n) = Some n.
Proof.
  unfold int_of_str. rewrite str_of_int_ascii, strip_spaces_id.
  2:{ eapply Forall_impl; [apply str_of_int_chars|].
      apply numeral_char_not_space. }
  unfold str_of_int, Z.to_int.
  destruct n as [|p|p]; [reflexivity| |].
  - cbn [DecimalString.NilZero.string_of_int].
    pose proof (Unsigned.of_to p) as Hp.
    pose proof (Unsigned.to_uint_nonnil p) as Hn.
    pose proof (digits_value_uint (Pos.to_uint p) false (or_introl Hn)) as Hv.
    rewrite Hp in Hv.
    unfold DecimalString.NilZero.string_of_uint.
    destruct (Pos.to_uint p); try congruence;
      cbn [DecimalString.NilEmpty.string_of_uint] in *;
      rewrite lit_cons in *; exact Hv.
  - cbn [DecimalString.NilZero.string_of_int]. rewrite lit_cons.
    change (N_of_ascii "-") with 45%N. cbv iota.
    pose proof (Unsigned.of_to p) as Hp.
    pose proof (Unsigned.to_uint_nonnil p) as Hn.
    pose proof (digits_value_uint (Pos.to_uint p) false (or_introl Hn)) as Hv.
    rewrite Hp in Hv.
    unfold DecimalString.NilZero.string_of_uint.
    destruct (Pos.to_uint p); try congruence; rewrite Hv; reflexivity.
Qed.

Lemma str_of_int_free (sep : N) (n : Z) :
  numeral_char sep = false → free_of sep (str_of_int n).
Proof.
  intros Hs. eapply Forall_impl; [apply str_of_int_chars|].
  intros c Hc ->. congruence.
Qed.

Lemma str_of_int_no_control (n : Z) : no_control (str_of_int n).
Proof.
  eapply Forall_impl; [apply str_of_int_chars|].
  intros c Hc. unfold numeral_char, isdigit in Hc.
  apply orb_true_iff in Hc. rewrite andb_true_iff, N.eqb_eq, !N.leb_le in Hc.
  unfold is_control, STX, ETX, EOT, GS, RS.
  repeat (apply orb_false_iff; split); apply N.eqb_neq; lia.
Qed.

Lemma str_of_int_latin1 (n : Z) : Forall (λ c, (c < 256)%N) (str_of_int n).
Proof.
  eapply Forall_impl; [apply str_of_int_chars|].
  intros c Hc. unfold numeral_char, isdigit in Hc.
  apply orb_true_iff in Hc. rewrite andb_true_iff, N.eqb_eq, !N.leb_le in Hc.
  lia.
Qed.

(** *** Further properties of the codec *)

Lemma join_cons_cons (sep : N) (p q : str) (ps : list str) :
  join (chr sep) (p :: q :: ps) = p ++ sep :: join (chr sep) (q :: ps).
Proof. reflexivity. Qed.

(** Splitting takes a joined list of parts apart again, whatever the
    parts hold besides the separator. *)
Lemma split_join_units (units : list str) :
  units ≠ [] → Forall (free_of EOT) units →
  split EOT (join (chr EOT) units) = units.
Proof. apply split_join. Qed.

Lemma decode_join (units : list str) :
  Forall (free_of EOT) units →
  decode (join (chr EOT) units) =
  map parse_unit (List.filter (λ u, negb (length u <? 3)%nat) units).
Proof.
  intros H. destruct units as [|u units]; [reflexivity|].
  unfold decode. now rewrite split_join.
Qed.

(** X1: a buffer made of units of at least three characters, none of which
    contains EOT, joined by EOT, decodes to one frame per unit, in order;
    a trailing EOT, as [send_ws_command] writes it, adds no frame. *)
Theorem frames_of_a_buffer (units : list str) :
  Forall (free_of EOT) units →
  Forall (λ u, (3 <= length u)%nat) units →
  decode (join (chr EOT) units) = map parse_unit units ∧
  decode (join (chr EOT) units ++ chr EOT) = map parse_unit units.
Proof.
  intros Hfree Hlen.
  assert (Hf : List.filter (λ u : str, negb (length u <? 3)%nat) units = units).
  { clear Hfree. induction Hlen as [|u units Hu _ IH]; [reflexivity|].
    cbn [List.filter]. apply Nat.ltb_ge in Hu. rewrite Hu. cbn [negb].
    now rewrite IH. }
  split.
  - now rewrite decode_join, Hf.
  - unfold chr at 2. rewrite decode_app, decode_join, Hf by assumption.
    rewrite (decode_short []) by (cbn [length]; lia). apply app_nil_r.
Qed.

Lemma split_rows (sep : N) (rows : list (list str)) :
  Forall (λ row, row ≠ [] ∧ Forall (free_of sep) row) rows →
  map (split sep) (map (join (chr sep)) rows) = rows.
Proof.
  induction 1 as [|row rows [Hne Hrow] _ IH]; [reflexivity|].
  cbn [map]. now rewrite split_join, IH.
Qed.

(** X2: [on_message] reads a unit back into its command, its parameters
    and its records: for fields free of GS and RS and records that are not
    empty, the unit made of any first character, the header joined by GS,
    the records joined by GS and separated by RS, and any three last
    characters, parses to exactly that command, those parameters and those
    records. *)
Theorem parse_unit_payload (c0 : N) (command : str) (parameters : list str)
    (records : list (list str)) (tail : str) :
  length tail = 3%nat →
  Forall (λ field, free_of GS field ∧ free_of RS field)
    (command :: parameters) →
  Forall (λ row, row ≠ [] ∧
                 Forall (λ field, free_of GS field ∧ free_of RS field) row)
    records →
  parse_unit (c0 :: payload command parameters records ++ tail) =
    mkFrame command parameters records.
Proof.
  intros Ht Hh Hr. unfold parse_unit. rewrite strip_framed by exact Ht.
  unfold payload.
  assert (HhG : Forall (free_of GS) (command :: parameters)).
  { eapply Forall_impl; [exact Hh|]. now intros f []. }
  assert (HhR : Forall (free_of RS) (command :: parameters)).
  { eapply Forall_impl; [exact Hh|]. now intros f []. }
  assert (HrG : Forall (λ row, row ≠ [] ∧ Forall (free_of GS) row) records).
  { eapply Forall_impl; [exact Hr|]. intros row [Hne Hrow]. split; [exact Hne|].
    eapply Forall_impl; [exact Hrow|]. now intros f []. }
  assert (HrR : Forall (free_of RS) (map (join (chr GS)) records)).
  { apply Forall_map. eapply Forall_impl; [exact Hr|]. intros row [_ Hrow].
    apply free_of_join; [discriminate|].
    eapply Forall_impl; [exact Hrow|]. now intros f []. }
  rewrite split_join; [|discriminate|].
  2:{ constructor; [|exact HrR]. apply free_of_join; [discriminate|exact HhR]. }
  rewrite split_join by (discriminate || exact HhG).
  now rewrite split_rows.
Qed.

(** *** The checksum tells single characters apart *)

Lemma hex_digit_inj (u v : Z) :
  0 <= u < 16 → 0 <= v < 16 → hex_digit u = hex_digit v → u = v.
Proof.
  intros Hu Hv H.
  assert (D : ∀ x, 0 <= x < 16 →
            (if (hex_digit x <? 58)%N then Z.of_N (hex_digit x) - 48
             else Z.of_N (hex_digit x) - 55) = x).
  { intros x Hx.
    assert (Hn : ∃ n : nat, (n < 16)%nat ∧ x = Z.of_nat n).
    { exists (Z.to_nat x). lia. }
    destruct Hn as (n & Hn & ->).
    do 16 (destruct n as [|n]; [reflexivity|]). lia. }
  rewrite <- (D u Hu), <- (D v Hv), H. reflexivity.
Qed.

Lemma nibbles_inj (x y : Z) :
  Z.shiftr x 4 = Z.shiftr y 4 → Z.land x 0xF = Z.land y 0xF → x = y.
Proof.
  change 0xF with (Z.ones 4). rewrite !Z.land_ones, !Z.shiftr_div_pow2 by lia.
  change (2 ^ 4) with 16. intros Hd Hm.
  rewrite (Z.div_mod x 16), (Z.div_mod y 16) by lia. congruence.
Qed.

Lemma build_crc_inj (s t : str) :
  xor_ords s <= 0xFF → xor_ords t <= 0xFF →
  build_crc s = build_crc t → xor_ords s = xor_ords t.
Proof.
  intros Hs Ht H. rewrite !build_crc_nibbles in H by assumption.
  pose proof (xor_ords_nonneg s) as Hs0.
  pose proof (xor_ords_nonneg t) as Ht0.
  destruct (nibbles_in_range (xor_ords s)) as [Hs1 Hs2]; [lia|].
  destruct (nibbles_in_range (xor_ords t)) as [Ht1 Ht2]; [lia|].
  injection H as Hhi Hlo.
  apply hex_digit_inj in Hhi, Hlo; try assumption.
  pose proof (nibbles_inj _ _ Hhi Hlo). lia.
Qed.

(** X3: the checksum detects the substitution of one character: two
    strings of characters below U+0100 that differ in exactly one position
    have different checksums. *)
Theorem build_crc_detects_substitution (a b : str) (c c' : N) :
  Forall (λ x, (x < 256)%N) (a ++ c :: b) →
  (c' < 256)%N →
  c ≠ c' →
  build_crc (a ++ c :: b) ≠ build_crc (a ++ c' :: b).
Proof.
  intros Hs Hc' Hne H.
  assert (Hs' : Forall (λ x, (x < 256)%N) (a ++ c' :: b)).
  { apply Forall_app in Hs as [Ha Hb]. apply Forall_app. split; [exact Ha|].
    inversion Hb; subst. now constructor. }
  apply build_crc_inj in H; try now apply xor_ords_latin1.
  rewrite !xor_ords_app, !xor_ords_cons in H.
  apply (f_equal (Z.lxor (xor_ords a))) in H.
  rewrite <- !Z.lxor_assoc, !Z.lxor_nilpotent, !Z.lxor_0_l in H.
  apply (f_equal (λ x, Z.lxor x (xor_ords b))) in H.
  rewrite !Z.lxor_assoc, !Z.lxor_nilpotent, !Z.lxor_0_r in H.
  unfold ord in H. apply Hne. lia.
Qed.

(** *** Every form of the [parameters] argument *)

Lemma iterate_nil (p : parameters_arg) :
  truthy p = negb (bool_decide (iterate p = [])).
Proof.
  destruct p as [|s|l]; cbn [truthy iterate]; [reflexivity| |reflexivity].
  destruct s; reflexivity.
Qed.

Lemma frame_body_header (command : str) (p : parameters_arg) :
  frame_body command p = STX :: header command (iterate p) ++ [ETX].
Proof.
  unfold frame_body, header. rewrite iterate_nil.
  destruct (bool_decide (iterate p = [])); cbn [negb chr app].
  - reflexivity.
  - rewrite <- !app_assoc. reflexivity.
Qed.

(** A framed header with two checksum digits decodes to its command and
    parameters. *)
Lemma decode_framed (command : str) (parameters : list str) (h1 h2 : N) :
  no_control command → Forall no_control parameters →
  (48 <= h1 <= 70)%N → (48 <= h2 <= 70)%N →
  decode (STX :: header command parameters ++ [ETX; h1; h2] ++ [EOT]) =
    [mkFrame command parameters []].
Proof.
  intros Hc Hp Hh1 Hh2.
  assert (Hfree : ∀ sep, is_control sep = true →
            free_of sep command ∧ Forall (free_of sep) parameters).
  { intros sep Hs. split; [now apply no_control_free|].
    eapply Forall_impl; [exact Hp|]. intros p. now apply no_control_free. }
  destruct (Hfree GS eq_refl) as [HcG HpG].
  destruct (Hfree RS eq_refl) as [HcR HpR].
  destruct (Hfree EOT eq_refl) as [HcE HpE].
  set (hd := header command parameters).
  replace (STX :: hd ++ [ETX; h1; h2] ++ [EOT])
    with ((STX :: hd ++ [ETX; h1; h2]) ++ EOT :: []).
  2:{ cbn [app]. rewrite <- !app_assoc. reflexivity. }
  rewrite decode_app, (decode_short []) by (cbn [length]; lia).
  rewrite decode_unit.
  2:{ constructor; [discriminate|]. apply free_of_app.
      - apply free_of_header; [discriminate | exact HcE | exact HpE].
      - unfold EOT. repeat constructor; try discriminate; lia. }
  2:{ cbn [length]. rewrite length_app. cbn [length]. lia. }
  cbn [app]. f_equal.
  unfold parse_unit. rewrite strip_framed by reflexivity.
  rewrite split_free
    by (apply free_of_header; [discriminate | exact HcR | exact HpR]).
  unfold hd. now rewrite split_header.
Qed.

(** The message that [send_ws_command] builds: the framed header, two
    checksum digits and EOT. *)
Lemma full_message_framed (command : str) (p : parameters_arg) :
  xor_ords (frame_body command p) <= 0xFF →
  ∃ h1 h2, (48 <= h1 <= 70)%N ∧ (48 <= h2 <= 70)%N ∧
    full_message command p =
      STX :: header command (iterate p) ++ [ETX; h1; h2] ++ [EOT].
Proof.
  intros Hx. unfold full_message. cbv zeta.
  rewrite build_crc_nibbles by exact Hx.
  pose proof (xor_ords_nonneg (frame_body command p)) as H0.
  destruct (nibbles_in_range (xor_ords (frame_body command p)))
    as [Hhi Hlo]; [lia|].
  apply hex_digit_range in Hhi, Hlo.
  rewrite frame_body_header in *.
  eexists _, _. split; [exact Hhi|]. split; [exact Hlo|].
  cbn [app chr]. rewrite <- !app_assoc. reflexivity.
Qed.

(** X4: whatever form the [parameters] argument of [send_ws_command] has
    (absent, a list, or a bare string, which Python iterates character by
    character), the message built decodes to one frame whose parameters are
    the items the iteration yields, provided they and the command hold no
    control character and the checksum has two digits. *)
Theorem decode_sent_any_parameters (command : str) (p : parameters_arg) :
  no_control command → Forall no_control (iterate p) →
  xor_ords (frame_body command p) <= 0xFF →
  decode (full_message command p) = [mkFrame command (iterate p) []].
Proof.
  intros Hc Hp Hx.
  destruct (full_message_framed command p Hx) as (h1 & h2 & Hh1 & Hh2 & ->).
  now apply decode_framed.
Qed.

(** *** Bytes and text *)

Lemma utf8_decode_ascii (bs : list N) :
  Forall (λ b, (b < 0x80)%N) bs → utf8_decode bs = Some bs.
Proof.
  induction 1 as [|b bs Hb _ IH]; [reflexivity|].
  cbn [utf8_decode]. apply N.ltb_lt in Hb. now rewrite Hb, IH.
Qed.

(** *** Unique ids *)

Lemma lit_free (sep : N) (s : string) :
  forallb (λ c, negb (c =? sep)%N) (lit s) = true → free_of sep (lit s).
Proof.
  intros H. apply Forall_forall. intros c Hc.
  rewrite forallb_forall in H. apply list_elem_of_In in Hc.
  specialize (H c Hc). apply negb_true_iff, N.eqb_neq in H. exact H.
Qed.

Lemma split_sensor_uid (family device_id : Z) :
  split 95 (binary_sensor_set_sensor_uid family device_id) =
  [lit "ave"; lit "motion"; str_of_int family; str_of_int device_id].
Proof.
  unfold binary_sensor_set_sensor_uid.
  change (lit "ave_motion_") with (lit "ave" ++ 95%N :: lit "motion" ++ [95%N]).
  change (lit "_") with [95%N].
  repeat progress (rewrite <- ?app_assoc; cbn [app]).
  rewrite split_app_sep by (apply lit_free; reflexivity).
  rewrite split_app_sep by (apply lit_free; reflexivity).
  rewrite split_app_sep by (apply str_of_int_free; reflexivity).
  rewrite split_free by (apply str_of_int_free; reflexivity).
  reflexivity.
Qed.

Lemma split_switch_uid (family device_id : Z) :
  split 95 (switch_set_sensor_uid family device_id) =
  [lit "ave"; lit "switch"; str_of_int family; str_of_int device_id].
Proof.
  unfold switch_set_sensor_uid.
  change (lit "ave_switch_") with (lit "ave" ++ 95%N :: lit "switch" ++ [95%N]).
  change (lit "_") with [95%N].
  repeat progress (rewrite <- ?app_assoc; cbn [app]).
  rewrite split_app_sep by (apply lit_free; reflexivity).
  rewrite split_app_sep by (apply lit_free; reflexivity).
  rewrite split_app_sep by (apply str_of_int_free; reflexivity).
  rewrite split_free by (apply str_of_int_free; reflexivity).
  reflexivity.
Qed.

Lemma str_of_int_inj (m n : Z) : str_of_int m = str_of_int n → m = n.
Proof.
  intros H. apply (f_equal int_of_str) in H.
  rewrite !int_of_str_of_int in H. congruence.
Qed.

(** X5: both [set_sensor_uid] functions are injective in the family and the
    device id, and no unique id of a binary sensor is the unique id of a
    switch. *)
Theorem unique_ids_tell_devices_apart (f i f' i' : Z) :
  (binary_sensor_set_sensor_uid f i = binary_sensor_set_sensor_uid f' i' →
   f = f' ∧ i = i') ∧
  (switch_set_sensor_uid f i = switch_set_sensor_uid f' i' →
   f = f' ∧ i = i') ∧
  binary_sensor_set_sensor_uid f i ≠ switch_set_sensor_uid f' i'.
Proof.
  split; [|split].
  - intros H. apply (f_equal (split 95)) in H.
    rewrite !split_sensor_uid in H. injection H as Hf Hi.
    split; now apply str_of_int_inj.
  - intros H. apply (f_equal (split 95)) in H.
    rewrite !split_switch_uid in H. injection H as Hf Hi.
    split; now apply str_of_int_inj.
  - intros H. apply (f_equal (split 95)) in H.
    rewrite split_sensor_uid, split_switch_uid in H. discriminate H.
Qed.

(** *** Adoption *)

Lemma str_eqb_refl (a : str) : str_eqb a a = true.
Proof. now apply str_eqb_eq. Qed.

Lemma bool_decide_is_Some_None {A} (o : option A) :
  o = None → bool_decide (is_Some o) = false.
Proof. intros ->. apply bool_decide_eq_false_2. intros [? [=]]. Qed.

Lemma int_str (n : Z) : int (str_of_int n) = ret n.
Proof. unfold int. now rewrite int_of_str_of_int. Qed.

Lemma adopt_entity_restores (entity : RegistryEntity)
    (family ave_device_id : Z) (cb : callback) (w : world) :
  let unique_id := ent_unique_id entity in
  ent_platform entity = lit "ave_dominaplus" →
  ent_domain entity = lit "binary_sensor" →
  ent_original_device_class entity = Some (lit "motion") →
  unique_id = binary_sensor_set_sensor_uid family ave_device_id →
  binary_sensors (server w) !! unique_id = None →
  (family = 12 → fetch_sensor_areas (settings (server w)) = true) →
  (family = 1007 → fetch_sensors (settings (server w)) = true) →
  async_add_bs_entities (server w) = Some cb →
  binary_sensor_adopt_entity entity w =
    (Ok tt,
     binary_sensor_stored unique_id
       (adopted_sensor entity family ave_device_id)
       [AddEntities cb [unique_id]] w) ∧
  MotionBinarySensor_is_on (adopted_sensor entity family ave_device_id)
    = None ∧
  bs_family (adopted_sensor entity family ave_device_id) = family ∧
  bs_ave_device_id (adopted_sensor entity family ave_device_id)
    = ave_device_id.
Proof.
  intros unique_id Hp Hd Hc Huid Hnew Hareas Hsensors Hcb.
  split.
  - pose proof (bool_decide_is_Some_None _ Hnew) as Hno.
    unfold binary_sensor_adopt_entity, adopted_sensor, call_add_entities.
    fold unique_id. rewrite Hp, Hd, Hc. cbn [opt_is]. rewrite !str_eqb_refl.
    cbn [andb negb].
    assert (Hg1 : (family =? 12) &&
                  negb (fetch_sensor_areas (settings (server w))) = false).
    { destruct (Z.eqb_spec family 12) as [E|]; [|reflexivity].
      now rewrite (Hareas E). }
    assert (Hg2 : (family =? 1007) &&
                  negb (fetch_sensors (settings (server w))) = false).
    { destruct (Z.eqb_spec family 1007) as [E|]; [|reflexivity].
      now rewrite (Hsensors E). }
    assert (Hsplit : split 95 unique_id =
              [lit "ave"; lit "motion"; str_of_int family;
               str_of_int ave_device_id]).
    { rewrite Huid. apply split_sensor_uid. }
    unfold MotionBinarySensor_set_name.
    clearbody unique_id.
    destruct (ent_has_entity_name entity), (ent_name entity),
      (ent_original_name entity);
      drive ltac:(rewrite ?Hno, ?Hsplit, ?int_str, ?Hg1, ?Hg2, ?Hcb;
                  cbn [existsb]);
      unfold binary_sensor_stored; fields;
      rewrite ?Hcb, ?app_nil_r; reflexivity.
  - unfold adopted_sensor, MotionBinarySensor_set_name,
      MotionBinarySensor_is_on.
    destruct (if ent_has_entity_name entity then ent_name entity
              else ent_original_name entity); auto.
Qed.

Lemma adopt_entity_skips (entity : RegistryEntity) (w : world) :
  binary_sensor_adoption_skips w entity →
  binary_sensor_adopt_entity entity w = (Ok tt, w).
Proof.
  unfold binary_sensor_adoption_skips. cbv zeta.
  set (unique_id := ent_unique_id entity). intros H.
  unfold binary_sensor_adopt_entity. fold unique_id.
  destruct (str_eqb (ent_platform entity) (lit "ave_dominaplus") &&
            str_eqb (ent_domain entity) (lit "binary_sensor") &&
            opt_is (ent_original_device_class entity) "motion") eqn:Hm;
    cbn [negb]; [|reflexivity].
  destruct H as [H|[H|[(id & Huid & Hoff)|(id & Huid & Hoff)]]];
    [discriminate H| | |].
  - monad. now rewrite bool_decide_eq_true_2.
  - monad. destruct (bool_decide _); [reflexivity|].
    rewrite Huid, split_sensor_uid. monad. rewrite int_str. monad.
    now rewrite Hoff.
  - monad. destruct (bool_decide _); [reflexivity|].
    rewrite Huid, split_sensor_uid. monad. rewrite int_str. monad.
    now rewrite Hoff.
Qed.

Lemma adopt_loop_skips (entities : list RegistryEntity) (w : world) :
  Forall (binary_sensor_adoption_skips w) entities →
  for_each entities binary_sensor_adopt_entity w = (Ok tt, w).
Proof.
  induction 1 as [|entity entities He _ IH]; [reflexivity|].
  cbn [for_each]. rewrite bind_eq, adopt_entity_skips by exact He. exact IH.
Qed.

(** X6: [binary_sensor.adopt_existing_sensors] restores a motion sensor of
    the registry that the table does not hold: when the entity's unique id
    is the one of an enabled family and a device id, and every other entity
    of the registry is passed over, the call returns with the sensor stored
    under that unique id and announced once through the creation callback;
    the sensor has that family and device id, the name of the registry, and
    no state ([is_on] is [None]) until the hub reports one. *)
Theorem adoption_restores_sensor (before after : list RegistryEntity)
    (entity : RegistryEntity) (family ave_device_id : Z) (cb : callback)
    (w : world) :
  let unique_id := ent_unique_id entity in
  let sensor := adopted_sensor entity family ave_device_id in
  let w' := binary_sensor_stored unique_id sensor
              [AddEntities cb [unique_id]] w in
  ent_platform entity = lit "ave_dominaplus" →
  ent_domain entity = lit "binary_sensor" →
  ent_original_device_class entity = Some (lit "motion") →
  unique_id = binary_sensor_set_sensor_uid family ave_device_id →
  binary_sensors (server w) !! unique_id = None →
  (family = 12 → fetch_sensor_areas (settings (server w)) = true) →
  (family = 1007 → fetch_sensors (settings (server w)) = true) →
  async_add_bs_entities (server w) = Some cb →
  Forall (binary_sensor_adoption_skips w) before →
  Forall (binary_sensor_adoption_skips w') after →
  binary_sensor_adopt_existing_sensors (Some (before ++ entity :: after)) w =
    (Ok tt, w') ∧
  MotionBinarySensor_is_on sensor = None ∧
  bs_family sensor = family ∧
  bs_ave_device_id sensor = ave_device_id.
Proof.
  intros unique_id sensor w' Hp Hd Hc Huid Hnew Hareas Hsensors Hcb Hb Ha.
  destruct (adopt_entity_restores entity family ave_device_id cb w
              Hp Hd Hc Huid Hnew Hareas Hsensors Hcb) as (Hrun & Hrest).
  split; [|exact Hrest].
  unfold binary_sensor_adopt_existing_sensors, try_except.
  rewrite for_each_app, bind_eq, adopt_loop_skips by exact Hb.
  cbn [for_each]. rewrite bind_eq, Hrun.
  fold unique_id sensor w'. now rewrite adopt_loop_skips by exact Ha.
Qed.

(** X7: [binary_sensor.adopt_existing_sensors] changes nothing and does not
    fail when every entity of the registry is passed over: not a motion
    binary sensor of this integration, already in the table, or of family 12
    or 1007 with that family switched off. *)
Theorem adoption_passes_over (entities : list RegistryEntity) (w : world) :
  Forall (binary_sensor_adoption_skips w) entities →
  binary_sensor_adopt_existing_sensors (Some entities) w = (Ok tt, w).
Proof.
  intros H. unfold binary_sensor_adopt_existing_sensors, try_except.
  now rewrite adopt_loop_skips.
Qed.

(** The fields of a unique id are read without any effect. *)
Lemma uid_fields_pure (unique_id : str) (w : world) :
  snd ((do f <- index (split 95 unique_id) 2;
        do family <- int f;
        do i <- index (split 95 unique_id) 3;
        do ave_device_id <- int i;
        ret (family, ave_device_id)) w) = w.
Proof.
  unfold index, int, bind, ret, raise.
  destruct (split 95 unique_id !! 2%nat) as [f|]; [|reflexivity].
  destruct (int_of_str f); [|reflexivity].
  destruct (split 95 unique_id !! 3%nat) as [i|]; [|reflexivity].
  destruct (int_of_str i); reflexivity.
Qed.

Lemma switch_adopt_entity_raises (entity : RegistryEntity) (w : world) :
  switch_adopt_entity entity w = (switch_adoptable w entity, w).
Proof.
  unfold switch_adopt_entity, switch_adoptable.
  destruct (str_eqb (ent_platform entity) (lit "ave_dominaplus") &&
            str_eqb (ent_domain entity) (lit "switch"));
    cbn [negb andb]; [|reflexivity].
  destruct (bool_decide _); cbn [negb]; [reflexivity|].
  pose proof (uid_fields_pure (ent_unique_id entity) w) as Hw.
  destruct ((do f <- index (split 95 (ent_unique_id entity)) 2;
             do family <- int f;
             do i <- index (split 95 (ent_unique_id entity)) 3;
             do ave_device_id <- int i;
             ret (family, ave_device_id)) w) as [[[family id]|e] w'];
    cbn [snd] in Hw; subst w'; reflexivity.
Qed.

Lemma switch_adopt_loop_raises (entities : list RegistryEntity) (w : world) :
  switch_adopt_loop entities w = (existsb (switch_adoptable w) entities, w).
Proof.
  induction entities as [|entity entities IH]; [reflexivity|].
  cbn [switch_adopt_loop existsb]. rewrite switch_adopt_entity_raises.
  destruct (switch_adoptable w entity); [reflexivity | exact IH].
Qed.

(** X8: [switch.adopt_existing_sensors] never adopts a switch: it builds
    [LightSwitch] without a [webserver], whose [__init__] reads
    [self._webserver.hass]. The call returns with the tables as they were,
    and logs one error as soon as the registry holds a switch of this
    integration that the table does not hold. *)
Theorem switch_adoption_adopts_nothing (entities : list RegistryEntity)
    (w : world) :
  switch_adopt_existing_sensors (Some entities) w =
    (Ok tt,
     if existsb (switch_adoptable w) entities
     then logged ERROR "Error adopting existing sensors: %s" w
     else w).
Proof.
  unfold switch_adopt_existing_sensors.
  rewrite switch_adopt_loop_raises.
  destruct (existsb _ _); reflexivity.
Qed.

(** *** What a dispatch may change *)

Lemma same_sensor_refl d : same_sensor d d.
Proof. repeat split. Qed.

Lemma same_switch_refl d : same_switch d d.
Proof. repeat split. Qed.

Lemma same_sensor_trans d1 d2 d3 :
  same_sensor d1 d2 → same_sensor d2 d3 → same_sensor d1 d3.
Proof. unfold same_sensor. intros (?&?&?) (?&?&?). repeat split; congruence. Qed.

Lemma same_switch_trans d1 d2 d3 :
  same_switch d1 d2 → same_switch d2 d3 → same_switch d1 d3.
Proof. unfold same_switch. intros (?&?&?) (?&?&?). repeat split; congruence. Qed.

Lemma fresh_sensor_same st k d d' :
  fresh_sensor st k d → same_sensor d d' → fresh_sensor st k d'.
Proof.
  unfold fresh_sensor, same_sensor. intros (?&?&?) (?&E2&E3).
  rewrite E2, E3. repeat split; congruence.
Qed.

Lemma fresh_switch_same st k d d' :
  fresh_switch st k d → same_switch d d' → fresh_switch st k d'.
Proof.
  unfold fresh_switch, same_switch. intros (?&?&?&?) (?&E2&E3).
  rewrite E2, E3. repeat split; congruence.
Qed.

Lemma grows_refl w : grows w w.
Proof.
  constructor; try reflexivity.
  - exists []. split; [now rewrite app_nil_r | constructor].
  - intros k. destruct (binary_sensors (server w) !! k);
      [apply same_sensor_refl | exact I].
  - intros k. destruct (switches (server w) !! k);
      [apply same_switch_refl | exact I].
Qed.

Lemma grows_trans w1 w2 w3 : grows w1 w2 → grows w2 w3 → grows w1 w3.
Proof.
  intros [S1 H1 L1 C1 (e1 & T1 & Q1) B1 W1 BO1 WO1]
         [S2 H2 L2 C2 (e2 & T2 & Q2) B2 W2 BO2 WO2].
  rewrite S1 in *.
  constructor; try congruence.
  - exists (e1 ++ e2). split; [rewrite T2, T1, <- app_assoc; reflexivity|].
    intros Hoff. apply Forall_app. split; [apply Q1 | apply Q2]; exact Hoff.
  - intros k. specialize (B1 k). specialize (B2 k).
    destruct (binary_sensors (server w1) !! k) as [d1|],
             (binary_sensors (server w2) !! k) as [d2|],
             (binary_sensors (server w3) !! k) as [d3|];
      try tauto; eauto using same_sensor_trans, fresh_sensor_same.
  - intros k. specialize (W1 k). specialize (W2 k).
    destruct (switches (server w1) !! k) as [d1|],
             (switches (server w2) !! k) as [d2|],
             (switches (server w3) !! k) as [d3|];
      try tauto; eauto using same_switch_trans, fresh_switch_same.
  - intros Ha Hs. rewrite BO2, BO1; auto.
  - intros Hl. rewrite WO2, WO1; auto.
Qed.

Lemma undisturbed_refl w : undisturbed w w.
Proof. split; [apply grows_refl | repeat split]. Qed.

Lemma undisturbed_trans w1 w2 w3 :
  undisturbed w1 w2 → undisturbed w2 w3 → undisturbed w1 w3.
Proof.
  intros [G1 (?&?&?&?)] [G2 (?&?&?&?)].
  split; [eapply grows_trans; eassumption | repeat split; congruence].
Qed.

Lemma calm_if_at P {A} (m : M A) w :
  calm_if P m → P (settings (server w)) → undisturbed w (snd (m w)).
Proof. intros H. apply H. Qed.

Lemma calm_if_weaken (P Q : AveWebServerSettings → Prop) {A} (m : M A) :
  (∀ st, Q st → P st) → calm_if P m → calm_if Q m.
Proof. intros HPQ H w HQ. apply H, HPQ, HQ. Qed.

Lemma calm_if_ret P {A} (a : A) : calm_if P (ret a).
Proof. intros w _. apply undisturbed_refl. Qed.

Lemma calm_if_raise P {A} e : calm_if P (@raise A e).
Proof. intros w _. apply undisturbed_refl. Qed.

Lemma calm_if_bind P {A B} (m : M A) (k : A → M B) :
  calm_if P m → (∀ a, calm_if P (k a)) → calm_if P (bind m k).
Proof.
  intros Hm Hk w HP. rewrite bind_eq. specialize (Hm w HP).
  destruct (m w) as [[a|e] w1]; cbn [snd] in *; [|exact Hm].
  eapply undisturbed_trans; [exact Hm|]. apply Hk.
  destruct Hm as [G _]. now rewrite (grows_settings _ _ G).
Qed.

Lemma undisturbed_emit evs w :
  (all_off (settings (server w)) →
   Forall (λ e, is_notification e = false) evs) →
  undisturbed w (mkWorld (server w) (clock w) (trace w ++ evs)).
Proof.
  intros Hq. split; [|repeat split].
  constructor; cbn [server clock trace]; try reflexivity.
  - exists evs. split; [reflexivity | exact Hq].
  - intros k. destruct (binary_sensors (server w) !! k);
      [apply same_sensor_refl | exact I].
  - intros k. destruct (switches (server w) !! k);
      [apply same_switch_refl | exact I].
Qed.

Lemma calm_if_emit_quiet P evs :
  Forall (λ e, is_notification e = false) evs → calm_if P (emit evs).
Proof. intros Hq w _. apply undisturbed_emit. intros _. exact Hq. Qed.

Lemma calm_if_emit_on (P : AveWebServerSettings → Prop) evs :
  (∀ st, P st → ¬ all_off st) → calm_if P (emit evs).
Proof. intros Hon w HP. apply undisturbed_emit. intros Hoff. now apply Hon in HP. Qed.

Lemma calm_if_log P l fmt : calm_if P (log l fmt).
Proof. apply calm_if_emit_quiet. repeat constructor. Qed.

Lemma calm_if_get_server P : calm_if P get_server.
Proof. intros w _. apply undisturbed_refl. Qed.

Lemma calm_if_utcnow P : calm_if P utcnow.
Proof. intros w _. apply undisturbed_refl. Qed.

Lemma calm_if_index P {A} (l : list A) i : calm_if P (index l i).
Proof. unfold index. destruct (l !! i); [apply calm_if_ret | apply calm_if_raise]. Qed.

Lemma calm_if_int P s : calm_if P (int s).
Proof. unfold int. destruct (int_of_str s); [apply calm_if_ret | apply calm_if_raise]. Qed.

Lemma calm_if_item_is P l i s : calm_if P (item_is l i s).
Proof.
  unfold item_is. apply calm_if_bind; [apply calm_if_index|].
  intros x. apply calm_if_ret.
Qed.

Lemma calm_if_and P a b : calm_if P a → calm_if P b → calm_if P (and_ a b).
Proof.
  intros Ha Hb. unfold and_. apply calm_if_bind; [exact Ha|].
  intros [|]; [exact Hb | apply calm_if_ret].
Qed.

Lemma calm_if_or P a b : calm_if P a → calm_if P b → calm_if P (or_ a b).
Proof.
  intros Ha Hb. unfold or_. apply calm_if_bind; [exact Ha|].
  intros [|]; [apply calm_if_ret | exact Hb].
Qed.

Lemma calm_if_if P {A} c (t e : M A) :
  calm_if P c → calm_if P t → calm_if P e → calm_if P (if_ c t e).
Proof.
  intros Hc Ht He. unfold if_. apply calm_if_bind; [exact Hc|].
  intros [|]; assumption.
Qed.

Lemma calm_if_for_each P {A} (l : list A) body :
  (∀ x, calm_if P (body x)) → calm_if P (for_each l body).
Proof.
  intros Hb. induction l as [|x l IH]; cbn [for_each]; [apply calm_if_ret|].
  apply calm_if_bind; [apply Hb | intros _; exact IH].
Qed.

Lemma calm_if_try_except P {A} (m : M A) handler :
  calm_if P m → (∀ e, calm_if P (handler e)) → calm_if P (try_except m handler).
Proof.
  intros Hm Hh w HP. unfold try_except. specialize (Hm w HP).
  destruct (m w) as [[a|e] w1]; cbn [snd] in *; [exact Hm|].
  eapply undisturbed_trans; [exact Hm|]. apply Hh.
  destruct Hm as [G _]. now rewrite (grows_settings _ _ G).
Qed.

Lemma calm_if_send P command parameters :
  calm_if P (send_ws_command command parameters).
Proof.
  unfold send_ws_command. apply calm_if_bind; [apply calm_if_get_server|].
  intros s. destruct (socket_usable (ws_conn s));
    [apply calm_if_emit_quiet; repeat constructor | apply calm_if_log].
Qed.

Lemma calm_if_call_add_entities (P : AveWebServerSettings → Prop) slot uids :
  (∀ st, P st → ¬ all_off st) → calm_if P (call_add_entities slot uids).
Proof.
  intros Hon. destruct slot; [now apply calm_if_emit_on | apply calm_if_raise].
Qed.

(** Replacing a sensor by one of the same identity, or adding one that
    passed the gate. *)
Lemma undisturbed_sensor_stored uid d evs w :
  fetch_sensor_areas (settings (server w)) = true ∨
  fetch_sensors (settings (server w)) = true →
  match binary_sensors (server w) !! uid with
  | Some d0 => same_sensor d0 d
  | None => fresh_sensor (settings (server w)) uid d
  end →
  undisturbed w (binary_sensor_stored uid d evs w).
Proof.
  intros Hon Hd. split; [|repeat split].
  constructor; unfold binary_sensor_stored; fields; try reflexivity.
  - exists evs. split; [reflexivity|]. intros (_ & Ha & Hs).
    destruct Hon; congruence.
  - intros k. destruct (decide (k = uid)) as [->|Hk].
    + rewrite lookup_insert_eq.
      destruct (binary_sensors (server w) !! uid); exact Hd.
    + rewrite lookup_insert_ne by congruence.
      destruct (binary_sensors (server w) !! k);
        [apply same_sensor_refl | exact I].
  - intros k. destruct (switches (server w) !! k);
      [apply same_switch_refl | exact I].
  - intros Ha Hs. destruct Hon; congruence.
Qed.

Lemma undisturbed_switch_stored uid d evs w :
  fetch_lights (settings (server w)) = true →
  match switches (server w) !! uid with
  | Some d0 => same_switch d0 d
  | None => fresh_switch (settings (server w)) uid d
  end →
  undisturbed w (switch_stored uid d evs w).
Proof.
  intros Hon Hd. split; [|repeat split].
  constructor; unfold switch_stored; fields; try reflexivity.
  - exists evs. split; [reflexivity|]. intros (Hl & _). congruence.
  - intros k. destruct (binary_sensors (server w) !! k);
      [apply same_sensor_refl | exact I].
  - intros k. destruct (decide (k = uid)) as [->|Hk].
    + rewrite lookup_insert_eq.
      destruct (switches (server w) !! uid); exact Hd.
    + rewrite lookup_insert_ne by congruence.
      destruct (switches (server w) !! k);
        [apply same_switch_refl | exact I].
  - intros Hl. congruence.
Qed.

Lemma calm_if_on_binary_sensor (P : AveWebServerSettings → Prop) uid method :
  (∀ st, P st → fetch_sensor_areas st = true ∨ fetch_sensors st = true) →
  (∀ d, same_sensor d (fst (method d))) →
  calm_if P (on_binary_sensor uid method).
Proof.
  intros Hon Hsame w HP. unfold on_binary_sensor. rewrite bind_eq.
  change (get_server w) with (Ok (server w), w). cbv beta iota.
  destruct (binary_sensors (server w) !! uid) as [d|] eqn:Hd;
    [|apply undisturbed_refl].
  specialize (Hsame d). destruct (method d) as [d' evs]. cbn [fst] in Hsame.
  change (undisturbed w (binary_sensor_stored uid d' evs w)).
  apply undisturbed_sensor_stored; [now apply Hon|]. now rewrite Hd.
Qed.

Lemma calm_if_on_switch (P : AveWebServerSettings → Prop) uid method :
  (∀ st, P st → fetch_lights st = true) →
  (∀ d, same_switch d (fst (method d))) →
  calm_if P (on_switch uid method).
Proof.
  intros Hon Hsame w HP. unfold on_switch. rewrite bind_eq.
  change (get_server w) with (Ok (server w), w). cbv beta iota.
  destruct (switches (server w) !! uid) as [d|] eqn:Hd;
    [|apply undisturbed_refl].
  specialize (Hsame d). destruct (method d) as [d' evs]. cbn [fst] in Hsame.
  change (undisturbed w (switch_stored uid d' evs w)).
  apply undisturbed_switch_stored; [now apply Hon|]. now rewrite Hd.
Qed.

Lemma same_sensor_update_state now v d :
  same_sensor d (fst (MotionBinarySensor_update_state now v d)).
Proof. destruct v; repeat split. Qed.

Lemma same_sensor_set_name name d :
  same_sensor d (fst (MotionBinarySensor_set_name name d)).
Proof. destruct name; repeat split. Qed.

Lemma same_sensor_set_ave_name name d :
  same_sensor d (fst (MotionBinarySensor_set_ave_name name d)).
Proof. destruct name; repeat split. Qed.

Lemma same_switch_update_state v d :
  same_switch d (fst (LightSwitch_update_state v d)).
Proof. destruct v as [n|]; cbn; try destruct (n <? 0); repeat split. Qed.

Lemma same_switch_set_name name d :
  same_switch d (fst (LightSwitch_set_name name d)).
Proof. destruct name; repeat split. Qed.

Lemma same_switch_set_ave_name name d :
  same_switch d (fst (LightSwitch_set_ave_name name d)).
Proof. destruct name; repeat split. Qed.

Lemma enabled_some_flag st family :
  binary_sensor_enabled st family = true →
  fetch_sensor_areas st = true ∨ fetch_sensors st = true.
Proof.
  unfold binary_sensor_enabled.
  destruct (family =? 12), (family =? 1007), (fetch_sensor_areas st),
    (fetch_sensors st); cbn; intros [=]; auto.
Qed.

Ltac calm_step :=
  first
    [ apply calm_if_ret | apply calm_if_raise | apply calm_if_log
    | apply calm_if_get_server | apply calm_if_utcnow | apply calm_if_index
    | apply calm_if_int | apply calm_if_item_is | apply calm_if_send
    | apply calm_if_and | apply calm_if_or | apply calm_if_if
    | apply calm_if_for_each
    | apply calm_if_on_switch;
        [intros ? ?; assumption | intros ?;
          first [apply same_switch_update_state | apply same_switch_set_name
                | apply same_switch_set_ave_name]]
    | apply calm_if_on_binary_sensor;
        [intros ? ?; eapply enabled_some_flag; eassumption
        | intros ?;
          first [apply same_sensor_update_state | apply same_sensor_set_name
                | apply same_sensor_set_ave_name]]
    | apply calm_if_bind
    | match goal with
      | |- calm_if _ (if ?b then _ else _) => destruct b
      | |- calm_if _ (match ?o with _ => _ end) => destruct o
      | |- ∀ _, _ => intro
      end ].

Lemma update_switch_calm P family id status name :
  calm_if P (switch_update_switch family id status name).
Proof.
  intros w _.
  destruct (family =? 1) eqn:Hf.
  - apply Z.eqb_eq in Hf. subst family.
    destruct (fetch_lights (settings (server w))) eqn:Hl.
    + destruct (switches (server w) !! switch_set_sensor_uid 1 id)
        as [d|] eqn:Hin.
      * unfold switch_update_switch.
        rewrite bind_eq. change (get_server w) with (Ok (server w), w).
        cbv beta iota zeta.
        rewrite (bool_decide_eq_true_2 _ (mk_is_Some _ _ Hin)), Hl.
        apply (calm_if_at (λ st, fetch_lights st = true)); [|exact Hl].
        repeat calm_step.
      * rewrite (update_switch_new w id status name Hl Hin). cbn [snd].
        apply undisturbed_switch_stored; [exact Hl|]. rewrite Hin.
        repeat split. exact Hl.
    + unfold switch_update_switch. drive ltac:(rewrite ?Hl).
      apply undisturbed_refl.
  - unfold switch_update_switch. drive ltac:(rewrite ?Hf).
    apply undisturbed_emit. intros _. repeat constructor.
Qed.

(** A sensor of family 1007 that is not in the table yet. *)
Lemma update_binary_sensor_new_1007 (w : world) (id status : Z)
    (name : option str) :
  let unique_id := binary_sensor_set_sensor_uid 1007 id in
  fetch_sensors (settings (server w)) = true →
  binary_sensors (server w) !! unique_id = None →
  ∃ o d evs,
    binary_sensor_update_binary_sensor 1007 id status name w =
      (o, binary_sensor_stored unique_id d evs w) ∧
    bs_unique_id d = unique_id ∧ bs_family d = 1007 ∧ bs_ave_device_id d = id.
Proof.
  intros unique_id Hon Hin.
  unfold binary_sensor_update_binary_sensor, call_add_entities.
  fold unique_id. clearbody unique_id.
  change (1007 =? 12) with false. change (1007 =? 1007) with true.
  assert (Hno : bool_decide (is_Some (binary_sensors (server w) !! unique_id))
                = false).
  { apply bool_decide_eq_false_2. rewrite Hin. intros [? [=]]. }
  unfold MotionBinarySensor_set_name.
  destruct (binary_sensor_check_name_changed (hass (server w)) unique_id) eqn:Hc,
    (async_add_bs_entities (server w)) eqn:Hslot;
    drive ltac:(rewrite ?Hon, ?Hno, ?Hc, ?Hslot; cbn [existsb]);
    unfold binary_sensor_stored; fields;
    rewrite ?Hslot, <- ?app_assoc; do 3 eexists; (split; [reflexivity|]);
    repeat split.
Qed.

Lemma update_binary_sensor_calm P family id status name :
  calm_if P (binary_sensor_update_binary_sensor family id status name).
Proof.
  intros w _.
  destruct (binary_sensor_enabled (settings (server w)) family) eqn:Hen.
  - destruct (binary_sensors (server w)
                !! binary_sensor_set_sensor_uid family id) as [d|] eqn:Hin.
    + unfold binary_sensor_update_binary_sensor.
      rewrite bind_eq. change (get_server w) with (Ok (server w), w).
      cbv beta iota zeta.
      rewrite (bool_decide_eq_true_2 _ (mk_is_Some _ _ Hin)).
      apply (calm_if_at (λ st, binary_sensor_enabled st family = true));
        [|exact Hen].
      repeat calm_step.
    + pose proof (enabled_some_flag _ _ Hen) as Hsome.
      unfold binary_sensor_enabled in Hen.
      destruct (family =? 12) eqn:H12.
      * apply Z.eqb_eq in H12. subst family. cbn [andb orb] in Hen.
        destruct (fetch_sensor_areas (settings (server w))) eqn:Ha;
          [|discriminate Hen].
        rewrite (update_binary_sensor_new w id status name Ha Hin).
        destruct (names_new_sensor _ _ name); cbn [snd].
        { apply undisturbed_emit. intros _. repeat constructor. }
        apply undisturbed_sensor_stored; [now left|]. rewrite Hin.
        unfold new_sensor, fresh_sensor, binary_sensor_enabled.
        cbn. rewrite Ha. repeat split.
      * cbn [andb orb] in Hen. destruct (family =? 1007) eqn:H1007;
          [|discriminate Hen].
        apply Z.eqb_eq in H1007. subst family. cbn [andb] in Hen.
        destruct (update_binary_sensor_new_1007 w id status name Hen Hin)
          as (o & d & evs & -> & Hu & Hf & Hi).
        cbn [snd]. apply undisturbed_sensor_stored; [now right|].
        rewrite Hin. unfold fresh_sensor, binary_sensor_enabled.
        rewrite Hf, Hi, Hen. repeat split. exact Hu.
  - unfold binary_sensor_enabled in Hen.
    unfold binary_sensor_update_binary_sensor.
    destruct (family =? 12), (family =? 1007),
      (fetch_sensor_areas (settings (server w))) eqn:Ha,
      (fetch_sensors (settings (server w))) eqn:Hs;
      try discriminate Hen;
      drive ltac:(rewrite ?Ha, ?Hs);
      first [apply undisturbed_refl
            | apply undisturbed_emit; intros _; repeat constructor].
Qed.

Lemma call_updater_calm P slot family id status name :
  calm_if P (call_updater slot family id status name).
Proof.
  destruct slot as [[]|]; cbn [call_updater];
    [apply update_binary_sensor_calm | apply update_switch_calm
    | apply calm_if_raise].
Qed.

Lemma self_update_binary_sensor_calm P family id status name :
  calm_if P (self_update_binary_sensor family id status name).
Proof.
  apply calm_if_bind; [apply calm_if_get_server|].
  intros s. apply call_updater_calm.
Qed.

Lemma self_update_switch_calm P family id status name :
  calm_if P (self_update_switch family id status name).
Proof.
  apply calm_if_bind; [apply calm_if_get_server|].
  intros s. apply call_updater_calm.
Qed.

Ltac calm_dispatch :=
  repeat first
    [ apply self_update_binary_sensor_calm | apply self_update_switch_calm
    | calm_step ].

Lemma manage_upd_calm P parameters records :
  calm_if P (manage_upd parameters records).
Proof. unfold manage_upd. calm_dispatch. Qed.

Lemma manage_gsf_calm P parameters records :
  calm_if P (manage_gsf parameters records).
Proof. unfold manage_gsf. calm_dispatch. Qed.

Lemma manage_ldi_calm P parameters records :
  calm_if P (manage_ldi parameters records).
Proof. unfold manage_ldi. calm_dispatch. Qed.

Lemma manage_commands_calm P command parameters records :
  calm_if P (manage_commands command parameters records).
Proof.
  unfold manage_commands.
  repeat first
    [ apply manage_upd_calm | apply manage_gsf_calm | apply manage_ldi_calm
    | calm_step ].
Qed.

Lemma on_message_calm P message : calm_if P (on_message message).
Proof.
  unfold on_message. apply calm_if_try_except; [|intros e; apply calm_if_log].
  apply calm_if_bind.
  - destruct message as [data|s];
      [destruct (utf8_decode (map Byte.to_N data))|];
      first [apply calm_if_ret | apply calm_if_raise].
  - intros s. apply calm_if_for_each. intros msg.
    destruct (length msg <? 3)%nat;
      [apply calm_if_ret | apply manage_commands_calm].
Qed.

Lemma on_message_undisturbed message w :
  undisturbed w (snd (on_message message w)).
Proof. now apply (on_message_calm (λ _, True)). Qed.

(** *** What the connection loop may change *)

Lemma tables_kept_grows w w' : tables_kept w w' → grows w w'.
Proof.
  intros (Hs & Hh & Hl & Hc & Hb & Hw & evs & Ht & Hq).
  constructor; try assumption.
  - exists evs. split; [exact Ht | intros _; exact Hq].
  - intros k. rewrite Hb. destruct (binary_sensors (server w) !! k);
      [apply same_sensor_refl | exact I].
  - intros k. rewrite Hw. destruct (switches (server w) !! k);
      [apply same_switch_refl | exact I].
  - intros _ _. exact Hb.
  - intros _. exact Hw.
Qed.

Ltac kept :=
  unfold tables_kept; fields; repeat (split; [reflexivity|]);
  first [ exists []; split; [now rewrite app_nil_r | constructor]
        | eexists; split; [rewrite <- ?app_assoc; reflexivity|];
          repeat constructor ].

Lemma log_kept l fmt w : tables_kept w (run_ (log l fmt) w).
Proof. monad. kept. Qed.

Lemma on_loop_exception_kept w : tables_kept w (run_ on_loop_exception w).
Proof. unfold on_loop_exception. monad. unfold set_connected. kept. Qed.

Lemma disconnect_kept w : tables_kept w (run_ disconnect w).
Proof.
  unfold disconnect. monad. unfold set_closed. fields.
  destruct (ws_conn (server w)); monad; unfold set_connected, set_ws_conn;
    kept.
Qed.

Lemma socket_closes_kept w : tables_kept w (run_ socket_closes w).
Proof.
  unfold socket_closes. monad.
  destruct (ws_conn (server w)); monad; unfold set_ws_conn; kept.
Qed.

Lemma authenticate_ok_kept w : tables_kept w (run_ authenticate_ok w).
Proof.
  unfold authenticate_ok. monad. unfold set_connected, set_ws_conn. kept.
Qed.

Lemma send_kept command parameters w :
  tables_kept w (run_ (send_ws_command command parameters) w).
Proof.
  unfold send_ws_command. monad.
  destruct (socket_usable (ws_conn (server w))); monad; kept.
Qed.

Lemma tables_kept_trans w1 w2 w3 :
  tables_kept w1 w2 → tables_kept w2 w3 → tables_kept w1 w3.
Proof.
  intros (?&?&?&?&?&?&e1&T1&Q1) (?&?&?&?&?&?&e2&T2&Q2).
  repeat (split; [congruence|]).
  exists (e1 ++ e2). split; [rewrite T2, T1, <- app_assoc; reflexivity|].
  now apply Forall_app.
Qed.

Lemma tables_kept_refl w : tables_kept w w.
Proof. kept. Qed.

(** Sequencing computations that keep the tables. *)
Lemma bind_kept {A B} (m : M A) (k : A → M B) w :
  tables_kept w (run_ m w) →
  (∀ a w1, tables_kept w1 (run_ (k a) w1)) →
  tables_kept w (run_ (bind m k) w).
Proof.
  unfold run_. intros Hm Hk. rewrite bind_eq.
  destruct (m w) as [[a|e] w1]; cbn [snd] in *; [|exact Hm].
  eapply tables_kept_trans; [exact Hm | apply Hk].
Qed.

Lemma on_connect_actions_kept w : tables_kept w (run_ on_connect_actions w).
Proof.
  unfold on_connect_actions. apply bind_kept; [apply tables_kept_refl|].
  intros s w1. destruct (negb (socket_usable (ws_conn s)));
    [apply tables_kept_refl|].
  repeat first
    [ apply send_kept | apply tables_kept_refl
    | apply bind_kept; [|intros ? ?]
    | match goal with
      | |- tables_kept _ (run_ (if ?b then _ else _) _) => destruct b
      end ].
Qed.

Lemma retry_grows w : grows w (snd (retry w)).
Proof.
  unfold retry. destruct (closed (server w)); cbn [snd];
    apply tables_kept_grows, log_kept.
Qed.

Lemma enter_receive_grows w : grows w (snd (enter_receive w)).
Proof.
  unfold enter_receive.
  assert (H : tables_kept w
    (run_ (do s <- get_server;
           if started s then on_connect_actions else ret tt) w)).
  { apply bind_kept; [apply tables_kept_refl|]. intros s w1.
    destruct (started s);
      [apply on_connect_actions_kept | apply tables_kept_refl]. }
  unfold run_ in H at 1.
  destruct ((do s <- get_server;
             if started s then on_connect_actions else ret tt) w)
    as [[a|e] w1]; cbn [snd] in *.
  - now apply tables_kept_grows.
  - eapply grows_trans; [apply tables_kept_grows, H|].
    eapply grows_trans; [apply tables_kept_grows, on_loop_exception_kept|].
    apply retry_grows.
Qed.

Lemma loop_head_grows w : grows w (snd (loop_head w)).
Proof.
  unfold loop_head. destruct (closed (server w));
    [apply tables_kept_grows, log_kept|].
  destruct (needs_connect (server w));
    [apply tables_kept_grows, log_kept | apply enter_receive_grows].
Qed.

Lemma step_grows p e w : grows w (snd (step p e w)).
Proof.
  destruct p, e as [| |[data| |]| | |]; cbn [step snd];
    try apply grows_refl.
  - eapply grows_trans; [|apply loop_head_grows].
    apply tables_kept_grows.
    apply bind_kept.
    { unfold authenticate_fails.
      apply bind_kept; [apply log_kept | intros ? ?; apply tables_kept_refl]. }
    intros ? ?. apply bind_kept; [apply log_kept|].
    intros ? ?. unfold run_. monad. kept.
  - eapply grows_trans; [|apply enter_receive_grows].
    apply tables_kept_grows, authenticate_ok_kept.
  - apply tables_kept_grows, disconnect_kept.
  - apply on_message_undisturbed.
  - eapply grows_trans; [|apply loop_head_grows].
    apply tables_kept_grows. apply bind_kept; [apply log_kept|].
    intros ? ?. apply socket_closes_kept.
  - eapply grows_trans; [|apply loop_head_grows].
    apply tables_kept_grows, socket_closes_kept.
  - eapply grows_trans; [|apply retry_grows].
    apply tables_kept_grows, on_loop_exception_kept.
  - eapply grows_trans; [|apply loop_head_grows].
    apply tables_kept_grows, disconnect_kept.
Qed.

Lemma run_grows events st : grows (snd st) (snd (run events st)).
Proof.
  revert st. induction events as [|e events IH]; intros st; cbn [run fold_left];
    [apply grows_refl|].
  eapply grows_trans; [apply step_grows|]. apply IH.
Qed.


Lemma grows_keyed w w' : grows w w' → keyed w → keyed w'.
Proof.
  intros G [Kb Kw]. split; intros k d' Hk.
  - pose proof (grows_sensors _ _ G k) as H. rewrite Hk in H.
    destruct (binary_sensors (server w) !! k) as [d|] eqn:Hd.
    + destruct H as (-> & _). now apply Kb.
    + now destruct H as (_ & _ & ->).
  - pose proof (grows_switches _ _ G k) as H. rewrite Hk in H.
    destruct (switches (server w) !! k) as [d|] eqn:Hd.
    + destruct H as (-> & _). now apply Kw.
    + now destruct H as (_ & _ & _ & ->).
Qed.

(** X9: an inbound message, whatever its content, returns and changes
    nothing but the device tables and the trace: settings, registry, socket,
    connection flags, the four slots and the clock are as before, and the
    trace is extended. The connection loop, whatever the network does,
    leaves settings, registry, slots and clock as they were. *)
Theorem inbound_message_touches_tables_only (message : message)
    (events : list net_event) (p : pc) (w : world) :
  (let w' := snd (on_message message w) in
   fst (on_message message w) = Ok tt ∧
   settings (server w') = settings (server w) ∧
   hass (server w') = hass (server w) ∧
   ws_conn (server w') = ws_conn (server w) ∧
   _connected (server w') = _connected (server w) ∧
   started (server w') = started (server w) ∧
   closed (server w') = closed (server w) ∧
   update_binary_sensor (server w') = update_binary_sensor (server w) ∧
   update_switch (server w') = update_switch (server w) ∧
   async_add_bs_entities (server w') = async_add_bs_entities (server w) ∧
   async_add_sw_entities (server w') = async_add_sw_entities (server w) ∧
   clock w' = clock w ∧
   ∃ evs, trace w' = trace w ++ evs) ∧
  (let w' := snd (run events (p, w)) in
   settings (server w') = settings (server w) ∧
   hass (server w') = hass (server w) ∧
   update_binary_sensor (server w') = update_binary_sensor (server w) ∧
   update_switch (server w') = update_switch (server w) ∧
   async_add_bs_entities (server w') = async_add_bs_entities (server w) ∧
   async_add_sw_entities (server w') = async_add_sw_entities (server w) ∧
   clock w' = clock w ∧
   ∃ evs, trace w' = trace w ++ evs).
Proof.
  split; cbv zeta.
  - destruct (on_message_undisturbed message w)
      as [[Hs Hh Hl Hc (evs & Ht & _) _ _ _ _] (L1 & L2 & L3 & L4)].
    injection Hl as S1 S2 S3 S4.
    pose proof (on_message_returns message w) as (w1 & E).
    rewrite E in *. cbn [fst snd] in *.
    repeat (split; [congruence|]). now exists evs.
  - destruct (run_grows events (p, w))
      as [Hs Hh Hl Hc (evs & Ht & _) _ _ _ _].
    cbn [snd] in *. injection Hl as S1 S2 S3 S4.
    repeat (split; [congruence|]). now exists evs.
Qed.

(** X10: no run of the connection loop, whatever the network does and
    whatever the hub sends, removes a device from a table or changes the
    unique id, the family or the device id of an entry. *)
Theorem devices_never_dropped (events : list net_event) (p : pc) (w : world) :
  let w' := snd (run events (p, w)) in
  (∀ k d, binary_sensors (server w) !! k = Some d →
     ∃ d', binary_sensors (server w') !! k = Some d' ∧
           bs_unique_id d' = bs_unique_id d ∧ bs_family d' = bs_family d ∧
           bs_ave_device_id d' = bs_ave_device_id d) ∧
  (∀ k d, switches (server w) !! k = Some d →
     ∃ d', switches (server w') !! k = Some d' ∧
           sw_unique_id d' = sw_unique_id d ∧ sw_family d' = sw_family d ∧
           sw_ave_device_id d' = sw_ave_device_id d).
Proof.
  cbv zeta. pose proof (run_grows events (p, w)) as G. cbn [snd] in G.
  split; intros k d Hk.
  - pose proof (grows_sensors _ _ G k) as H. rewrite Hk in H.
    destruct (binary_sensors (server (snd (run events (p, w)))) !! k)
      as [d'|]; [|contradiction].
    exists d'. split; [reflexivity | exact H].
  - pose proof (grows_switches _ _ G k) as H. rewrite Hk in H.
    destruct (switches (server (snd (run events (p, w)))) !! k)
      as [d'|]; [|contradiction].
    exists d'. split; [reflexivity | exact H].
Qed.

(** X11: an entry that a run of the connection loop adds to a table is of a
    family the settings enable (12 with [fetch_sensor_areas], 1007 with
    [fetch_sensors], 1 with [fetch_lights]) and is stored under the unique
    id made of its own family and device id, which is also its
    [unique_id]. *)
Theorem new_devices_pass_the_gate (events : list net_event) (p : pc)
    (w : world) :
  let w' := snd (run events (p, w)) in
  (∀ k d, binary_sensors (server w) !! k = None →
     binary_sensors (server w') !! k = Some d →
     binary_sensor_enabled (settings (server w)) (bs_family d) = true ∧
     k = binary_sensor_set_sensor_uid (bs_family d) (bs_ave_device_id d) ∧
     bs_unique_id d = k) ∧
  (∀ k d, switches (server w) !! k = None →
     switches (server w') !! k = Some d →
     fetch_lights (settings (server w)) = true ∧ sw_family d = 1 ∧
     k = switch_set_sensor_uid 1 (sw_ave_device_id d) ∧ sw_unique_id d = k).
Proof.
  cbv zeta. pose proof (run_grows events (p, w)) as G. cbn [snd] in G.
  split; intros k d Hk Hk'.
  - pose proof (grows_sensors _ _ G k) as H. now rewrite Hk, Hk' in H.
  - pose proof (grows_switches _ _ G k) as H. now rewrite Hk, Hk' in H.
Qed.

(** X12: a family that the settings disable is never touched: with
    [fetch_lights] off the table of switches stays as it is through any run
    of the connection loop, with [fetch_sensor_areas] and [fetch_sensors]
    off so does the table of binary sensors, and with all three off the host
    receives no notification (no state write, no new entity). *)
Theorem disabled_families_untouched (events : list net_event) (p : pc)
    (w : world) :
  let w' := snd (run events (p, w)) in
  (fetch_lights (settings (server w)) = false →
   switches (server w') = switches (server w)) ∧
  (fetch_sensor_areas (settings (server w)) = false →
   fetch_sensors (settings (server w)) = false →
   binary_sensors (server w') = binary_sensors (server w)) ∧
  (fetch_lights (settings (server w)) = false →
   fetch_sensor_areas (settings (server w)) = false →
   fetch_sensors (settings (server w)) = false →
   ∃ evs, trace w' = trace w ++ evs ∧
          Forall (λ e, is_notification e = false) evs).
Proof.
  cbv zeta. pose proof (run_grows events (p, w)) as G. cbn [snd] in G.
  destruct G as [_ _ _ _ (evs & Ht & Hq) _ _ Hb Hw].
  repeat split; [exact Hw | exact Hb|].
  intros Hl Ha Hs. exists evs. split; [exact Ht|]. now apply Hq.
Qed.

(** X13: if every entry of the two tables is stored under its own
    [unique_id], this is still so after any run of the connection loop. *)
Theorem entries_stay_keyed (events : list net_event) (p : pc) (w : world) :
  keyed w → keyed (snd (run events (p, w))).
Proof.
  apply grows_keyed. exact (run_grows events (p, w)).
Qed.

(** *** Commands to a switch *)

Lemma lit_latin1 (s : string) : Forall (λ c, (c < 256)%N) (lit s).
Proof.
  induction s as [|a s IH]; [constructor|].
  rewrite lit_cons. constructor; [|exact IH].
  pose proof (N_ascii_bounded a). exact H.
Qed.

Lemma switch_command_sends (device_id : Z) (op : string) (w : world) :
  socket_usable (ws_conn (server w)) = true →
  switch_command device_id op w =
    (Ok tt,
     mkWorld (server w) (clock w)
       (trace w ++
        [SendStr (full_message (lit "EBI")
                    (PList [str_of_int device_id; lit op]))])).
Proof.
  intros Hs. unfold switch_command, send_ws_command.
  drive ltac:(rewrite ?Hs). reflexivity.
Qed.

Lemma switch_command_offline (device_id : Z) (op : string) (w : world) :
  socket_usable (ws_conn (server w)) = false →
  switch_command device_id op w =
    (Ok tt, logged ERROR "WebSocket is not connected" w).
Proof.
  intros Hs. unfold switch_command, logged.
  drive ltac:(rewrite ?Hs). reflexivity.
Qed.

Lemma ebi_decodes (device_id : Z) (op : string) :
  no_control (lit op) →
  decode (full_message (lit "EBI") (PList [str_of_int device_id; lit op])) =
    [mkFrame (lit "EBI") [str_of_int device_id; lit op] []].
Proof.
  intros Hop.
  destruct (full_message_framed (lit "EBI")
              (PList [str_of_int device_id; lit op]))
    as (h1 & h2 & Hh1 & Hh2 & ->).
  - apply xor_ords_latin1. rewrite frame_body_header. cbn [iterate].
    unfold header. rewrite bool_decide_eq_false_2 by discriminate.
    change (join (chr GS) [str_of_int device_id; lit op])
      with (str_of_int device_id ++ chr GS ++ lit op).
    repeat first
      [ apply lit_latin1 | apply str_of_int_latin1 | apply Forall_nil
      | apply Forall_app; split | apply Forall_cons; split
      | (vm_compute; reflexivity) ].
  - apply decode_framed; [|cbn [iterate]|exact Hh1|exact Hh2].
    + vm_compute. repeat constructor.
    + repeat constructor; [apply str_of_int_no_control | exact Hop].
Qed.

(** X14: [switch_turn_on], [switch_turn_off] and [switch_toggle] on an open
    socket return after sending one frame, which decodes to the command EBI
    with two parameters, the device id in decimal (read back by [int]) and
    the operation 11, 12 or 10; on a missing or closed socket they send
    nothing and log one error. *)
Theorem switch_commands_on_the_wire (device_id : Z) (w : world) :
  let ebi op :=
    full_message (lit "EBI") (PList [str_of_int device_id; lit op]) in
  let sent frame :=
    mkWorld (server w) (clock w) (trace w ++ [SendStr frame]) in
  (socket_usable (ws_conn (server w)) = true →
   switch_turn_on device_id w = (Ok tt, sent (ebi "11"%string)) ∧
   switch_turn_off device_id w = (Ok tt, sent (ebi "12"%string)) ∧
   switch_toggle device_id w = (Ok tt, sent (ebi "10"%string))) ∧
  (socket_usable (ws_conn (server w)) = false →
   let offline := (Ok tt, logged ERROR "WebSocket is not connected" w) in
   switch_turn_on device_id w = offline ∧
   switch_turn_off device_id w = offline ∧
   switch_toggle device_id w = offline) ∧
  Forall (λ op, decode (ebi op) =
                  [mkFrame (lit "EBI") [str_of_int device_id; lit op] []])
    ["11"; "12"; "10"]%string ∧
  int_of_str (str_of_int device_id) = Some device_id.
Proof.
  cbv zeta. split; [|split; [|split]].
  - intros Hs. unfold switch_turn_on, switch_turn_off, switch_toggle.
    now rewrite !switch_command_sends.
  - intros Hs. unfold switch_turn_on, switch_turn_off, switch_toggle.
    now rewrite !switch_command_offline.
  - repeat constructor; apply ebi_decodes; vm_compute; repeat constructor.
  - apply int_of_str_of_int.
Qed.

(** *** The loop without a hub *)

Lemma world_eta w : mkWorld (server w) (clock w) (trace w) = w.
Proof. now destruct w. Qed.

Lemma connect_fails_step (w : world) :
  closed (server w) = false → needs_connect (server w) = true →
  step Connecting ConnectFails w =
    (Connecting,
     mkWorld (server w) (clock w)
       (trace w ++
        [Log ERROR "Failed to connect to WebSocket server: %s";
         Log ERROR "Failed to authenticate with WebSocket server";
         Sleep 5;
         Log DEBUG "Attempting to connect to WebSocket server"])).
Proof.
  intros Hc Hn. cbn [step]. unfold loop_head, authenticate_fails.
  drive ltac:(rewrite ?Hc, ?Hn). rewrite <- !app_assoc. reflexivity.
Qed.


(** X15: while the hub cannot be reached the loop never gives up and sends
    nothing: [n] failed connection attempts in a row leave the loop waiting
    for the next attempt, the server as it was, and in the trace, [n]
    times, the two error entries, a sleep of 5 seconds and the entry of the
    new attempt. *)
Theorem failed_connects_retry (n : nat) (w : world) :
  closed (server w) = false → needs_connect (server w) = true →
  run (List.repeat ConnectFails n) (Connecting, w) =
    (Connecting,
     mkWorld (server w) (clock w)
       (trace w ++
        concat (List.repeat
          [Log ERROR "Failed to connect to WebSocket server: %s";
           Log ERROR "Failed to authenticate with WebSocket server";
           Sleep 5;
           Log DEBUG "Attempting to connect to WebSocket server"] n))).
Proof.
  intros Hc Hn. revert w Hc Hn. induction n as [|n IH]; intros w Hc Hn.
  - cbn [List.repeat concat run fold_left]. now rewrite app_nil_r, world_eta.
  - cbn [List.repeat concat run fold_left fst snd].
    rewrite connect_fails_step by assumption.
    change (fold_left _ (List.repeat ConnectFails n) ?st)
      with (run (List.repeat ConnectFails n) st).
    rewrite IH by assumption. cbn [server clock trace].
    now rewrite <- app_assoc.
Qed.

(** *** Disconnecting *)

Lemma run_stopped events w : run events (Stopped, w) = (Stopped, w).
Proof. induction events as [|[] events IH]; cbn in *; auto. Qed.

Lemma disconnect_closed w :
  closed (server (run_ disconnect w)) = true ∧
  ws_conn (server (run_ disconnect w)) = NoSocket.
Proof.
  unfold disconnect. monad. unfold set_closed. fields.
  destruct (ws_conn (server w)) eqn:E; monad;
    unfold set_connected, set_ws_conn; fields; auto.
Qed.

(** X16: [disconnect] marks the server closed and drops the socket; the
    receive loop then stops, and whatever arrives afterwards is not looked
    at; once the server is closed the loop stays stopped, and a later
    [start] returns without a connection attempt, a sleep or a frame: it
    adds log entries only. *)
Theorem disconnect_ends_the_loop (events : list net_event) (w : world) :
  let w' := run_ disconnect w in
  closed (server w') = true ∧ ws_conn (server w') = NoSocket ∧
  run (DisconnectCalled :: events) (Receiving, w) =
    (Stopped, logged DEBUG "WebSocket connection stopped" w') ∧
  fst (start events w') = Stopped ∧
  ∃ logs, trace (snd (start events w')) = trace w' ++ logs ∧
          Forall (λ e, is_log e = true) logs.
Proof.
  cbv zeta. destruct (disconnect_closed w) as [Hc Hs].
  split; [exact Hc|]. split; [exact Hs|]. split.
  - cbn [run fold_left fst snd step]. unfold loop_head. rewrite Hc.
    apply run_stopped.
  - unfold start. destruct (started (server (run_ disconnect w))) eqn:Hst.
    + split; [reflexivity|]. cbn [snd]. monad. eexists.
      split; [reflexivity | repeat constructor].
    + unfold loop_head.
      assert (Hc' : closed (server (run_
                (do s <- get_server;
                 do_ put_server (set_started true s);
                 log DEBUG "Starting WebSocket connection")
                (run_ disconnect w))) = true).
      { monad. unfold set_started. fields. exact Hc. }
      cbv zeta. rewrite Hc'. rewrite run_stopped. split; [reflexivity|].
      cbn [snd]. monad. eexists.
      split; [rewrite <- app_assoc; reflexivity | repeat constructor].
Qed.

(** *** Construction *)



(** *** Bytes and text *)

(** X18: a binary message whose bytes are all below 0x80 is handled as the
    text of the same code points. *)
Theorem ascii_bytes_are_text (data : list Byte.byte) (w : world) :
  Forall (λ b, (Byte.to_N b < 0x80)%N) data →
  on_message (Bytes data) w = on_message (Text (map Byte.to_N data)) w.
Proof.
  intros H. unfold on_message.
  rewrite (utf8_decode_ascii (map Byte.to_N data)); [reflexivity|].
  now apply Forall_map.
Qed.

(** *** The hub status *)



(** *** Names given in the host *)

Lemma switch_rename_kept (id status : Z) (name : option str)
    (d : LightSwitch) (w : world) :
  let unique_id := switch_set_sensor_uid 1 id in
  fetch_lights (settings (server w)) = true →
  switches (server w) !! unique_id = Some d →
  switch_check_name_changed (hass (server w)) unique_id = true →
  ∃ d',
    switches (server (snd (switch_update_switch 1 id status name w)))
      !! unique_id = Some d' ∧
    sw_name d' = sw_name d ∧
    (get_entity_names (settings (server w)) = true → is_Some name →
     sw_ave_name d' = name).
Proof.
  intros unique_id Hon Hin Hch.
  unfold switch_update_switch, on_switch. fold unique_id.
  clearbody unique_id. change (1 =? 1) with true.
  unfold LightSwitch_update_state, LightSwitch_set_ave_name.
  destruct name as [n|], (get_entity_names (settings (server w))) eqn:Hn,
    (0 <=? status) eqn:H0, (status <? 0) eqn:H1;
    drive ltac:(rewrite ?Hon, ?Hin, ?Hch, ?Hn, ?H0, ?H1, ?lookup_insert_eq,
                  ?bool_decide_eq_true_2 by eauto);
    rewrite ?lookup_insert_eq, ?Hin; eexists; (split; [reflexivity|]);
    (split; [reflexivity|]); intros; try reflexivity; try discriminate;
    match goal with H : is_Some None |- _ => destruct H; discriminate end.
Qed.

Lemma binary_sensor_rename_kept (family id status : Z) (name : option str)
    (d : MotionBinarySensor) (w : world) :
  let unique_id := binary_sensor_set_sensor_uid family id in
  binary_sensor_enabled (settings (server w)) family = true →
  binary_sensors (server w) !! unique_id = Some d →
  binary_sensor_check_name_changed (hass (server w)) unique_id = true →
  ∃ d',
    binary_sensors
      (server (snd (binary_sensor_update_binary_sensor family id status name
                      w)))
      !! unique_id = Some d' ∧
    bs_name d' = bs_name d ∧
    (get_entity_names (settings (server w)) = true → is_Some name →
     bs_ave_name d' = name).
Proof.
  intros unique_id Hon Hin Hch.
  unfold binary_sensor_update_binary_sensor, on_binary_sensor.
  fold unique_id. clearbody unique_id.
  unfold binary_sensor_enabled in Hon.
  unfold MotionBinarySensor_update_state, MotionBinarySensor_set_ave_name.
  assert (Hfam : (family =? 12) && (family =? 1007) = false).
  { destruct (Z.eqb_spec family 12) as [->|]; reflexivity. }
  destruct (family =? 12), (family =? 1007); try discriminate Hfam;
    destruct
    (fetch_sensor_areas (settings (server w))) eqn:Ha,
    (fetch_sensors (settings (server w))) eqn:Hb; try discriminate Hon;
    destruct name as [n|], (get_entity_names (settings (server w))) eqn:Hn,
      (0 <=? status) eqn:H0;
    drive ltac:(rewrite ?Ha, ?Hb, ?Hin, ?Hch, ?Hn, ?H0, ?lookup_insert_eq,
                  ?bool_decide_eq_true_2 by eauto);
    rewrite ?lookup_insert_eq, ?Hin; eexists; (split; [reflexivity|]);
    (split; [reflexivity|]); intros; try reflexivity; try discriminate;
    match goal with H : is_Some None |- _ => destruct H; discriminate end.
Qed.

(** X20: a name given in the host is kept: when [check_name_changed] holds
    for a device of the table, [update_switch] and [update_binary_sensor]
    leave the entity's name as it is, whatever status and name the hub
    sends; with [get_entity_names] on, the hub's name goes to the AVE name
    of the entity. *)
Theorem local_rename_is_kept (family id status : Z) (name : option str)
    (w : world) :
  (∀ d,
     fetch_lights (settings (server w)) = true →
     switches (server w) !! switch_set_sensor_uid 1 id = Some d →
     switch_check_name_changed (hass (server w))
       (switch_set_sensor_uid 1 id) = true →
     ∃ d',
       switches (server (snd (switch_update_switch 1 id status name w)))
         !! switch_set_sensor_uid 1 id = Some d' ∧
       sw_name d' = sw_name d ∧
       (get_entity_names (settings (server w)) = true → is_Some name →
        sw_ave_name d' = name)) ∧
  (∀ d,
     binary_sensor_enabled (settings (server w)) family = true →
     binary_sensors (server w) !! binary_sensor_set_sensor_uid family id
       = Some d →
     binary_sensor_check_name_changed (hass (server w))
       (binary_sensor_set_sensor_uid family id) = true →
     ∃ d',
       binary_sensors
         (server (snd (binary_sensor_update_binary_sensor family id status
                         name w)))
         !! binary_sensor_set_sensor_uid family id = Some d' ∧
       bs_name d' = bs_name d ∧
       (get_entity_names (settings (server w)) = true → is_Some name →
        bs_ave_name d' = name)).
Proof.
  split; intros d.
  - apply switch_rename_kept.
  - apply binary_sensor_rename_kept.
Qed.

(** *** Status updates on the wire *)



Lemma upd_WS_sets_switch (w : world) (p1 p2 p3 : str) (id status : Z)
    (d : LightSwitch) (records : list (list str)) :
  int_of_str p1 = Some 1 → int_of_str p2 = Some id →
  int_of_str p3 = Some status →
  id <= 200000 → 0 <= status →
  fetch_lights (settings (server w)) = true →
  update_switch (server w) = Some UpdateSwitchFn →
  switches (server w) !! switch_set_sensor_uid 1 id = Some d →
  manage_commands (lit "upd") [lit "WS"; p1; p2; p3] records w =
    (Ok tt,
     switch_stored (switch_set_sensor_uid 1 id)
       (fst (LightSwitch_update_state (Some status) d))
       [Log DEBUG " Updating switch for family %s, device_id %s";
        WriteHaState (sw_unique_id d)] w).
Proof.
  intros H1 H2 H3 Hid Hs Hon Hslot Hin.
  assert (Hbig : (id >? 200000) = false) by (rewrite Z.gtb_ltb; apply Z.ltb_ge; lia).
  rewrite <- (update_switch_status w id status d Hon Hin Hs).
  unfold manage_commands. monad. unfold manage_upd, int, self_update_switch.
  unfold call_updater.
  drive ltac:(rewrite ?H1, ?H2, ?H3, ?Hbig, ?Hon, ?Hslot;
              change (1 =? 1) with true).
  reflexivity.
Qed.

Lemma upd_XA_sets_area (w : world) (p2 p3 p4 p5 p6 : str) (id clear : Z)
    (d : MotionBinarySensor) (records : list (list str)) :
  int_of_str p2 = Some id → int_of_str p6 = Some clear →
  fetch_sensor_areas (settings (server w)) = true →
  update_binary_sensor (server w) = Some UpdateBinarySensorFn →
  binary_sensors (server w) !! binary_sensor_set_sensor_uid 12 id = Some d →
  manage_commands (lit "upd") [lit "X"; lit "A"; p2; p3; p4; p5; p6] records
    w =
    (Ok tt,
     binary_sensor_stored (binary_sensor_set_sensor_uid 12 id)
       (fst (MotionBinarySensor_update_state (clock w)
               (Some (if clear >? 0 then 0 else 1)) d))
       [Log DEBUG " Updating binary sensor for family %s, device_id %s";
        WriteHaState (bs_unique_id d)] w).
Proof.
  intros H2 H6 Hon Hslot Hin.
  assert (Hen : binary_sensor_enabled (settings (server w)) 12 = true).
  { unfold binary_sensor_enabled. now rewrite Hon. }
  assert (Hs : 0 <= (if clear >? 0 then 0 else 1))
    by (destruct (clear >? 0); lia).
  rewrite <- (update_binary_sensor_status w 12 id _ d Hen Hin Hs).
  unfold manage_commands. monad.
  unfold manage_upd, int, self_update_binary_sensor, call_updater.
  drive ltac:(rewrite ?H2, ?H6, ?Hon, ?Hslot).
  reflexivity.
Qed.

Lemma upd_XS_sets_sensor (w : world) (p2 p3 p4 : str) (id status : Z)
    (d : MotionBinarySensor) (records : list (list str)) :
  int_of_str p2 = Some id → int_of_str p4 = Some status → 0 <= status →
  fetch_sensors (settings (server w)) = true →
  update_binary_sensor (server w) = Some UpdateBinarySensorFn →
  binary_sensors (server w) !! binary_sensor_set_sensor_uid 1007 id = Some d →
  manage_commands (lit "upd") [lit "X"; lit "S"; p2; p3; p4] records w =
    (Ok tt,
     binary_sensor_stored (binary_sensor_set_sensor_uid 1007 id)
       (fst (MotionBinarySensor_update_state (clock w) (Some status) d))
       [Log DEBUG " Updating binary sensor for family %s, device_id %s";
        WriteHaState (bs_unique_id d)] w).
Proof.
  intros H2 H4 Hs Hon Hslot Hin.
  assert (Hen : binary_sensor_enabled (settings (server w)) 1007 = true).
  { unfold binary_sensor_enabled. rewrite Hon. reflexivity. }
  rewrite <- (update_binary_sensor_status w 1007 id _ d Hen Hin Hs).
  unfold manage_commands. monad.
  unfold manage_upd, int, self_update_binary_sensor, call_updater.
  drive ltac:(rewrite ?H2, ?H4, ?Hon, ?Hslot).
  reflexivity.
Qed.

(** X21: what an [upd] frame of the hub does to a device of the table, with
    the platform's update function registered and the family enabled. The
    numeric fields are any text of at most 4300 characters that [int]
    reads.
    - [WS 1 id status], with [id] at most 200000 and [status >= 0]: the
      switch of that id shows on iff [status] is not 0.
    - [X A id _ _ _ clear]: the area sensor of that id shows motion iff
      [clear] is not positive.
    - [X S id _ status], with [status >= 0]: the sensor of that id shows
      motion iff [status] is positive.
    In each case the frame returns normally, replaces that entry only and
    leaves the other table as it was, and adds to the trace one log entry
    and one write of the entity's state to the host. *)
Theorem status_frames_set_the_state (w : world) (pid : str) (id : Z)
    (records : list (list str)) :
  int_of_str pid = Some id → (length pid <= 4300)%nat →
  (∀ p1 p3 status d,
     int_of_str p1 = Some 1 → (length p1 <= 4300)%nat →
     int_of_str p3 = Some status → (length p3 <= 4300)%nat →
     id <= 200000 → 0 <= status →
     fetch_lights (settings (server w)) = true →
     update_switch (server w) = Some UpdateSwitchFn →
     switches (server w) !! switch_set_sensor_uid 1 id = Some d →
     let r := manage_commands (lit "upd") [lit "WS"; p1; pid; p3] records w in
     ∃ d',
       fst r = Ok tt ∧
       switches (server (snd r)) =
         <[switch_set_sensor_uid 1 id := d']> (switches (server w)) ∧
       binary_sensors (server (snd r)) = binary_sensors (server w) ∧
       trace (snd r) =
         trace w ++
         [Log DEBUG " Updating switch for family %s, device_id %s";
          WriteHaState (sw_unique_id d)] ∧
       LightSwitch_is_on d' = Some (negb (status =? 0))) ∧
  (∀ p3 p4 p5 p6 clear d,
     int_of_str p6 = Some clear → (length p6 <= 4300)%nat →
     fetch_sensor_areas (settings (server w)) = true →
     update_binary_sensor (server w) = Some UpdateBinarySensorFn →
     binary_sensors (server w) !! binary_sensor_set_sensor_uid 12 id
       = Some d →
     let r :=
       manage_commands (lit "upd") [lit "X"; lit "A"; pid; p3; p4; p5; p6]
         records w in
     ∃ d',
       fst r = Ok tt ∧
       binary_sensors (server (snd r)) =
         <[binary_sensor_set_sensor_uid 12 id := d']>
           (binary_sensors (server w)) ∧
       switches (server (snd r)) = switches (server w) ∧
       trace (snd r) =
         trace w ++
         [Log DEBUG " Updating binary sensor for family %s, device_id %s";
          WriteHaState (bs_unique_id d)] ∧
       MotionBinarySensor_is_on d' = Some (negb (clear >? 0))) ∧
  (∀ p3 p4 status d,
     int_of_str p4 = Some status → (length p4 <= 4300)%nat →
     0 <= status →
     fetch_sensors (settings (server w)) = true →
     update_binary_sensor (server w) = Some UpdateBinarySensorFn →
     binary_sensors (server w) !! binary_sensor_set_sensor_uid 1007 id
       = Some d →
     let r :=
       manage_commands (lit "upd") [lit "X"; lit "S"; pid; p3; p4] records w in
     ∃ d',
       fst r = Ok tt ∧
       binary_sensors (server (snd r)) =
         <[binary_sensor_set_sensor_uid 1007 id := d']>
           (binary_sensors (server w)) ∧
       switches (server (snd r)) = switches (server w) ∧
       trace (snd r) =
         trace w ++
         [Log DEBUG " Updating binary sensor for family %s, device_id %s";
          WriteHaState (bs_unique_id d)] ∧
       MotionBinarySensor_is_on d' = Some (status >? 0)).
Proof.
  intros Hid _. split; [|split].
  - intros p1 p3 status d H1 _ H3 _ Hmax Hs Hon Hslot Hin r.
    exists (fst (LightSwitch_update_state (Some status) d)).
    unfold r.
    rewrite (upd_WS_sets_switch w p1 pid p3 id status d records)
      by assumption.
    unfold switch_stored. fields. do 4 (split; [reflexivity|]).
    unfold LightSwitch_update_state, LightSwitch_is_on, bool_of_int.
    replace (status <? 0) with false by (symmetry; apply Z.ltb_ge; lia).
    reflexivity.
  - intros p3 p4 p5 p6 clear d H6 _ Hon Hslot Hin r.
    exists (fst (MotionBinarySensor_update_state (clock w)
                   (Some (if clear >? 0 then 0 else 1)) d)).
    unfold r.
    rewrite (upd_XA_sets_area w pid p3 p4 p5 p6 id clear d records)
      by assumption.
    unfold binary_sensor_stored. fields. do 4 (split; [reflexivity|]).
    unfold MotionBinarySensor_update_state, MotionBinarySensor_is_on.
    now destruct (clear >? 0).
  - intros p3 p4 status d H4 _ Hs Hon Hslot Hin r.
    exists (fst (MotionBinarySensor_update_state (clock w) (Some status) d)).
    unfold r.
    rewrite (upd_XS_sets_sensor w pid p3 p4 id status d records)
      by assumption.
    unfold binary_sensor_stored. fields. do 4 (split; [reflexivity|]).
    reflexivity.
Qed.

End Integration.

(** ** Concrete runs *)

Import Codec.

(** The checksum of a three-letter command. *)
Lemma build_crc_two_hex_digits_witness :
  build_crc (lit "LDI") =
    [hex_digit (Z.shiftr (0xFF - xor_ords (lit "LDI")) 4);
     hex_digit (Z.land (0xFF - xor_ords (lit "LDI")) 0xF)] ∧
  length (build_crc (lit "LDI")) = 2%nat.
Proof. apply build_crc_two_hex_digits. vm_compute. discriminate. Defined.

(** One character above U+00FF: the checksum has three characters. *)
Lemma build_crc_above_latin1 :
  build_crc [0x100%N] = lit "X1F" ∧ length (build_crc [0x100%N]) ≠ 2%nat.
Proof. split; [reflexivity | vm_compute; discriminate]. Qed.

Lemma decode_full_message_witness :
  decode (full_message (lit "GSF") (PList [lit "12"])) =
    [mkFrame (lit "GSF") [lit "12"] []].
Proof.
  apply decode_full_message.
  - repeat constructor.
  - repeat constructor.
  - vm_compute. discriminate.
Defined.

(** The same character as a command, with no control byte in it: the frame
    does not decode to the command. *)
Lemma decode_full_message_above_latin1 :
  no_control [0x100%N] ∧
  decode (full_message [0x100%N] (PList [])) ≠ [mkFrame [0x100%N] [] []].
Proof. split; [repeat constructor | vm_compute; discriminate]. Qed.





(** A switch and an area sensor created by a first report, then the same
    status applied twice. *)
Lemma repeated_status_keeps_state_witness :
  (let w := run_ (switch_update_switch example_brand 1 5 0 None)
              example_world in
   let w1 := run_ (switch_update_switch example_brand 1 5 1 None) w in
   let w2 :=
     run_ (switch_update_switch example_brand 1 5 1 None) (set_clock 20 w1) in
   server w2 = server w1) ∧
  (let w := run_ (binary_sensor_update_binary_sensor example_brand 12 5 0 None)
              example_world in
   let w1 :=
     run_ (binary_sensor_update_binary_sensor example_brand 12 5 1 None) w in
   let w2 :=
     run_ (binary_sensor_update_binary_sensor example_brand 12 5 1 None)
       (set_clock 20 w1) in
   ∃ s1 s2,
     binary_sensors (server w1) !! binary_sensor_set_sensor_uid 12 5 = Some s1 ∧
     binary_sensors (server w2) !! binary_sensor_set_sensor_uid 12 5 = Some s2 ∧
     MotionBinarySensor_is_on s2 = MotionBinarySensor_is_on s1 ∧
     bs_last_cleared s2 = bs_last_cleared s1).
Proof.
  destruct (repeated_status_keeps_state example_brand) as [Hsw Hbs].
  split.
  - intros w w1 w2.
    eapply (Hsw w 5 1 20); [reflexivity | vm_compute; reflexivity | lia].
  - intros w w1 w2.
    edestruct (Hbs w 12 5 1 20) as (s1 & s2 & H1 & H2 & H3 & H4 & H5 & _);
      [reflexivity | vm_compute; reflexivity | lia |].
    exists s1, s2. fold w1 in H1, H2. fold w2 in H2.
    split; [exact H1|]. split; [|split; [congruence | exact H5]].
    rewrite H2. apply lookup_insert_eq.
Defined.

(** The second application of status 1 to an area sensor moves
    [last_revealed] from instant 10 to instant 20 and writes the state to the
    host once more. *)
Lemma repeated_status_restamps_and_notifies :
  let unique_id := binary_sensor_set_sensor_uid 12 5 in
  let w := run_ (binary_sensor_update_binary_sensor example_brand 12 5 0 None)
             example_world in
  let w1 :=
    run_ (binary_sensor_update_binary_sensor example_brand 12 5 1 None) w in
  let w2 :=
    run_ (binary_sensor_update_binary_sensor example_brand 12 5 1 None)
      (set_clock 20 w1) in
  bs_last_revealed <$> binary_sensors (server w1) !! unique_id
    = Some (Some 10) ∧
  bs_last_revealed <$> binary_sensors (server w2) !! unique_id
    = Some (Some 20) ∧
  trace w2 =
    trace w1 ++
    [Log DEBUG " Updating binary sensor for family %s, device_id %s";
     WriteHaState unique_id].
Proof. repeat split; vm_compute; reflexivity. Qed.



(** With the hub's names off the seed stores the sensor, and the order
    shows in [last_revealed]: seeded first, the sensor has it at the
    instant of the report; reported first, it has none. *)
Lemma seed_order_changes_last_revealed :
  let unique_id := binary_sensor_set_sensor_uid 12 5 in
  let seed :=
    binary_sensor_update_binary_sensor example_brand 12 5 (-1)
      (Some (lit "Hall")) in
  let report := binary_sensor_update_binary_sensor example_brand 12 5 1 None in
  let wA := run_ report (run_ seed example_world_names_off) in
  let wB := run_ seed (run_ report example_world_names_off) in
  bs_last_revealed <$> binary_sensors (server wA) !! unique_id
    = Some (Some 10) ∧
  bs_last_revealed <$> binary_sensors (server wB) !! unique_id = Some None ∧
  binary_sensors (server wA) !! unique_id ≠
  binary_sensors (server wB) !! unique_id.
Proof.
  repeat split; try (vm_compute; reflexivity).
  intros E. apply (f_equal (fmap bs_last_revealed)) in E.
  vm_compute in E. discriminate E.
Qed.

(** A freshly constructed server: one refused connection, one accepted. *)
Lemma start_after_failed_connect_witness :
  let r := start example_brand [ConnectFails; ConnectSucceeds] fresh_world in
  fst r = Receiving ∧
  ∃ frames,
    actions (trace (snd r)) =
      actions (trace fresh_world) ++ Sleep 5 :: map SendStr frames ∧
    flat_map decode frames =
      on_connect_frames example_settings [lit "1"; lit "2"].
Proof.
  apply (start_after_failed_connect example_brand fresh_world); reflexivity.
Defined.

(** The bare string ["12"] goes on the wire as two parameters, the list
    [["12"]] as one. *)
Lemma wsf_parameter_is_split :
  decode (full_message (lit "WSF") (PStr (lit "12"))) =
    [mkFrame (lit "WSF") [lit "1"; lit "2"] []] ∧
  decode (full_message (lit "WSF") (PList [lit "12"])) =
    [mkFrame (lit "WSF") [lit "12"] []] ∧
  actions
    (trace (snd (start example_brand [ConnectFails; ConnectSucceeds]
                   fresh_world))) =
    [Sleep 5;
     SendStr (full_message (lit "LDI") PNone);
     SendStr (full_message (lit "GSF") (PList [lit "1"]));
     SendStr (full_message (lit "GSF") (PList [lit "12"]));
     SendStr (full_message (lit "WSF") (PList [lit "1"; lit "2"]));
     SendStr (full_message (lit "SU3") PNone)].
Proof. repeat split; vm_compute; reflexivity. Qed.

(** An area event while the sensor areas are switched off. *)
Lemma antitheft_area_gated_witness :
  manage_commands example_brand (lit "upd")
    (lit "X" :: lit "A" :: map lit ["3"; "0"; "0"; "0"; "1"]%string) []
    example_world_areas_off
  = (Ok tt, example_world_areas_off).
Proof.
  apply (proj1 (antitheft_area_gated example_brand _ [] example_world_areas_off
                  eq_refl)).
Defined.

(** Area 5 and light 7 seeded as [manage_ldi] seeds them: with the hub's
    names off the area sensor reads off, with the names on the seed raises;
    the switch reads unknown. *)
Lemma seeded_devices_state_witness :
  MotionBinarySensor_is_on <$>
    binary_sensors
      (server (run_ (binary_sensor_update_binary_sensor example_brand 12 5
                       (-1) (Some (lit "Hall"))) example_world_names_off))
    !! binary_sensor_set_sensor_uid 12 5
  = Some (Some false) ∧
  fst (binary_sensor_update_binary_sensor example_brand 12 5 (-1)
         (Some (lit "Hall")) example_world) = Raise RuntimeError ∧
  LightSwitch_is_on <$>
    switches
      (server (run_ (switch_update_switch example_brand 1 7 (-1)
                       (Some (lit "Kitchen Light"))) example_world))
    !! switch_set_sensor_uid 1 7
  = Some None.
Proof.
  destruct (seeded_devices_state example_brand) as [Hbs Hsw].
  split; [|split].
  - apply (Hbs example_world_names_off 5 (lit "Hall"));
      [reflexivity | reflexivity | left; reflexivity].
  - apply (Hbs example_world 5 (lit "Hall")); reflexivity.
  - apply (Hsw example_world 7 (lit "Kitchen Light")); reflexivity.
Defined.

(** The listing of area 5 as a frame of the hub, through [on_message], on a
    server with the hub's names off: the sensor is stored, off. *)
Lemma ldi_frame_seeds_sensor_off :
  let frame :=
    [STX] ++ lit "ldi" ++ [RS] ++ lit "5" ++ [GS] ++ lit "Hall" ++ [GS] ++
    lit "12" ++ [ETX] ++ lit "00" ++ [EOT] in
  MotionBinarySensor_is_on <$>
    binary_sensors
      (server (run_ (on_message example_brand (Text frame))
                 example_world_names_off))
    !! binary_sensor_set_sensor_uid 12 5
  = Some (Some false).
Proof. vm_compute. reflexivity. Qed.

(** The same frame with the hub's names on: no sensor is stored, and
    [on_message] logs the exception. *)
Lemma ldi_frame_with_names_stores_nothing :
  let frame :=
    [STX] ++ lit "ldi" ++ [RS] ++ lit "5" ++ [GS] ++ lit "Hall" ++ [GS] ++
    lit "12" ++ [ETX] ++ lit "00" ++ [EOT] in
  let w := run_ (on_message example_brand (Text frame)) example_world in
  binary_sensors (server w) !! binary_sensor_set_sensor_uid 12 5 = None ∧
  trace w =
    [Log INFO "Parsing LDI (List Devices) command";
     Log DEBUG " Updating binary sensor for family %s, device_id %s";
     Log ERROR "Error processing message"].
Proof. split; vm_compute; reflexivity. Qed.

(** ** Concrete runs of the further properties *)

(** Two units and the separator between them, with and without a trailing
    separator. *)
Lemma frames_of_a_buffer_witness :
  let units := [lit "_ping___"; lit "_pong___"] in
  decode (join (chr EOT) units) = map parse_unit units ∧
  decode (join (chr EOT) units ++ chr EOT) = map parse_unit units.
Proof.
  apply frames_of_a_buffer.
  - repeat constructor; discriminate.
  - repeat (constructor; [vm_compute; lia|]). constructor.
Defined.

(** A [gsf] reply for family 1 with two records. *)
Lemma parse_unit_payload_witness :
  parse_unit
    (STX :: payload (lit "gsf") [lit "1"]
              [[lit "5"; lit "1"]; [lit "6"; lit "0"]] ++ ETX :: lit "00") =
    mkFrame (lit "gsf") [lit "1"] [[lit "5"; lit "1"]; [lit "6"; lit "0"]].
Proof.
  apply parse_unit_payload.
  - reflexivity.
  - repeat constructor; discriminate.
  - repeat constructor; discriminate.
Defined.

(** [LDI] and [LDJ] differ in their last character. *)
Lemma build_crc_detects_substitution_witness :
  Forall (λ x, (x < 256)%N) (lit "LD" ++ 73%N :: []) ∧
  build_crc (lit "LD" ++ 73%N :: []) ≠ build_crc (lit "LD" ++ 74%N :: []).
Proof.
  assert (H : Forall (λ x, (x < 256)%N) (lit "LD" ++ 73%N :: []))
    by repeat constructor.
  split; [exact H|].
  apply build_crc_detects_substitution; [exact H | reflexivity | discriminate].
Defined.

Lemma decode_sent_any_parameters_witness :
  decode (full_message (lit "WSF") (PStr (lit "12"))) =
    [mkFrame (lit "WSF") (iterate (PStr (lit "12"))) []].
Proof.
  apply decode_sent_any_parameters.
  - repeat constructor.
  - repeat constructor.
  - vm_compute. discriminate.
Defined.

Lemma unique_ids_tell_devices_apart_witness :
  (12 = 12 ∧ 5 = 5) ∧ (1 = 1 ∧ 7 = 7) ∧
  binary_sensor_set_sensor_uid 12 5 ≠ switch_set_sensor_uid 1 7.
Proof.
  destruct (unique_ids_tell_devices_apart 12 5 12 5) as (H1 & _ & _).
  destruct (unique_ids_tell_devices_apart 1 7 1 7) as (_ & H2 & _).
  destruct (unique_ids_tell_devices_apart 12 5 1 7) as (_ & _ & H3).
  split; [apply H1; reflexivity|]. split; [apply H2; reflexivity | exact H3].
Defined.

(** The registry holds a foreign entity and area 5 under a name given in
    the host. *)
Lemma adoption_restores_sensor_witness :
  let foreign :=
    mkEntity (lit "hue") (lit "light") None (lit "hue_1") false None None in
  let entity :=
    mkEntity (lit "ave_dominaplus") (lit "binary_sensor") (Some (lit "motion"))
      (lit "ave_motion_12_5") true (Some (lit "Hall")) (Some (lit "Area 5")) in
  binary_sensor_adopt_existing_sensors example_brand (Some [foreign; entity])
    example_world =
    (Ok tt,
     binary_sensor_stored (lit "ave_motion_12_5")
       (adopted_sensor example_brand entity 12 5)
       [AddEntities (Callback 0) [lit "ave_motion_12_5"]] example_world) ∧
  MotionBinarySensor_is_on (adopted_sensor example_brand entity 12 5) = None ∧
  bs_family (adopted_sensor example_brand entity 12 5) = 12 ∧
  bs_ave_device_id (adopted_sensor example_brand entity 12 5) = 5.
Proof.
  intros foreign entity.
  apply (adoption_restores_sensor example_brand [foreign] [] entity 12 5
           (Callback 0) example_world);
    try reflexivity.
  - constructor; [left; reflexivity | constructor].
  - constructor.
Defined.

(** With the areas off, area 5 of the registry is passed over. *)
Lemma adoption_passes_over_witness :
  let foreign :=
    mkEntity (lit "hue") (lit "light") None (lit "hue_1") false None None in
  let entity :=
    mkEntity (lit "ave_dominaplus") (lit "binary_sensor") (Some (lit "motion"))
      (lit "ave_motion_12_5") true (Some (lit "Hall")) (Some (lit "Area 5")) in
  binary_sensor_adopt_existing_sensors example_brand (Some [foreign; entity])
    example_world_areas_off = (Ok tt, example_world_areas_off).
Proof.
  intros foreign entity. apply adoption_passes_over.
  constructor; [left; reflexivity|].
  constructor; [|constructor].
  right. right. left. exists 5. split; reflexivity.
Defined.

(** Light 5 is in the table; the hub then reports it on. *)
Lemma devices_never_dropped_witness :
  let w := run_ (switch_update_switch example_brand 1 5 0 None)
             example_world in
  let report :=
    [Byte.x02; Byte.x67; Byte.x73; Byte.x66; Byte.x1d; Byte.x31; Byte.x1e;
     Byte.x35; Byte.x1d; Byte.x31; Byte.x03; Byte.x30; Byte.x30; Byte.x04] in
  let w' := snd (run example_brand [Receive (WS_BINARY report)]
                   (Receiving, w)) in
  ∃ d', switches (server w') !! switch_set_sensor_uid 1 5 = Some d' ∧
        sw_unique_id d' = switch_set_sensor_uid 1 5 ∧ sw_family d' = 1 ∧
        sw_ave_device_id d' = 5.
Proof.
  intros w report w'.
  apply (proj2 (devices_never_dropped example_brand
                  [Receive (WS_BINARY report)] Receiving w)
           (switch_set_sensor_uid 1 5)
           (LightSwitch_init example_brand (switch_set_sensor_uid 1 5) 1 5
              (Some 0) None None)).
  vm_compute. reflexivity.
Defined.

(** The hub reports light 5, which the table does not hold. *)
Lemma new_devices_pass_the_gate_witness :
  let report :=
    [Byte.x02; Byte.x67; Byte.x73; Byte.x66; Byte.x1d; Byte.x31; Byte.x1e;
     Byte.x35; Byte.x1d; Byte.x31; Byte.x03; Byte.x30; Byte.x30; Byte.x04] in
  let d :=
    LightSwitch_init example_brand (switch_set_sensor_uid 1 5) 1 5 (Some 1)
      None None in
  fetch_lights (settings (server example_world)) = true ∧ sw_family d = 1 ∧
  switch_set_sensor_uid 1 5 = switch_set_sensor_uid 1 (sw_ave_device_id d) ∧
  sw_unique_id d = switch_set_sensor_uid 1 5.
Proof.
  intros report d.
  apply (proj2 (new_devices_pass_the_gate example_brand
                  [Receive (WS_BINARY report)] Receiving example_world)
           (switch_set_sensor_uid 1 5) d).
  - reflexivity.
  - vm_compute. reflexivity.
Defined.

(** The same report to a server with the three families off. *)
Lemma disabled_families_untouched_witness :
  let w :=
    mkWorld
      (mkServer (mkSettings (lit "192.168.1.10") true false false false false)
         example_hass OpenSocket true true false
         ∅ (Some UpdateBinarySensorFn) (Some (Callback 0))
         ∅ (Some (Callback 1)) (Some UpdateSwitchFn))
      10 [] in
  let report :=
    [Byte.x02; Byte.x67; Byte.x73; Byte.x66; Byte.x1d; Byte.x31; Byte.x1e;
     Byte.x35; Byte.x1d; Byte.x31; Byte.x03; Byte.x30; Byte.x30; Byte.x04] in
  let w' := snd (run example_brand [Receive (WS_BINARY report)]
                   (Receiving, w)) in
  switches (server w') = switches (server w) ∧
  binary_sensors (server w') = binary_sensors (server w) ∧
  ∃ evs, trace w' = trace w ++ evs ∧
         Forall (λ e, is_notification e = false) evs.
Proof.
  intros w report w'.
  destruct (disabled_families_untouched example_brand
              [Receive (WS_BINARY report)] Receiving w) as (H1 & H2 & H3).
  split; [apply H1; reflexivity|].
  split; [apply H2; reflexivity | apply H3; reflexivity].
Defined.

(** Light 5 is in the table, under its unique id; the hub reports
    light 6. *)
Lemma entries_stay_keyed_witness :
  let d :=
    LightSwitch_init example_brand (switch_set_sensor_uid 1 5) 1 5 (Some 0)
      None None in
  let w :=
    mkWorld
      (mkServer example_settings example_hass OpenSocket true true false
         ∅ (Some UpdateBinarySensorFn) (Some (Callback 0))
         {[ switch_set_sensor_uid 1 5 := d ]} (Some (Callback 1))
         (Some UpdateSwitchFn))
      10 [] in
  let report :=
    [Byte.x02; Byte.x67; Byte.x73; Byte.x66; Byte.x1d; Byte.x31; Byte.x1e;
     Byte.x36; Byte.x1d; Byte.x31; Byte.x03; Byte.x30; Byte.x30; Byte.x04] in
  keyed (snd (run example_brand [Receive (WS_BINARY report)]
                (Receiving, w))).
Proof.
  intros d w report. apply entries_stay_keyed.
  split; intros k x H; unfold w in H;
    cbn [server binary_sensors switches] in H.
  - rewrite lookup_empty in H. discriminate H.
  - apply lookup_singleton_Some in H as [<- <-]. reflexivity.
Defined.

(** Light 7, with the socket open and on a server that never connected. *)
Lemma switch_commands_on_the_wire_witness :
  switch_turn_on 7 example_world =
    (Ok tt,
     mkWorld (server example_world) (clock example_world)
       (trace example_world ++
        [SendStr (full_message (lit "EBI")
                    (PList [str_of_int 7; lit "11"]))])) ∧
  switch_turn_on 7 fresh_world =
    (Ok tt, logged ERROR "WebSocket is not connected" fresh_world).
Proof.
  destruct (switch_commands_on_the_wire 7 example_world) as (H1 & _).
  destruct (switch_commands_on_the_wire 7 fresh_world) as (_ & H2 & _).
  split; [apply H1; reflexivity | apply H2; reflexivity].
Defined.

Lemma failed_connects_retry_witness :
  run example_brand [ConnectFails; ConnectFails; ConnectFails]
    (Connecting, fresh_world) =
    (Connecting,
     mkWorld (server fresh_world) (clock fresh_world)
       (trace fresh_world ++
        concat (List.repeat
          [Log ERROR "Failed to connect to WebSocket server: %s";
           Log ERROR "Failed to authenticate with WebSocket server";
           Sleep 5;
           Log DEBUG "Attempting to connect to WebSocket server"] 3))).
Proof.
  apply (failed_connects_retry example_brand 3 fresh_world); reflexivity.
Defined.


Lemma ascii_bytes_are_text_witness :
  let report :=
    [Byte.x02; Byte.x67; Byte.x73; Byte.x66; Byte.x1d; Byte.x31; Byte.x1e;
     Byte.x35; Byte.x1d; Byte.x31; Byte.x03; Byte.x30; Byte.x30; Byte.x04] in
  on_message example_brand (Bytes report) example_world =
  on_message example_brand (Text (map Byte.to_N report)) example_world.
Proof.
  intros report. apply ascii_bytes_are_text. repeat constructor.
Defined.


(** Light 5 carries a name given in the host; the hub lists it as
    [Kitchen]. *)
Lemma local_rename_is_kept_witness :
  let uid := switch_set_sensor_uid 1 5 in
  let registry :=
    mkHass ∅
      {[ uid := mkRegistryEntry false (Some (lit "AVE light 5"))
                  (Some (lit "Reading lamp")) ]} in
  let w0 :=
    mkWorld
      (mkServer example_settings registry OpenSocket true true false
         ∅ (Some UpdateBinarySensorFn) (Some (Callback 0))
         ∅ (Some (Callback 1)) (Some UpdateSwitchFn))
      10 [] in
  let w := run_ (switch_update_switch example_brand 1 5 0 None) w0 in
  let d := LightSwitch_init example_brand uid 1 5 (Some 0) None None in
  ∃ d',
    switches
      (server (snd (switch_update_switch example_brand 1 5 (-1)
                      (Some (lit "Kitchen")) w)))
      !! uid = Some d' ∧
    sw_name d' = sw_name d ∧
    (get_entity_names (settings (server w)) = true →
     is_Some (Some (lit "Kitchen")) →
     sw_ave_name d' = Some (lit "Kitchen")).
Proof.
  intros uid registry w0 w d.
  apply (proj1 (local_rename_is_kept example_brand 12 5 (-1)
                  (Some (lit "Kitchen")) w) d).
  - reflexivity.
  - vm_compute. reflexivity.
  - vm_compute. reflexivity.
Defined.

(** Light 5 is in the table, off; the hub reports it on. *)
Lemma status_frames_set_the_state_witness :
  let uid := switch_set_sensor_uid 1 5 in
  let w := run_ (switch_update_switch example_brand 1 5 0 None)
             example_world in
  let d := LightSwitch_init example_brand uid 1 5 (Some 0) None None in
  let r :=
    manage_commands example_brand (lit "upd")
      [lit "WS"; lit "1"; lit "5"; lit "1"] [] w in
  ∃ d',
    fst r = Ok tt ∧
    switches (server (snd r)) = <[uid := d']> (switches (server w)) ∧
    binary_sensors (server (snd r)) = binary_sensors (server w) ∧
    trace (snd r) =
      trace w ++
      [Log DEBUG " Updating switch for family %s, device_id %s";
       WriteHaState (sw_unique_id d)] ∧
    LightSwitch_is_on d' = Some (negb (1 =? 0)).
Proof.
  intros uid w d.
  assert (Hlen : (length (lit "5") <= 4300)%nat) by (vm_compute; lia).
  assert (Hlen1 : (length (lit "1") <= 4300)%nat) by (vm_compute; lia).
  apply (proj1 (status_frames_set_the_state example_brand w (lit "5") 5 []
                  eq_refl Hlen) (lit "1") (lit "1") 1 d);
    try reflexivity; try exact Hlen1; lia.
Defined.
